(** * pdf2any: the document pipeline of [app/], embedded in Rocq

    The development follows the Python sources module by module:
    - [Py]: the values the extractor hands around (JSON payloads held in
      Python objects), with the builtins the sources call on them;
    - [tasks]: the in-memory ledger of [app/tasks.py];
    - [processing]: response validation, reconciliation and the Excel
      writer of [app/processing.py];
    - [workflow_manager] and [main]: the orchestrator and the HTTP
      handlers that touch the ledger;
    - [gcs_utils]: the upload helper of [app/utils/gcs_utils.py];
    - [ocr], [markdown] and [llm]: the OCR stage, the Markdown helper and
      the cleaning of a model response of [app/processing.py].

    Library code (json, pandas, openpyxl, the OCR engine, the Gemini client,
    the file system) is not part of the repository: where the control flow
    of the sources depends on what a library call does, the call is a field
    of an environment record and the theorems quantify over it. *)

From Stdlib Require Import ZArith DecimalString Ascii String List Bool Lia Sorted.
From stdpp Require Import gmap strings list.

(** ** Python values *)

Module Py.

(** A text is a sequence of code points; the model keeps the code points
    U+0000..U+00FF, one [ascii] each. *)
Definition nl : string := String "010"%char EmptyString.
Definition tab : string := String "009"%char EmptyString.

(** The payload of the extractor: what [json.loads] can build.  A float is
    kept as its [repr] text, which determines it; a dict keeps its items in
    insertion order, as Python does. *)
#[warnings="-register-all"]
Inductive pyval : Type :=
| PNone
| PBool (b : bool)
| PInt (z : Z)
| PFloat (repr : string)
| PStr (s : string)
| PList (items : list pyval)
| PDict (items : list (string * pyval)).

(** *** dict operations, on the ordered list of items *)

Section Dict.
Context {V : Type}.

(** [d.get(k)] *)
Fixpoint dict_get (k : string) (d : list (string * V)) : option V :=
  match d with
  | [] => None
  | (k', v) :: d' => if String.eqb k k' then Some v else dict_get k d'
  end.

(** [k in d] *)
Definition dict_has (k : string) (d : list (string * V)) : bool :=
  match dict_get k d with Some _ => true | None => false end.

(** [d[k] = v]: an existing key keeps its place, a new one goes last. *)
Fixpoint dict_set (k : string) (v : V) (d : list (string * V)) : list (string * V) :=
  match d with
  | [] => [(k, v)]
  | (k', v') :: d' =>
      if String.eqb k k' then (k, v) :: d' else (k', v') :: dict_set k v d'
  end.

(** [d.update(other)], and a dict display or comprehension read left to
    right. *)
Definition dict_update (d other : list (string * V)) : list (string * V) :=
  fold_left (fun acc kv => dict_set (fst kv) (snd kv) acc) other d.

Definition dict_of_items (items : list (string * V)) : list (string * V) :=
  dict_update [] items.
End Dict.

(** *** isinstance and truth value *)

Definition is_dict (v : pyval) : bool := match v with PDict _ => true | _ => false end.
Definition is_list (v : pyval) : bool := match v with PList _ => true | _ => false end.
Definition is_str (v : pyval) : bool := match v with PStr _ => true | _ => false end.

(** [bool(v)] *)
Definition truthy (v : pyval) : bool :=
  match v with
  | PNone => false
  | PBool b => b
  | PInt z => negb (Z.eqb z 0)
  | PFloat r => negb (String.eqb r "0.0" || String.eqb r "-0.0")
  | PStr s => negb (String.eqb s "")
  | PList l => match l with [] => false | _ => true end
  | PDict d => match d with [] => false | _ => true end
  end.

(** [type(v).__name__] *)
Definition type_name (v : pyval) : string :=
  match v with
  | PNone => "NoneType"
  | PBool _ => "bool"
  | PInt _ => "int"
  | PFloat _ => "float"
  | PStr _ => "str"
  | PList _ => "list"
  | PDict _ => "dict"
  end.

(** *** characters *)

Definition code (c : ascii) : N := N_of_ascii c.

Definition in_range (lo hi : N) (c : ascii) : bool :=
  (N.leb lo (code c) && N.leb (code c) hi)%bool.

(** [c.isalnum()]: letters, decimal digits and the other numeric characters
    of the Unicode database, here for U+0000..U+00FF. *)
Definition isalnum (c : ascii) : bool :=
  (in_range 48 57 c || in_range 65 90 c || in_range 97 122 c
   || N.eqb (code c) 170 || N.eqb (code c) 178 || N.eqb (code c) 179
   || N.eqb (code c) 181 || N.eqb (code c) 185 || N.eqb (code c) 186
   || in_range 188 190 c || in_range 192 214 c || in_range 216 246 c
   || in_range 248 255 c)%bool.

(** [c.isspace()] *)
Definition isspace (c : ascii) : bool :=
  (in_range 9 13 c || in_range 28 32 c || N.eqb (code c) 133 || N.eqb (code c) 160)%bool.

(** [c.lower()] *)
Definition lower_char (c : ascii) : ascii :=
  if (in_range 65 90 c || (in_range 192 222 c && negb (N.eqb (code c) 215)))%bool
  then ascii_of_N (code c + 32) else c.

(** [c.isprintable()], which [repr] consults. *)
Definition isprintable (c : ascii) : bool :=
  (in_range 32 126 c || (in_range 161 255 c && negb (N.eqb (code c) 173)))%bool.

(** *** texts *)

Fixpoint map_chars (f : ascii -> ascii) (s : string) : string :=
  match s with
  | EmptyString => EmptyString
  | String c s' => String (f c) (map_chars f s')
  end.

Fixpoint contains_char (c : ascii) (s : string) : bool :=
  match s with
  | EmptyString => false
  | String c' s' => if Ascii.eqb c c' then true else contains_char c s'
  end.

(** [s.lower()] *)
Definition lower (s : string) : string := map_chars lower_char s.

(** [s.endswith(suffix)] *)
Definition endswith (s suffix : string) : bool :=
  let n := String.length s in
  let m := String.length suffix in
  (Nat.leb m n && String.eqb (String.substring (n - m) m s) suffix)%bool.

(** [sep.join(parts)] *)
Fixpoint join (sep : string) (parts : list string) : string :=
  match parts with
  | [] => ""
  | [p] => p
  | p :: rest => p +:+ sep +:+ join sep rest
  end.

(** [str(n)] for an int. *)
Definition str_of_Z (z : Z) : string := NilZero.string_of_int (Z.to_int z).
Definition str_of_nat (n : nat) : string := str_of_Z (Z.of_nat n).

Definition hex_digit (n : N) : string :=
  String.substring (N.to_nat n) 1 "0123456789abcdef".

(** One character of [repr(s)], inside quotes [q]. *)
Definition repr_char (q : ascii) (c : ascii) : string :=
  if (Ascii.eqb c q || Ascii.eqb c "\"%char)%bool then String "\"%char (String c "")
  else if Ascii.eqb c "009"%char then "\t"
  else if Ascii.eqb c "010"%char then "\n"
  else if Ascii.eqb c "013"%char then "\r"
  else if isprintable c then String c ""
  else "\x" +:+ hex_digit (code c / 16) +:+ hex_digit (code c mod 16).

Fixpoint repr_chars (q : ascii) (s : string) : string :=
  match s with
  | EmptyString => EmptyString
  | String c s' => repr_char q c +:+ repr_chars q s'
  end.

(** [repr(s)] for a text: single quotes, unless the text has a single quote
    and no double quote. *)
Definition repr_str (s : string) : string :=
  let q := if (contains_char "'"%char s && negb (contains_char "034"%char s))%bool
           then "034"%char else "'"%char in
  String q (repr_chars q s) +:+ String q "".

(** [repr(v)] *)
Fixpoint py_repr (v : pyval) : string :=
  match v with
  | PNone => "None"
  | PBool true => "True"
  | PBool false => "False"
  | PInt z => str_of_Z z
  | PFloat r => r
  | PStr s => repr_str s
  | PList l => "[" +:+ join ", " (List.map py_repr l) +:+ "]"
  | PDict d =>
      "{" +:+ join ", " (List.map (fun kv => match kv with
                                          | (k, x) => repr_str k +:+ ": " +:+ py_repr x
                                          end) d) +:+ "}"
  end.

(** [str(v)] *)
Definition py_str (v : pyval) : string :=
  match v with
  | PStr s => s
  | _ => py_repr v
  end.

End Py.

(** ** Exceptions and results *)

(** The exception classes the sources raise or catch by name; everything
    else is caught as [Exception]. *)
Inductive exn_class : Type :=
| ImportError | ValueError | TypeError | RuntimeError | FileNotFoundError
| OSError | AttributeError | JSONDecodeError | Exception
| Other (name : string).

(** An exception, as far as the sources look at it: its class and
    [str(e)]. *)
Record exn : Type := Exn { exn_class_of : exn_class; exn_str : string }.

Inductive result (A : Type) : Type :=
| Ok (a : A)
| Raise (e : exn).
Arguments Ok {A} a.
Arguments Raise {A} e.

Definition result_bind {A B : Type} (r : result A) (k : A -> result B) : result B :=
  match r with
  | Ok a => k a
  | Raise e => Raise e
  end.

(** ** app/tasks.py: the ledger *)

Module tasks.

(** One element of a task's ['logs'] list.  The timestamp is the reading of
    the clock that produced it: readings are numbered as they are taken. *)
Record log_entry : Type := LogEntry { timestamp : nat; message : string }.

(** The dict kept per task.  A field is [None] while its key is absent;
    ['result_file'] is created holding Python's [None] by [init_task]. *)
Record entry : Type := Entry {
  e_status : option string;
  e_filename : option string;
  e_result_file : option (option string);
  e_gcs_uri : option string;
  e_error : option string;
  e_logs : option (list log_entry)
}.

(** [{}] *)
Definition empty_entry : entry := Entry None None None None None None.

Definition set_status (s : string) (e : entry) : entry :=
  Entry (Some s) (e_filename e) (e_result_file e) (e_gcs_uri e) (e_error e) (e_logs e).
Definition set_filename (s : string) (e : entry) : entry :=
  Entry (e_status e) (Some s) (e_result_file e) (e_gcs_uri e) (e_error e) (e_logs e).
Definition set_result_file (s : string) (e : entry) : entry :=
  Entry (e_status e) (e_filename e) (Some (Some s)) (e_gcs_uri e) (e_error e) (e_logs e).
Definition set_gcs_uri (s : string) (e : entry) : entry :=
  Entry (e_status e) (e_filename e) (e_result_file e) (Some s) (e_error e) (e_logs e).
Definition set_error (s : string) (e : entry) : entry :=
  Entry (e_status e) (e_filename e) (e_result_file e) (e_gcs_uri e) (Some s) (e_logs e).
Definition del_error (e : entry) : entry :=
  Entry (e_status e) (e_filename e) (e_result_file e) (e_gcs_uri e) None (e_logs e).
Definition set_logs (l : list log_entry) (e : entry) : entry :=
  Entry (e_status e) (e_filename e) (e_result_file e) (e_gcs_uri e) (e_error e) (Some l).

(** The module state: the global [task_status] dict, and how many times the
    clock has been read. *)
Record ledger : Type := Ledger {
  task_status : gmap string entry;
  clock_reads : nat
}.

(** An optional text argument that is given and not empty: what
    [if filename:] tests. *)
Definition given (a : option string) : option string :=
  match a with
  | Some s => if String.eqb s "" then None else Some s
  | None => None
  end.

Definition add_task_log (task_id message : string) (L : ledger) : ledger :=
  match task_status L !! task_id with
  | None => L
  | Some e =>
      let logs := match e_logs e with Some l => l | None => [] end in
      let timestamp := clock_reads L in
      Ledger (<[task_id := set_logs (logs ++ [LogEntry timestamp message]) e]> (task_status L))
             (S (clock_reads L))
  end.

Definition update_task_status (task_id status : string)
    (filename result_file error gcs_uri : option string) (L : ledger) : ledger :=
  let e := match task_status L !! task_id with Some e => e | None => empty_entry end in
  let e := set_status status e in
  let e := match given filename with Some f => set_filename f e | None => e end in
  let e := match given result_file with Some f => set_result_file f e | None => e end in
  let e := match given gcs_uri with Some u => set_gcs_uri u e | None => e end in
  let L :=
    match given error with
    | Some msg =>
        add_task_log task_id ("ERROR: " +:+ msg)
          (Ledger (<[task_id := set_error msg e]> (task_status L)) (clock_reads L))
    | None =>
        let e := if (negb (String.eqb status "failed") && bool_decide (is_Some (e_error e)))%bool
                 then del_error e else e in
        Ledger (<[task_id := e]> (task_status L)) (clock_reads L)
    end in
  add_task_log task_id ("Status changed to: " +:+ status) L.

Definition get_task_status (task_id : string) (L : ledger) : option entry :=
  task_status L !! task_id.

Definition init_task (task_id filename : string) (L : ledger) : ledger :=
  add_task_log task_id ("Task initialized with file: " +:+ filename)
    (Ledger (<[task_id := Entry (Some "received") (Some filename) (Some None) None None (Some [])]>
               (task_status L))
            (clock_reads L)).

(** The three mutators as data: a program's effect on the ledger is the
    sequence of its calls. *)
Inductive call : Type :=
| InitTask (task_id filename : string)
| UpdateTaskStatus (task_id status : string) (filename result_file error gcs_uri : option string)
| AddTaskLog (task_id message : string).

Definition do_call (c : call) (L : ledger) : ledger :=
  match c with
  | InitTask task_id filename => init_task task_id filename L
  | UpdateTaskStatus task_id status filename result_file error gcs_uri =>
      update_task_status task_id status filename result_file error gcs_uri L
  | AddTaskLog task_id message => add_task_log task_id message L
  end.

Definition do_calls (cs : list call) (L : ledger) : ledger :=
  fold_left (fun L c => do_call c L) cs L.

(** The ledger after each call of [cs], in order. *)
Fixpoint ledgers_after (cs : list call) (L : ledger) : list ledger :=
  match cs with
  | [] => []
  | c :: cs' => do_call c L :: ledgers_after cs' (do_call c L)
  end.

Definition call_id (c : call) : string :=
  match c with
  | InitTask task_id _ => task_id
  | UpdateTaskStatus task_id _ _ _ _ _ => task_id
  | AddTaskLog task_id _ => task_id
  end.

(** The status a call gives the task [task_id], if it sets one. *)
Definition assigns (task_id : string) (c : call) : option string :=
  match c with
  | InitTask id _ => if String.eqb id task_id then Some "received" else None
  | UpdateTaskStatus id status _ _ _ _ => if String.eqb id task_id then Some status else None
  | AddTaskLog _ _ => None
  end.

(** What the status and log endpoints read. *)
Definition status_of (task_id : string) (L : ledger) : option string :=
  match task_status L !! task_id with Some e => e_status e | None => None end.

Definition logs_of (task_id : string) (L : ledger) : list log_entry :=
  match task_status L !! task_id with
  | Some e => match e_logs e with Some l => l | None => [] end
  | None => []
  end.

End tasks.

(** ** app/processing.py *)

Module processing.
Import Py.

(** One call of [DataFrame.to_excel]: the sheet name, the frame's column
    labels and its rows. *)
Record sheet : Type := Sheet {
  sheet_name : string;
  columns : list pyval;
  rows : list (list pyval)
}.

(** What the imports of the module have done and what its library calls
    do.  The OCR stage, the Gemini client and object storage are
    capabilities outside the pipeline's own logic: the model keeps what
    they return or raise.  A library call whose failure the sources catch
    is a field that says whether it fails. *)
Record env : Type := Env {
  (** [gemini] and [types] are not [None] after the import block (lines
      90-105). *)
  gemini : bool;
  types : bool;
  (** [types.Part.from_uri(file_uri=gcs_uri, ...)] returns. *)
  part_from_uri : string -> bool;
  (** [response_data] as [gemini.generate_content_async] hands it to line
      337 for a document, or the exception raised on the way. *)
  generate_content_async : string -> result pyval;
  (** [json.loads]: the value it decodes the text to, or the exception it
      raises: [JSONDecodeError] where it finds that the text is not JSON,
      or another one, such as [RecursionError] for a text nested too deep
      and a plain [ValueError] for a number with too many digits. *)
  json_loads : string -> result pyval;
  (** [perform_ocr(gcs_uri)] (lines 132-211), which downloads the document
      and runs the OCR engine: the text it returns or the exception it
      raises. *)
  perform_ocr : string -> result string;
  (** [os.makedirs(output_dir, exist_ok=True)]: the [OSError], if any. *)
  makedirs : string -> option exn;
  (** [pd.ExcelWriter(output_path, engine='openpyxl')] opens the file and
      saves it when the [with] block ends. *)
  excel_writer : string -> bool;
  (** [pd.DataFrame(valid_rows, columns=headers)] returns. *)
  data_frame : list (list pyval) -> list pyval -> bool;
  (** [df.to_excel(writer, sheet_name=..., index=False)]: the exception it
      raises, if any. *)
  to_excel : sheet -> option exn;
  (** The column width loop of a table sheet (lines 638-644) returns. *)
  autosize : sheet -> bool
}.

(** *** extract_with_gemini *)

(** Lines 341-343 and 370: ['tables'] that is missing or not a list becomes
    the empty list. *)
Definition init_tables (d : list (string * pyval)) : list (string * pyval) :=
  match dict_get "tables" d with
  | Some (PList _) => d
  | _ => dict_set "tables" (PList []) d
  end.

(** Lines 355-357 and 371-373. *)
Definition init_key (k : string) (d : list (string * pyval)) : list (string * pyval) :=
  if dict_has k d then d else dict_set k (PDict []) d.

Definition init_keys (d : list (string * pyval)) : list (string * pyval) :=
  init_key "text_sections" (init_key "key_value_pairs" (init_key "metadata" (init_tables d))).

(** Lines 379-384. *)
Definition fallback_structure (response_data : pyval) : pyval :=
  PDict [ ("metadata", PDict [("error", PStr "Unexpected response type")]);
          ("key_value_pairs", PDict [("raw_response", PStr (py_str response_data))]);
          ("text_sections", PDict []);
          ("tables", PList []) ].

(** Lines 337-384: what [extract_with_gemini] does with [response_data].
    [parsed_data.get] on a value that is not a dict raises
    [AttributeError].  Line 375 catches [JSONDecodeError] and nothing else:
    the [AttributeError], and any other exception of [json.loads], leave
    the [try] block of line 366. *)
Definition validate_response (E : env) (response_data : pyval) : result pyval :=
  match response_data with
  | PDict d => Ok (PDict (init_keys d))
  | PStr text =>
      match json_loads E text with
      | Ok (PDict parsed_data) => Ok (PDict (init_keys parsed_data))
      | Ok parsed_data =>
          Raise (Exn AttributeError
                   ("'" +:+ type_name parsed_data +:+ "' object has no attribute 'get'"))
      | Raise e =>
          match exn_class_of e with
          | JSONDecodeError => Ok (fallback_structure response_data)
          | _ => Raise e
          end
      end
  | _ => Ok (fallback_structure response_data)
  end.

Definition extract_with_gemini (E : env) (gcs_uri : string) : result pyval :=
  if negb (gemini E) then Raise (Exn ImportError "GeminiClient not initialized.")
  else if negb (types E) then Raise (Exn ImportError "google.genai.types not available.")
  else if negb (part_from_uri E gcs_uri)
  then Raise (Exn ValueError ("Could not process GCS URI: " +:+ gcs_uri))
  else
    match result_bind (generate_content_async E gcs_uri) (validate_response E) with
    | Ok data => Ok data
    | Raise _ => Raise (Exn Exception ("Gemini extraction failed for " +:+ gcs_uri))
    end.

(** *** reconcile_with_gemini *)

#[warnings="-abstract-large-number"]
Definition MAX_OCR_LEN : nat := 300000.

(** Lines 414-418; the prompt text is built and not used. *)
Definition ocr_text_for_prompt (ocr_text : string) : string :=
  if Nat.ltb MAX_OCR_LEN (String.length ocr_text)
  then String.substring 0 MAX_OCR_LEN ocr_text +:+ nl +:+ nl +:+ "... [OCR TEXT TRUNCATED]"
  else ocr_text.

(** Lines 391-429.  The function returns at line 429; lines 431-562 are
    never run. *)
Definition reconcile_with_gemini (E : env) (extracted_json : pyval) (ocr_text : string)
    : result pyval :=
  if negb (gemini E) then Raise (Exn ImportError "GeminiClient not initialized.")
  else if negb (types E)
  then Raise (Exn ImportError "google.generativeai.types not available.")
  else Ok extracted_json.

(** *** the text branch after the return (lines 525-548) *)

(** [s.split(c, 1)] *)
Fixpoint split_once (c : ascii) (s : string) : list string :=
  match s with
  | EmptyString => [EmptyString]
  | String c' s' =>
      if Ascii.eqb c c' then [EmptyString; s']
      else match split_once c s' with
           | p :: rest => String c' p :: rest
           | [] => []
           end
  end.

(** [s.split(c)] *)
Fixpoint split_all (c : ascii) (s : string) : list string :=
  match s with
  | EmptyString => [EmptyString]
  | String c' s' =>
      if Ascii.eqb c c' then EmptyString :: split_all c s'
      else match split_all c s' with
           | p :: rest => String c' p :: rest
           | [] => []
           end
  end.

Fixpoint lstrip (s : string) : string :=
  match s with
  | EmptyString => EmptyString
  | String c s' => if isspace c then lstrip s' else s
  end.

Fixpoint rstrip (s : string) : string :=
  match s with
  | EmptyString => EmptyString
  | String c s' =>
      match rstrip s' with
      | EmptyString => if isspace c then EmptyString else String c EmptyString
      | t => String c t
      end
  end.

(** [s.strip()] *)
Definition strip (s : string) : string := rstrip (lstrip s).

(** Lines 537-545: one line of the text. *)
Definition line_pair (line : string) : option (string * string) :=
  if (contains_char ":"%char line || contains_char "009"%char line)%bool then
    let parts := if contains_char ":"%char line then split_once ":"%char line
                 else split_once "009"%char line in
    match parts with
    | [k; v] =>
        let key := strip k in
        let value := strip v in
        if (negb (String.eqb key "") && negb (String.eqb value ""))%bool
        then Some (key, value) else None
    | _ => None
    end
  else None.

(** Lines 529-548: the structure the unreachable branch would build from a
    text response. *)
Definition text_response_structure (response_data : string) : pyval :=
  let lines := split_all "010"%char (strip response_data) in
  let pairs :=
    fold_left (fun kv line => match line_pair line with
                              | Some (key, value) => dict_set key (PStr value) kv
                              | None => kv
                              end) lines [] in
  PDict [ ("metadata", PDict [("document_type", PStr "spreadsheet")]);
          ("key_value_pairs", PDict pairs);
          ("text_sections", PDict [("extracted_text", PStr response_data)]);
          ("tables", PList []) ].

(** *** _write_excel_sheets *)

(** [data.get(k)], which a value that is not a dict does not have. *)
Definition py_get (data : pyval) (k : string) : result (option pyval) :=
  match data with
  | PDict d => Ok (dict_get k d)
  | _ => Raise (Exn AttributeError
                  ("'" +:+ type_name data +:+ "' object has no attribute 'get'"))
  end.

(** [data and isinstance(data.get(k), ...)]: the value under [k], when
    [data] is truthy. *)
Definition field (data : pyval) (k : string) : result (option pyval) :=
  if truthy data then py_get data k else Ok None.

Definition not_raw_response (kv : string * pyval) : bool :=
  negb (String.eqb (fst kv) "raw_response").

(** Lines 573-578. *)
Definition summary_data (data : pyval) : result (list (string * pyval)) :=
  result_bind (field data "metadata") (fun metadata =>
  let summary :=
    match metadata with
    | Some (PDict md) =>
        dict_update []
          (dict_of_items (List.map (fun kv => ("meta_" +:+ fst kv, snd kv))
                                   (List.filter not_raw_response md)))
    | _ => []
    end in
  result_bind (field data "key_value_pairs") (fun key_value_pairs =>
  match key_value_pairs with
  | Some (PDict kv) =>
      Ok (dict_update summary (dict_of_items (List.filter not_raw_response kv)))
  | _ => Ok summary
  end)).

(** [pd.DataFrame(list(d.items()), columns=[a, b])] as a sheet. *)
Definition items_sheet (name a b : string) (d : list (string * pyval)) : sheet :=
  Sheet name [PStr a; PStr b] (List.map (fun kv => [PStr (fst kv); snd kv]) d).

(** Lines 615-620. *)
Definition valid_rows (rows : list pyval) : list (list pyval) :=
  fold_left (fun valid_rows row => match row with
                                  | PList cells => valid_rows ++ [cells]
                                  | _ => valid_rows
                                  end) rows [].

(** Line 628. *)
Definition safe_sheet_name (raw_title : pyval) : string :=
  String.substring 0 31
    (map_chars (fun c => if isalnum c then c else "_"%char) (py_str raw_title)).

(** Line 627. *)
Definition raw_title (i : nat) (table_info : list (string * pyval)) : pyval :=
  match dict_get "table_title" table_info with
  | Some title => title
  | None => PStr ("Table_" +:+ str_of_nat (i + 1))
  end.

(** Lines 606-628: the sheet of the table at index [i], or [None] when the
    table is skipped. *)
Definition table_sheet (i : nat) (table_info : pyval) : option sheet :=
  match table_info with
  | PDict t =>
      match dict_get "headers" t, dict_get "rows" t with
      | Some (PList headers), Some (PList rows) =>
          if truthy (PList rows) then
            match valid_rows rows with
            | [] => None
            | valid => Some (Sheet (safe_sheet_name (raw_title i t)) headers valid)
            end
          else None
      | _, _ => None
      end
  | _ => None
  end.

(** A call of [to_excel] that was issued, and whether the statements around
    it ran to their end.  A table sheet whose [try] block raised after the
    call stays in the workbook, possibly half written, and is not counted. *)
Record write : Type := Write { w_sheet : sheet; w_complete : bool }.

(** The writer's state inside the [with] block: the calls so far and
    [sheets_written]. *)
Definition writer_state : Type := (list write * nat)%type.

(** Lines 604-651: one turn of the loop over [enumerate(data['tables'])]. *)
Definition table_step (E : env) (st : writer_state) (i : nat) (table_info : pyval)
    : writer_state :=
  match table_sheet i table_info with
  | None => st
  | Some s =>
      if data_frame E (rows s) (columns s) then
        if (bool_decide (to_excel E s = None) && autosize E s)%bool
        then (fst st ++ [Write s true], S (snd st))
        else (fst st ++ [Write s false], snd st)
      else st
  end.

Fixpoint tables_loop (E : env) (st : writer_state) (i : nat) (tables : list pyval)
    : writer_state :=
  match tables with
  | [] => st
  | table_info :: rest => tables_loop E (table_step E st i table_info) (S i) rest
  end.

(** Line 658. *)
Definition info_sheet : sheet :=
  Sheet "Info" [PStr "Status"] [[PStr "No structured data extracted or processed"]].

(** A sheet written outside any inner [try]: a failure leaves the [with]
    block. *)
Definition write_sheet (E : env) (s : sheet) (st : writer_state) : result writer_state :=
  match to_excel E s with
  | None => Ok (fst st ++ [Write s true], S (snd st))
  | Some e => Raise e
  end.

(** Lines 568-659: the body of the [with] block. *)
Definition write_sheets_body (E : env) (data : pyval) : result (list write) :=
  let st : writer_state := ([], 0) in
  result_bind (summary_data data) (fun summary =>
  result_bind (match summary with
               | [] => Ok st
               | _ => write_sheet E (items_sheet "Summary" "Field" "Value" summary) st
               end) (fun st =>
  result_bind (field data "text_sections") (fun text_sections =>
  result_bind (match text_sections with
               | Some (PDict (kv :: ts)) =>
                   write_sheet E (items_sheet "Text Sections" "Section Title" "Text" (kv :: ts)) st
               | _ => Ok st
               end) (fun st =>
  result_bind (field data "tables") (fun tables =>
  let st := match tables with
            | Some (PList ts) => tables_loop E st 0 ts
            | _ => st
            end in
  if Nat.eqb (snd st) 0
  then result_bind (write_sheet E info_sheet st) (fun st => Ok (fst st))
  else Ok (fst st)))))).

(** Lines 565-666: the calls of [to_excel] that were issued, in order, when
    the file was written; any exception inside is raised again as one
    [Exception]. *)
Definition _write_excel_sheets (E : env) (data : pyval) (output_path : string)
    : result (list write) :=
  if excel_writer E output_path then
    match write_sheets_body E data with
    | Ok writes => Ok writes
    | Raise _ => Raise (Exn Exception ("Failed to write Excel file " +:+ output_path))
    end
  else Raise (Exn Exception ("Failed to write Excel file " +:+ output_path)).

(** The [sheet_name] arguments of the calls of [to_excel], call by call.
    What the worksheets of the saved file are called is decided by pandas
    and openpyxl from these, and is not modelled. *)
Definition sheet_names (writes : list write) : list string :=
  (fun w => sheet_name (w_sheet w)) <$> writes.

(** *** generate_excel *)

(** [os.path.join(a, b)] *)
Definition path_join (a b : string) : string :=
  match b with
  | String "/"%char _ => b
  | _ => if (String.eqb a "" || endswith a "/")%bool then a +:+ b else a +:+ "/" +:+ b
  end.

Definition output_dir : string := "/tmp/pdf2any_results".

Definition generate_excel (E : env) (data : pyval) (task_id : string) : result string :=
  if negb (is_dict data)
  then Raise (Exn TypeError "Data for Excel generation must be a dictionary.")
  else
    match makedirs E output_dir with
    | Some oe => Raise oe
    | None =>
        let output_path := path_join output_dir (task_id +:+ "_report.xlsx") in
        match _write_excel_sheets E data output_path with
        | Ok _ => Ok output_path
        | Raise _ => Raise (Exn Exception ("Excel generation failed for Task " +:+ task_id))
        end
    end.

End processing.

(** ** app/workflow_manager.py *)

Module workflow_manager.
Import Py tasks processing.

(** A run of a coroutine that only writes to the ledger: the calls it made,
    in order, and how it ended. *)
Definition prog (A : Type) : Type := (list call * result A)%type.

Definition ret {A : Type} (a : A) : prog A := ([], Ok a).

Definition bind {A B : Type} (m : prog A) (k : A -> prog B) : prog B :=
  match m with
  | (calls, Ok a) => let '(calls', r) := k a in (calls ++ calls', r)
  | (calls, Raise e) => (calls, Raise e)
  end.

(** A call into [tasks]. *)
Definition emit (c : call) : prog unit := ([c], Ok tt).

(** [await stage(...)]: the stage's result, or its exception. *)
Definition await {A : Type} (r : result A) : prog A := ([], r).

(** [try: body except Exception as e: handler(e)] *)
Definition try_except {A : Type} (body : prog A) (handler : exn -> prog A) : prog A :=
  match body with
  | (calls, Ok a) => (calls, Ok a)
  | (calls, Raise e) => let '(calls', r) := handler e in (calls ++ calls', r)
  end.

Notation "x <- m ;; k" := (bind m (fun x => k))
  (at level 90, m at level 89, right associativity).
Notation "m ;;; k" := (bind m (fun _ => k))
  (at level 90, right associativity).

(** [len(data.get(k, {})) if isinstance(data.get(k), dict) else 0] *)
Definition count_dict (data : pyval) (k : string) : result nat :=
  result_bind (py_get data k) (fun v =>
  match v with
  | Some (PDict d) => Ok (length d)
  | _ => Ok 0
  end).

(** [len(data.get(k, [])) if isinstance(data.get(k), list) else 0] *)
Definition count_list (data : pyval) (k : string) : result nat :=
  result_bind (py_get data k) (fun v =>
  match v with
  | Some (PList l) => Ok (length l)
  | _ => Ok 0
  end).

(** Lines 50-57 and 68-75: the progress message after a Gemini stage. *)
Definition stage_message (data : pyval) (found none : string) : result string :=
  if truthy data then
    result_bind (count_dict data "metadata") (fun metadata_count =>
    result_bind (count_dict data "key_value_pairs") (fun kv_count =>
    result_bind (count_dict data "text_sections") (fun sections_count =>
    result_bind (count_list data "tables") (fun tables_count =>
    Ok (found +:+ str_of_nat metadata_count +:+ " metadata items, "
          +:+ str_of_nat kv_count +:+ " key-value pairs, "
          +:+ str_of_nat sections_count +:+ " text sections, and "
          +:+ str_of_nat tables_count +:+ " tables.")))))
  else Ok none.

(** Lines 36-90: the body of the [try]. *)
Definition stages (E : env) (task_id gcs_uri : string) : prog unit :=
  emit (AddTaskLog task_id "Starting OCR processing...") ;;;
  ocr_text <- await (perform_ocr E gcs_uri) ;;
  let ocr_length := String.length ocr_text in
  emit (AddTaskLog task_id ("OCR completed successfully. Extracted "
                            +:+ str_of_nat ocr_length +:+ " characters.")) ;;;
  emit (UpdateTaskStatus task_id "processing_gemini_extract" None None None None) ;;;
  emit (AddTaskLog task_id "Starting Gemini extraction...") ;;;
  extracted_data_json <- await (extract_with_gemini E gcs_uri) ;;
  msg <- await (stage_message extracted_data_json
                  "Gemini extraction completed. Found "
                  "Gemini extraction completed but no structured data was returned.") ;;
  emit (AddTaskLog task_id msg) ;;;
  emit (UpdateTaskStatus task_id "processing_reconciliation" None None None None) ;;;
  emit (AddTaskLog task_id "Starting Gemini reconciliation...") ;;;
  reconciled_data_json <- await (reconcile_with_gemini E extracted_data_json ocr_text) ;;
  msg <- await (stage_message reconciled_data_json
                  "Gemini reconciliation completed. Final data has "
                  "Gemini reconciliation completed but no structured data was returned.") ;;
  emit (AddTaskLog task_id msg) ;;;
  emit (UpdateTaskStatus task_id "generating_report" None None None None) ;;;
  emit (AddTaskLog task_id "Generating Excel report...") ;;;
  excel_file_path <- await (generate_excel E reconciled_data_json task_id) ;;
  emit (AddTaskLog task_id ("Excel report generated at: " +:+ excel_file_path)) ;;;
  emit (UpdateTaskStatus task_id "completed" None (Some excel_file_path) None None) ;;;
  emit (AddTaskLog task_id "Workflow completed successfully!").

(** Lines 91-96: the [except Exception as e] block. *)
Definition on_exception (task_id : string) (e : exn) : prog unit :=
  let error_msg := "Workflow failed: " +:+ exn_str e in
  emit (AddTaskLog task_id error_msg) ;;;
  emit (UpdateTaskStatus task_id "failed" None None (Some (exn_str e)) None).

Definition process_pdf (E : env) (task_id gcs_uri : string) : prog unit :=
  emit (AddTaskLog task_id ("Starting workflow with GCS URI: " +:+ gcs_uri)) ;;;
  emit (UpdateTaskStatus task_id "processing_ocr" None None None None) ;;;
  try_except (stages E task_id gcs_uri) (on_exception task_id).

End workflow_manager.

(** ** app/main.py: the handlers that touch the ledger *)

Module main.
Import Py tasks processing workflow_manager.

Inductive response : Type :=
| JSONResponse (message task_id : string)
| HTTPException (status_code : nat) (detail : string)
| FileResponse (path filename : string)
| InternalServerError.

(** What [upload_pdf_for_processing] leaves behind: its calls into the
    ledger, its answer, and the coroutine it handed to
    [asyncio.create_task], as [(task_id, gcs_uri)]. *)
Record upload : Type := Upload {
  up_calls : list call;
  up_response : response;
  up_task : option (string * string)
}.

(** Lines 50-84.  [task_id] is the [uuid4] drawn for the request, and
    [upload_file_to_gcs] what the storage helper returned or raised for the
    blob name. *)
Definition upload_pdf_for_processing
    (upload_file_to_gcs : string -> result string) (filename task_id : string) : upload :=
  if negb (endswith (lower filename) ".pdf")
  then Upload [] (HTTPException 400 "Invalid file type. Only PDF files are accepted.") None
  else
    let upload_blob_name := task_id +:+ "_" +:+ filename in
    match upload_file_to_gcs upload_blob_name with
    | Ok gcs_uri =>
        Upload [ InitTask task_id filename;
                 UpdateTaskStatus task_id "received" None None None (Some gcs_uri);
                 UpdateTaskStatus task_id "processing" None None None None ]
               (JSONResponse "File received and processing started." task_id)
               (Some (task_id, gcs_uri))
    | Raise e =>
        Upload [ InitTask task_id filename;
                 UpdateTaskStatus task_id "failed" None None (Some (exn_str e)) None ]
               (HTTPException 500 ("Failed to process file: " +:+ exn_str e))
               None
    end.

(** Every call into the ledger made for one upload: the handler's, then
    those of the coroutine it created, which starts once the handler has
    returned. *)
Definition task_calls (E : env) (upload_file_to_gcs : string -> result string)
    (filename task_id : string) : list call :=
  let u := upload_pdf_for_processing upload_file_to_gcs filename task_id in
  up_calls u ++ match up_task u with
                | Some (id, gcs_uri) => fst (process_pdf E id gcs_uri)
                | None => []
                end.

(** [os.path.splitext(p)[0]] *)
Fixpoint last_index (c : ascii) (s : string) (i : nat) (found : option nat) : option nat :=
  match s with
  | EmptyString => found
  | String c' s' => last_index c s' (S i) (if Ascii.eqb c c' then Some i else found)
  end.

Fixpoint all_dots (s : string) : bool :=
  match s with
  | EmptyString => true
  | String c s' => (Ascii.eqb c "."%char && all_dots s')%bool
  end.

Definition splitext_root (p : string) : string :=
  let name_start := match last_index "/"%char p 0 None with Some i => S i | None => 0 end in
  match last_index "."%char p 0 None with
  | Some dot =>
      if (Nat.leb name_start dot
          && negb (all_dots (String.substring name_start (dot - name_start) p)))%bool
      then String.substring 0 dot p else p
  | None => p
  end.

(** [not status_info]: the dict has no key. *)
Definition is_empty (e : entry) : bool :=
  match e with
  | Entry None None None None None None => true
  | _ => false
  end.

(** Lines 100-125.  [exists] is [os.path.exists]. *)
Definition download_result_endpoint (exists_ : string -> bool) (task_id : string)
    (L : ledger) : response :=
  match get_task_status task_id L with
  | None => HTTPException 404 "Task ID not found."
  | Some status_info =>
      if is_empty status_info then HTTPException 404 "Task ID not found."
      else
        match e_status status_info with
        | None => InternalServerError
        | Some status =>
            match e_result_file status_info with
            | Some (Some result_file_path) =>
                if (negb (String.eqb status "completed")
                    || String.eqb result_file_path "")%bool
                then HTTPException 400 "Processing not complete or result file not available."
                else if negb (exists_ result_file_path)
                then HTTPException 404 "Result file not found."
                else
                  match e_filename status_info with
                  | Some filename =>
                      FileResponse result_file_path (splitext_root filename +:+ "_extracted.xlsx")
                  | None => InternalServerError
                  end
            | _ => HTTPException 400 "Processing not complete or result file not available."
            end
        end
  end.

(** What the status and log handlers put in their [JSONResponse]. *)
Inductive content : Type :=
| StatusInfo (status_info : entry)
| TaskLogs (task_id status : string) (logs : list log_entry).

(** Lines 87-97. *)
Definition get_task_status_endpoint (task_id : string) (L : ledger) : content + response :=
  match get_task_status task_id L with
  | None => inr (HTTPException 404 "Task ID not found.")
  | Some status_info =>
      if is_empty status_info then inr (HTTPException 404 "Task ID not found.")
      else inl (StatusInfo status_info)
  end.

(** Lines 128-147.  [status_info["status"]] on a dict without the key is a
    [KeyError], which the framework answers with status 500. *)
Definition get_task_logs_endpoint (task_id : string) (L : ledger) : content + response :=
  match get_task_status task_id L with
  | None => inr (HTTPException 404 "Task ID not found.")
  | Some status_info =>
      if is_empty status_info then inr (HTTPException 404 "Task ID not found.")
      else
        let logs := match e_logs status_info with Some l => l | None => [] end in
        match e_status status_info with
        | Some status => inl (TaskLogs task_id status logs)
        | None => inr InternalServerError
        end
  end.

End main.

(** ** app/utils/gcs_utils.py *)

Module gcs_utils.

(** The [except] clause of lines 64-72 that catches an exception raised in
    the [try] block: the first one whose class the exception belongs to. *)
Inductive clause : Type :=
| NotFound
| Forbidden
| AnyException.

(** Object storage as the upload helper meets it. *)
Record storage : Type := Storage {
  (** [storage_client] is not [None] after lines 12-18. *)
  storage_client : bool;
  (** [settings.gcs_bucket_name] *)
  gcs_bucket_name : string;
  (** Lines 39-62 for a bucket and a blob name (the client, [file.seek(0)],
      [blob.upload_from_file]): the clause that catches what they raise, if
      they raise. *)
  upload_from_file : string -> string -> option clause;
  (** [await file.close()] in the [finally] block: the exception it
      raises, if any. *)
  close : option exn
}.

(** Lines 20-77.  [filename] is [file.filename]. *)
Definition upload_file_to_gcs (S : storage) (filename destination_blob_name : string)
    : result string :=
  if negb (storage_client S)
  then Raise (Exn ValueError
                "Google Cloud Storage client not initialized. Check credentials and configuration.")
  else
    let bucket_name := gcs_bucket_name S in
    let outcome :=
      match upload_from_file S bucket_name destination_blob_name with
      | None => Ok ("gs://" +:+ bucket_name +:+ "/" +:+ destination_blob_name)
      | Some NotFound =>
          Raise (Exn Exception ("GCS Bucket '" +:+ bucket_name +:+ "' not found."))
      | Some Forbidden =>
          Raise (Exn Exception ("Permission denied for GCS bucket '" +:+ bucket_name +:+ "'."))
      | Some AnyException =>
          Raise (Exn Exception ("Failed to upload file '" +:+ filename +:+ "' to GCS."))
      end in
    match close S with
    | Some e => Raise e
    | None => outcome
    end.

End gcs_utils.

(** ** app/processing.py: the OCR stage *)

Module ocr.
Import Py processing.

(** An exception raised by a library call inside the [try] block of lines
    154-193, as the [except] clauses of lines 195-211 see it: the first
    clause that catches it, with what the clause uses of it. *)
Inductive failure : Type :=
| AsImportError (e : exn)
| AsValueError (e : exn)
| AsNotFound
| AsException (error_type : string).

Inductive outcome (A : Type) : Type :=
| Returns (a : A)
| Fails (f : failure).
Arguments Returns {A} a.
Arguments Fails {A} f.

(** A page image; the sources hand it to the OCR engine and close it. *)
Definition image : Type := nat.

(** The libraries of the OCR stage. *)
Record engine : Type := Engine {
  (** The imports of lines 108-117, made in one [try]: [pytesseract],
      [Image] and [convert_from_bytes] are set together or are all
      [None]. *)
  ocr_imports : bool;
  (** [storage_client] is not [None] after lines 120-129. *)
  storage_client : bool;
  (** [pytesseract.get_tesseract_version()]: [str(tess_err)] if it
      raises. *)
  get_tesseract_version : option string;
  (** Lines 160-164 for a bucket and a blob name. *)
  download_as_bytes : string -> string -> outcome (list Byte.byte);
  (** Line 172. *)
  convert_from_bytes : list Byte.byte -> outcome (list image);
  (** Lines 185-189 for one page: [image_to_string], then [img.close()]. *)
  image_to_string : image -> outcome string
}.

(** [s[n:]] *)
Fixpoint slice_from (n : nat) (s : string) : string :=
  match n, s with
  | 0, _ => s
  | S n', String _ s' => slice_from n' s'
  | S _, EmptyString => EmptyString
  end.

(** [s.startswith(prefix)] *)
Fixpoint startswith (s prefix : string) {struct prefix} : bool :=
  match prefix, s with
  | EmptyString, _ => true
  | String _ _, EmptyString => false
  | String p prefix', String c s' => (Ascii.eqb c p && startswith s' prefix')%bool
  end.

(** Lines 156-158: the bucket and the blob named by the URI.  The
    assignment of line 158 needs two parts. *)
Definition bucket_and_blob (gcs_uri : string) : outcome (string * string) :=
  if negb (startswith gcs_uri "gs://")
  then Fails (AsValueError (Exn ValueError "Invalid GCS URI format. Must start with gs://"))
  else
    match split_once "/"%char (slice_from 5 gcs_uri) with
    | [bucket_name; blob_name] => Returns (bucket_name, blob_name)
    | _ => Fails (AsValueError
                    (Exn ValueError "not enough values to unpack (expected 2, got 1)"))
    end.

(** Lines 180-189: the loop over the pages. *)
Fixpoint ocr_pages (O : engine) (images : list image) (all_text : list string)
    : outcome (list string) :=
  match images with
  | [] => Returns all_text
  | img :: rest =>
      match image_to_string O img with
      | Returns page_text => ocr_pages O rest (all_text ++ [page_text])
      | Fails f => Fails f
      end
  end.

Definition page_break : string := nl +:+ nl +:+ "--- Page Break ---" +:+ nl +:+ nl.

(** Lines 155-193: the [try] block. *)
Definition ocr_body (O : engine) (gcs_uri : string) : outcome string :=
  match bucket_and_blob gcs_uri with
  | Fails f => Fails f
  | Returns (bucket_name, blob_name) =>
      match download_as_bytes O bucket_name blob_name with
      | Fails f => Fails f
      | Returns pdf_bytes =>
          match convert_from_bytes O pdf_bytes with
          | Fails f => Fails f
          | Returns [] => Returns ""
          | Returns images =>
              match ocr_pages O images [] with
              | Returns all_text => Returns (join page_break all_text)
              | Fails f => Fails f
              end
          end
      end
  end.

(** Lines 195-211: what each [except] clause raises. *)
Definition reraise (gcs_uri : string) (f : failure) : exn :=
  match f with
  | AsImportError e => e
  | AsValueError e => e
  | AsNotFound => Exn FileNotFoundError ("PDF not found in GCS at " +:+ gcs_uri)
  | AsException error_type =>
      Exn Exception ("OCR processing failed for " +:+ gcs_uri +:+ " due to " +:+ error_type)
  end.

(** Lines 132-211. *)
Definition perform_ocr (O : engine) (gcs_uri : string) : result string :=
  let pytesseract := ocr_imports O in
  let Image := ocr_imports O in
  let convert_from_bytes := ocr_imports O in
  if negb pytesseract then Raise (Exn ImportError "pytesseract library not available.")
  else if negb Image then Raise (Exn ImportError "Pillow (PIL) library not available.")
  else if negb convert_from_bytes
  then Raise (Exn ImportError "pdf2image library not available.")
  else if negb (storage_client O)
  then Raise (Exn ValueError "Google Cloud Storage client not initialized.")
  else
    match get_tesseract_version O with
    | Some tess_err =>
        Raise (Exn RuntimeError ("Tesseract executable not found or failed: " +:+ tess_err
                                 +:+ ". OCR cannot proceed."))
    | None =>
        match ocr_body O gcs_uri with
        | Returns concatenated_text => Ok concatenated_text
        | Fails f => Raise (reraise gcs_uri f)
        end
    end.

End ocr.

(** ** app/processing.py: the Markdown helper *)

Module markdown.
Import Py processing.

(** The dict [parse_markdown_table] returns: ['headers'], which is [None]
    or a list of texts, and ['rows'], a list of dicts from column name to
    cell. *)
Record table : Type := Table {
  t_headers : option (list string);
  t_rows : list (list (string * string))
}.

(** [all(c in '|-+ ' for c in line)] *)
Fixpoint is_separator (line : string) : bool :=
  match line with
  | EmptyString => true
  | String c line' => (contains_char c "|-+ " && is_separator line')%bool
  end.

(** Lines 46-50: the index of the first line with a [|], and 0 if there is
    none; [i] is the index of the head of [lines]. *)
Fixpoint table_start (lines : list string) (i : nat) : nat :=
  match lines with
  | [] => 0
  | line :: rest => if contains_char "|"%char line then i else table_start rest (S i)
  end.

(** Lines 63-68: the cells of a line, without the empty cell a leading and
    a trailing [|] leave. *)
Definition cells_of_line (line : string) : list string :=
  let cells := List.map strip (split_all "|"%char line) in
  let cells := match cells with
               | first :: rest => if String.eqb first "" then rest else cells
               | [] => cells
               end in
  match cells with
  | [] => cells
  | _ :: _ => if String.eqb (List.last cells "") "" then removelast cells else cells
  end.

(** Line 80. *)
Definition column_name (headers : list string) (j : nat) : string :=
  match headers !! j with
  | Some header => header
  | None => "Column_" +:+ str_of_nat (j + 1)
  end.

(** Lines 77-81: the row dict, filled cell by cell; [j] is the index of the
    head of [cells]. *)
Fixpoint fill_row (headers : list string) (j : nat) (cells : list string)
    (row : list (string * string)) : list (string * string) :=
  match cells with
  | [] => row
  | cell :: rest => fill_row headers (S j) rest (dict_set (column_name headers j) (strip cell) row)
  end.

(** Lines 53-82: one turn of the loop, on [headers] and [table_data]. *)
Definition table_line (st : option (list string) * list (list (string * string)))
    (line : string) : option (list string) * list (list (string * string)) :=
  if is_separator line then st
  else if String.eqb (strip line) "" then st
  else
    let cells := cells_of_line line in
    match fst st with
    | None => (Some cells, snd st)
    | Some [] => st
    | Some headers => (fst st, snd st ++ [fill_row headers 0 cells []])
    end.

(** Lines 36-84. *)
Definition parse_markdown_table (text : string) : table :=
  let lines := split_all "010"%char (strip text) in
  let start := table_start lines 0 in
  let st := fold_left table_line (drop start lines) (None, []) in
  Table (fst st) (snd st).

End markdown.

(** ** app/processing.py: the cleaning of a model response *)

Module llm.
Import Py.

(** A set of characters in a pattern: [[...]], [[^...]] and [\s]. *)
Inductive char_set : Type :=
| OneOf (chars : string)
| NoneOf (chars : string)
| Whitespace.

Definition in_set (cs : char_set) (c : ascii) : bool :=
  match cs with
  | OneOf chars => contains_char c chars
  | NoneOf chars => negb (contains_char c chars)
  | Whitespace => isspace c
  end.

(** The patterns of [clean_llm_response], as far as they go: a group of
    alternative texts, [cs+], [cs+?], [cs*], and one pattern after
    another.  All of them are anchored at the start of the text. *)
Inductive pattern : Type :=
| Words (texts : list string)
| Many (cs : char_set) (greedy : bool)
| Star (cs : char_set)
| Seq (p q : pattern).

(** [text], letter for letter, at the start of [s]: what is left of [s].
    Under [re.IGNORECASE] two characters match when their lower case is the
    same. *)
Fixpoint text_match (ignore_case : bool) (text s : string) : option string :=
  match text, s with
  | EmptyString, _ => Some s
  | String _ _, EmptyString => None
  | String t text', String c s' =>
      if (if ignore_case then Ascii.eqb (lower_char c) (lower_char t) else Ascii.eqb c t)
      then text_match ignore_case text' s' else None
  end.

(** The alternatives of a group, tried in order: the first one with which
    the rest of the pattern matches. *)
Fixpoint words_match (ignore_case : bool) (texts : list string) (s : string)
    (k : string -> option string) : option string :=
  match texts with
  | [] => None
  | text :: rest =>
      match match text_match ignore_case text s with
            | Some s' => k s'
            | None => None
            end with
      | Some r => Some r
      | None => words_match ignore_case rest s k
      end
  end.

(** [cs*], greedy: as many characters as there are, then one less, and so
    on, until the rest of the pattern matches. *)
Fixpoint star_match (cs : char_set) (s : string) (k : string -> option string)
    : option string :=
  match s with
  | String c s' =>
      if in_set cs c then
        match star_match cs s' k with
        | Some r => Some r
        | None => k s
        end
      else k s
  | EmptyString => k s
  end.

(** [cs*?]: as few characters as it takes. *)
Fixpoint lazy_match (cs : char_set) (s : string) (k : string -> option string)
    : option string :=
  match k s with
  | Some r => Some r
  | None =>
      match s with
      | String c s' => if in_set cs c then lazy_match cs s' k else None
      | EmptyString => None
      end
  end.

(** A match of [p] at the start of [s] followed by a match of the rest of
    the pattern, [k]: what is left of the text after both. *)
Fixpoint matches (ignore_case : bool) (p : pattern) (s : string)
    (k : string -> option string) : option string :=
  match p with
  | Words texts => words_match ignore_case texts s k
  | Many cs greedy =>
      match s with
      | String c s' =>
          if in_set cs c
          then if greedy then star_match cs s' k else lazy_match cs s' k
          else None
      | EmptyString => None
      end
  | Star cs => star_match cs s k
  | Seq p q => matches ignore_case p s (fun s' => matches ignore_case q s' k)
  end.

(** [re.sub("^" + p, "", text)]: a pattern anchored at the start matches
    there or nowhere, and here never the empty text. *)
Definition sub_start (ignore_case : bool) (p : pattern) (text : string) : string :=
  match matches ignore_case p text Some with
  | Some rest => rest
  | None => text
  end.

Definition a_acute : string := String "225"%char EmptyString.
Definition a_grave : string := String "224"%char EmptyString.
Definition c_cedilla : string := String "231"%char EmptyString.
Definition a_tilde : string := String "227"%char EmptyString.

(** Lines 16-20, with the flags of line 25. *)
Definition intro_patterns : list pattern :=
  [ Seq (Words [ "Com certeza!"; "Aqui est" +:+ a_acute; "Claro"; "Certainly"; "Here is";
                 "Sure"; "Of course"; "Voil" +:+ a_grave ])
        (Many (NoneOf "|*#") true);
    Seq (Many (NoneOf ("|*#" +:+ nl)) false)
        (Seq (Words [ "transcri" +:+ c_cedilla +:+ a_tilde +:+ "o"; "transcription";
                      "spreadsheet"; "planilha" ])
             (Seq (Many (NoneOf ("|*#" +:+ nl)) true) (Many (OneOf nl) true)));
    Seq (Many (NoneOf ("|*#" +:+ nl)) false)
        (Seq (Words [ "tabela"; "table"; "data"; "dados" ])
             (Seq (Many (NoneOf ("|*#" +:+ nl)) true) (Many (OneOf nl) true))) ].

(** Line 28. *)
Definition blank_lines : pattern := Seq (Star Whitespace) (Many (OneOf nl) true).

(** Lines 10-34. *)
Definition clean_llm_response (text : string) : string :=
  let cleaned_text := fold_left (fun cleaned_text p => sub_start true p cleaned_text)
                                intro_patterns text in
  sub_start false blank_lines cleaned_text.

End llm.

(** ** Vocabulary of the statements *)

Module spec.
Import Py tasks processing workflow_manager main.

(** *** The ledger *)

(** A call that does not create the task [task_id] anew. *)
Definition keeps (task_id : string) (c : call) : Prop :=
  match c with
  | InitTask id _ => id ≠ task_id
  | _ => True
  end.

(** The status of a task after each call of [cs], in order. *)
Definition status_history (task_id : string) (cs : list call) (L : ledger)
    : list (option string) :=
  List.map (status_of task_id) (ledgers_after cs L).

(** The same list computed from the calls alone: a call either assigns a
    status or leaves the previous one. *)
Fixpoint status_trace (task_id : string) (prev : option string) (cs : list call)
    : list (option string) :=
  match cs with
  | [] => []
  | c :: cs' =>
      let s := match assigns task_id c with Some s => Some s | None => prev end in
      s :: status_trace task_id s cs'
  end.

(** The seven statuses of the specification, in its order. *)
Definition status_enum : list string :=
  [ "received"; "processing_ocr"; "processing_gemini_extract";
    "processing_reconciliation"; "generating_report"; "completed"; "failed" ].

(** The statuses the sources assign, in the order they are assigned: the
    upload handler sets ["processing"] once it has created the workflow. *)
Definition status_order : list string :=
  [ "received"; "processing"; "processing_ocr"; "processing_gemini_extract";
    "processing_reconciliation"; "generating_report"; "completed"; "failed" ].

Fixpoint index_of (s : string) (l : list string) : option nat :=
  match l with
  | [] => None
  | x :: l' => if String.eqb s x then Some 0 else option_map S (index_of s l')
  end.

Definition rank (s : option string) : option nat :=
  match s with
  | Some name => index_of name status_order
  | None => None
  end.

(** [b] may be the status at a later moment than [a]: both are statuses the
    sources assign, [b] is not before [a] in the order, and nothing but
    [failed] comes after [failed]. *)
Definition laterb (a b : option string) : bool :=
  match rank a, rank b with
  | Some m, Some n =>
      (Nat.leb m n
       && (negb (bool_decide (a = Some "failed")) || bool_decide (b = Some "failed")))%bool
  | _, _ => false
  end.

Definition later (a b : option string) : Prop := laterb a b = true.

Fixpoint orderedb (h : list (option string)) : bool :=
  match h with
  | [] => true
  | a :: t => (forallb (laterb a) t && orderedb t)%bool
  end.

(** The status histories of an upload, call by call: a file that is not a
    PDF, a failed upload, a failure in the OCR, extraction or report stage,
    and a completed run.  A call that writes a log line repeats the status
    before it. *)
Definition task_histories : list (list (option string)) :=
  let started := replicate 2 (Some "received") ++ replicate 2 (Some "processing") in
  let ocr := replicate 3 (Some "processing_ocr") in
  let extract := replicate 3 (Some "processing_gemini_extract") in
  let reconcile := replicate 3 (Some "processing_reconciliation") in
  let report := replicate 3 (Some "generating_report") in
  [ [];
    [Some "received"; Some "failed"];
    started ++ ocr ++ [Some "failed"];
    started ++ ocr ++ extract ++ [Some "failed"];
    started ++ ocr ++ extract ++ reconcile ++ report ++ [Some "failed"];
    started ++ ocr ++ extract ++ reconcile ++ report ++ replicate 2 (Some "completed") ].

(** [a] is directly followed by [b] somewhere in [h]. *)
Definition followed_by (a b : string) (h : list (option string)) : Prop :=
  exists i, h !! i = Some (Some a) /\ h !! (S i) = Some (Some b).

(** *** Documents *)

(** A document with the four top-level fields, ['tables'] a list. *)
Definition canonical (doc : pyval) : Prop :=
  exists d tables,
    doc = PDict d
    /\ dict_has "metadata" d = true
    /\ dict_has "key_value_pairs" d = true
    /\ dict_has "text_sections" d = true
    /\ dict_get "tables" d = Some (PList tables).

(** The cells of a row that is a list. *)
Definition cells_of (row : pyval) : option (list pyval) :=
  match row with
  | PList cells => Some cells
  | _ => None
  end.

(** The call of [to_excel] one turn of the table loop issues, if any. *)
Definition table_write (E : env) (i : nat) (table_info : pyval) : option write :=
  match table_sheet i table_info with
  | Some s =>
      if data_frame E (rows s) (columns s)
      then Some (Write s (bool_decide (to_excel E s = None) && autosize E s))
      else None
  | None => None
  end.

(** The calls the loop issues over [tables], the first table having index
    [i]. *)
Fixpoint table_writes (E : env) (i : nat) (tables : list pyval) : list write :=
  match tables with
  | [] => []
  | table_info :: rest =>
      match table_write E i table_info with
      | Some w => w :: table_writes E (S i) rest
      | None => table_writes E (S i) rest
      end
  end.

(** [json.loads] raises [JSONDecodeError] on [text]. *)
Definition rejected (E : env) (text : string) : Prop :=
  exists e, json_loads E text = Raise e /\ exn_class_of e = JSONDecodeError.

(** [json.loads] decodes [text] to an object or raises [JSONDecodeError]
    on it. *)
Definition well_decoded (E : env) (text : string) : Prop :=
  (exists parsed_data, json_loads E text = Ok (PDict parsed_data)) \/ rejected E text.

(** A payload that is not decoded: any value that is not a text, which
    [json.loads] is not called on, and any text it rejects with
    [JSONDecodeError]. *)
Definition undecodable (E : env) (response_data : pyval) : Prop :=
  match response_data with
  | PStr text => rejected E text
  | _ => True
  end.

(** A stage of the pipeline raises [e], the stages before it having
    returned.  Reconciliation is not among them: once extraction has
    returned, [reconcile_with_gemini] returns as well. *)
Definition stage_raises (E : env) (task_id gcs_uri : string) (e : exn) : Prop :=
  perform_ocr E gcs_uri = Raise e
  \/ (exists ocr_text, perform_ocr E gcs_uri = Ok ocr_text
                       /\ extract_with_gemini E gcs_uri = Raise e)
  \/ (exists ocr_text data, perform_ocr E gcs_uri = Ok ocr_text
                            /\ extract_with_gemini E gcs_uri = Ok data
                            /\ generate_excel E data task_id = Raise e).

(** *** Environments used as instances *)

(** The library calls of the pipeline return; the extractor answers with
    [response_data], the OCR stage with [ocr_text]; [json.loads] decodes
    [json_text] to [json_value] and raises [JSONDecodeError] on every
    other text. *)
Definition env_of (response_data : pyval) (ocr_text : string)
    (json_text : string) (json_value : pyval) : env :=
  Env true true (fun _ => true) (fun _ => Ok response_data)
      (fun text => if String.eqb text json_text then Ok json_value
                   else Raise (Exn JSONDecodeError "Expecting value: line 1 column 1 (char 0)"))
      (fun _ => Ok ocr_text) (fun _ => None) (fun _ => true)
      (fun _ _ => true) (fun _ => None) (fun _ => true).

(** [E] with another OCR stage, with another [json.loads], without the
    Gemini client, and with a writer that cannot save. *)
Definition with_perform_ocr (f : string -> result string) (E : env) : env :=
  Env (gemini E) (types E) (part_from_uri E) (generate_content_async E) (json_loads E)
      f (makedirs E) (excel_writer E) (data_frame E) (to_excel E) (autosize E).

Definition with_json_loads (f : string -> result pyval) (E : env) : env :=
  Env (gemini E) (types E) (part_from_uri E) (generate_content_async E) f
      (perform_ocr E) (makedirs E) (excel_writer E) (data_frame E) (to_excel E) (autosize E).

Definition without_gemini (E : env) : env :=
  Env false (types E) (part_from_uri E) (generate_content_async E) (json_loads E)
      (perform_ocr E) (makedirs E) (excel_writer E) (data_frame E) (to_excel E) (autosize E).

Definition without_excel_writer (E : env) : env :=
  Env (gemini E) (types E) (part_from_uri E) (generate_content_async E) (json_loads E)
      (perform_ocr E) (makedirs E) (fun _ => false) (data_frame E) (to_excel E) (autosize E).

(** An environment in which every call returns and the extractor answers
    with an empty object. *)
Definition env_ok : env := env_of (PDict []) "" "null" PNone.

(** A text nested deeper than [json.loads] follows: 1000 opening
    brackets. *)
Definition deep_text : string := String.concat "" (repeat "[" 1000).

(** The extractor answers with [deep_text], on which [json.loads] raises
    [RecursionError]. *)
Definition env_deep : env :=
  let E := env_of (PStr deep_text) "" "null" PNone in
  with_json_loads
    (fun text =>
       if String.eqb text deep_text
       then Raise (Exn (Other "RecursionError")
                     "maximum recursion depth exceeded while decoding a JSON array from a unicode string")
       else json_loads E text)
    E.

(** The storage helper, when the upload works. *)
Definition uploaded (blob_name : string) : result string :=
  Ok ("gs://bucket/" +:+ blob_name).

Definition empty_ledger : ledger := Ledger ∅ 0.

(** *** Calls of several tasks in one run *)

(** The calls of [cs] addressed to the task [task_id], in their order. *)
Definition own (task_id : string) (cs : list call) : list call :=
  List.filter (fun c => String.eqb (call_id c) task_id) cs.

(** The statuses of a history from the moment the task exists. *)
Definition held (h : list (option string)) : list (option string) :=
  filter (fun s : option string => is_Some s) h.

(** [big] is [small] with some entries repeated, after some repetitions of
    [x]: what a list of statuses becomes when calls that leave the status
    alone come in between. *)
Inductive stutter {A : Type} : A -> list A -> list A -> Prop :=
| stutter_nil (x : A) : stutter x [] []
| stutter_stay (x : A) (small big : list A) :
    stutter x small big -> stutter x small (x :: big)
| stutter_next (x y : A) (small big : list A) :
    stutter y small big -> stutter x (y :: small) (y :: big).

(** *** One task's entry *)

(** An entry with the clock readings of its log set to 0: what is left of
    it when the moments of the calls are not looked at. *)
Definition untimed (e : entry) : entry :=
  match e_logs e with
  | Some l => set_logs (List.map (fun line => LogEntry 0 (message line)) l) e
  | None => e
  end.

(** [add_task_log] on the entry itself, at reading 0. *)
Definition logged (message : string) (e : entry) : entry :=
  set_logs (match e_logs e with Some l => l | None => [] end ++ [LogEntry 0 message]) e.

(** What a call makes of the entry of [task_id], clock readings apart:
    [tasks.py] read on one entry. *)
Definition entry_after (task_id : string) (c : call) (v : option entry) : option entry :=
  if negb (String.eqb (call_id c) task_id) then v
  else
    match c with
    | InitTask _ filename =>
        Some (logged ("Task initialized with file: " +:+ filename)
                (Entry (Some "received") (Some filename) (Some None) None None (Some [])))
    | UpdateTaskStatus _ status filename result_file error gcs_uri =>
        let e := match v with Some e => e | None => empty_entry end in
        let e := set_status status e in
        let e := match given filename with Some f => set_filename f e | None => e end in
        let e := match given result_file with Some f => set_result_file f e | None => e end in
        let e := match given gcs_uri with Some u => set_gcs_uri u e | None => e end in
        let e :=
          match given error with
          | Some msg => logged ("ERROR: " +:+ msg) (set_error msg e)
          | None =>
              if (negb (String.eqb status "failed") && bool_decide (is_Some (e_error e)))%bool
              then del_error e else e
          end in
        Some (logged ("Status changed to: " +:+ status) e)
    | AddTaskLog _ message => logged message <$> v
    end.

Definition entries_after (task_id : string) (cs : list call) (v : option entry) : option entry :=
  fold_left (fun v c => entry_after task_id c v) cs v.

Import gcs_utils ocr markdown.

(** *** The OCR stage *)

(** Every page of [images] is read, giving [texts] in order. *)
Definition pages_read (O : engine) (images : list image) (texts : list string) : Prop :=
  Forall2 (fun img page_text => image_to_string O img = Returns page_text) images texts.

(** A library call of the [try] block of [perform_ocr] raises [f], the
    calls before it having returned: the download, the conversion to
    images, or the reading of a page. *)
Definition library_fails (O : engine) (gcs_uri : string) (f : failure) : Prop :=
  exists bucket_name blob_name,
    bucket_and_blob gcs_uri = Returns (bucket_name, blob_name)
    /\ (download_as_bytes O bucket_name blob_name = Fails f
        \/ exists pdf_bytes,
             download_as_bytes O bucket_name blob_name = Returns pdf_bytes
             /\ (convert_from_bytes O pdf_bytes = Fails f
                 \/ exists images before img after texts,
                      convert_from_bytes O pdf_bytes = Returns images
                      /\ images = before ++ img :: after
                      /\ pages_read O before texts
                      /\ image_to_string O img = Fails f)).

(** The OCR stage of an environment, written out. *)
Definition with_ocr (O : engine) (E : env) : env :=
  with_perform_ocr (ocr.perform_ocr O) E.

(** *** The workbook *)

(** The sheets of [writes] that count for [sheets_written]. *)
Definition counted (writes : list write) : nat :=
  length (List.filter w_complete writes).

(** The Summary sheet, if the summary has a field. *)
Definition summary_writes (summary : list (string * pyval)) : list write :=
  match summary with
  | [] => []
  | _ => [Write (items_sheet "Summary" "Field" "Value" summary) true]
  end.

(** The Text Sections sheet, if ['text_sections'] is a dict with a key. *)
Definition sections_writes (text_sections : option pyval) : list write :=
  match text_sections with
  | Some (PDict (kv :: ts)) =>
      [Write (items_sheet "Text Sections" "Section Title" "Text" (kv :: ts)) true]
  | _ => []
  end.

(** The table sheets, if ['tables'] is a list. *)
Definition tables_writes (E : env) (tables : option pyval) : list write :=
  match tables with
  | Some (PList ts) => table_writes E 0 ts
  | _ => []
  end.

Fixpoint all_chars (p : ascii -> bool) (s : string) : bool :=
  match s with
  | EmptyString => true
  | String c s' => (p c && all_chars p s')%bool
  end.

(** A sheet name of at most 31 characters, each alphanumeric, an
    underscore or a space. *)
Definition plain_name (name : string) : Prop :=
  String.length name <= 31
  /\ all_chars (fun c => isalnum c || Ascii.eqb c "_" || Ascii.eqb c " ")%bool name = true.

(** *** Markdown tables *)

(** A table line as Markdown writes it: [| a | b |]. *)
Definition render_line (cells : list string) : string :=
  "| " +:+ join " | " cells +:+ " |".

(** A table with its header line, a separator line and its rows. *)
Definition render_table (headers : list string) (rows : list (list string)) : string :=
  join nl (render_line headers :: "|---|" :: List.map render_line rows).

(** A cell that a line can carry: no white space around it, no [|] and no
    line break in it. *)
Definition cell_ok (cell : string) : Prop :=
  strip cell = cell
  /\ contains_char "|"%char cell = false
  /\ contains_char "010"%char cell = false.

(** The cells of a line that is not taken for a separator: one of them has
    a character other than [-], [+] and the space. *)
Definition line_ok (cells : list string) : Prop :=
  Forall cell_ok cells /\ Exists (fun cell => is_separator cell = false) cells.

(** A text that stays as it is under [rstrip] and is not empty. *)
Definition ends_ok (t : string) : Prop := rstrip t = t /\ t <> "".

(** What the loop of [parse_markdown_table] keeps.  A row: its cells have
    no white space around them, and its keys are header cells, or
    [Column_n] for a cell at a place [n] beyond the header. *)
Definition row_ok (headers : list string) (row : list (string * string)) : Prop :=
  Forall (fun kv =>
            strip (snd kv) = snd kv
            /\ (fst kv ∈ headers
                \/ exists j, length headers <= j /\ fst kv = "Column_" +:+ str_of_nat (j + 1)))
         row.

(** The state of the loop: without a header line there is no row; rows
    only come with a header line that has a cell; the header cells have no
    white space around them. *)
Definition table_ok (st : option (list string) * list (list (string * string))) : Prop :=
  match fst st with
  | None => snd st = []
  | Some headers =>
      Forall (fun header => strip header = header) headers
      /\ (snd st <> [] -> headers <> [])
      /\ Forall (row_ok headers) (snd st)
  end.

(** *** Storage, engines and documents used as instances *)

(** Storage that takes every upload, and storage whose client could not be
    created. *)
Definition storage_ok : storage := Storage true "bucket" (fun _ _ => None) None.

Definition storage_down : storage := Storage false "bucket" (fun _ _ => None) None.

(** An OCR engine whose download ends as [download] says; a document has
    two pages, which are read. *)
Definition engine_of (download : outcome (list Byte.byte)) : engine :=
  Engine true true None (fun _ _ => download) (fun _ => Returns [0; 1])
         (fun img => Returns (if Nat.eqb img 0 then "page one" else "page two")).

(** A document as the fallback builds it, with a table added. *)
Definition fallback_with_table : pyval :=
  PDict [ ("metadata", PDict [("error", PStr "Unexpected response type")]);
          ("key_value_pairs", PDict [("raw_response", PStr "Total: 10"); ("Total", PStr "10")]);
          ("text_sections", PDict []);
          ("tables", PList [ PDict [ ("table_title", PStr "Q1 Sales: north/south");
                                     ("headers", PList [PStr "Item"]);
                                     ("rows", PList [PList [PStr "10"]]) ] ]) ].

Import llm.

(** *** Cleaning a response *)

(** [rest] is the end of [s]. *)
Definition ends_with (s rest : string) : Prop := exists removed, s = removed +:+ rest.

(** A continuation that only takes characters from the start. *)
Definition takes (k : string -> option string) : Prop :=
  forall s rest, k s = Some rest -> ends_with s rest.

(** The characters a table, a list or a heading starts with, at which the
    patterns stop. *)
Definition is_mark (c : ascii) : bool := contains_char c "|*#".

(** The phrases an introduction starts with (line 17). *)
Definition intro_phrases : list string :=
  [ "Com certeza!"; "Aqui est" +:+ a_acute; "Claro"; "Certainly"; "Here is";
    "Sure"; "Of course"; "Voil" +:+ a_grave ].

(** The two texts differ, letter case apart, at a place both have. *)
Fixpoint clash (a b : string) : bool :=
  match a, b with
  | String x a', String y b' =>
      if Ascii.eqb (lower_char x) (lower_char y) then clash a' b' else true
  | _, _ => false
  end.

(** No text of the list is, letter case apart, the start of a later one. *)
Fixpoint apart (texts : list string) : bool :=
  match texts with
  | [] => true
  | text :: texts' => forallb (clash text) texts' && apart texts'
  end.

(** No text of the list starts, letter case apart, with [c]. *)
Definition starts_apart (c : ascii) (texts : list string) : bool :=
  forallb (fun text => match text with
                       | String t _ => negb (Ascii.eqb (lower_char c) (lower_char t))
                       | EmptyString => false
                       end) texts.

End spec.

(** * Facts *)

(** ** The ledger *)

Section tasks_facts.
Import tasks.

Lemma add_task_log_other (task_id other message : string) (L : ledger) :
  task_id ≠ other ->
  task_status (add_task_log task_id message L) !! other = task_status L !! other.
Proof.
  intros Hne. unfold add_task_log.
  destruct (task_status L !! task_id) as [e|]; [|reflexivity].
  cbn. by rewrite lookup_insert_ne.
Qed.

Lemma add_task_log_logs (task_id message : string) (L : ledger) :
  is_Some (task_status L !! task_id) ->
  logs_of task_id (add_task_log task_id message L)
  = logs_of task_id L ++ [LogEntry (clock_reads L) message].
Proof.
  intros [e He]. unfold logs_of, add_task_log. rewrite He. cbn.
  by rewrite lookup_insert_eq.
Qed.

Lemma add_task_log_present (task_id other message : string) (L : ledger) :
  is_Some (task_status L !! other) ->
  is_Some (task_status (add_task_log task_id message L) !! other).
Proof.
  intros Hsome. unfold add_task_log.
  destruct (task_status L !! task_id) as [e|] eqn:He; [|done].
  cbn. destruct (decide (task_id = other)) as [->|Hne].
  - rewrite lookup_insert_eq. eauto.
  - by rewrite lookup_insert_ne.
Qed.

Lemma add_task_log_logs_prefix (task_id other message : string) (L : ledger) :
  logs_of other L `prefix_of` logs_of other (add_task_log task_id message L).
Proof.
  destruct (decide (task_id = other)) as [->|Hne].
  - destruct (task_status L !! other) as [e|] eqn:He.
    + rewrite add_task_log_logs by eauto. by apply prefix_app_r.
    + unfold add_task_log. by rewrite He.
  - unfold logs_of. by rewrite add_task_log_other.
Qed.

(** The entry [update_task_status] stores before it writes its log lines. *)
Lemma update_task_status_logs (task_id status : string)
    (filename result_file error gcs_uri : option string) (L : ledger) :
  logs_of task_id (update_task_status task_id status filename result_file error gcs_uri L)
  = logs_of task_id L
    ++ match given error with
       | Some msg => [LogEntry (clock_reads L) ("ERROR: " +:+ msg);
                      LogEntry (S (clock_reads L)) ("Status changed to: " +:+ status)]
       | None => [LogEntry (clock_reads L) ("Status changed to: " +:+ status)]
       end.
Proof.
  unfold update_task_status.
  set (e0 := match task_status L !! task_id with Some e => e | None => empty_entry end).
  assert (Hl0 : logs_of task_id L = match e_logs e0 with Some l => l | None => [] end).
  { unfold logs_of, e0. by destruct (task_status L !! task_id). }
  set (e1 := set_status status e0).
  set (e2 := match given filename with Some f => set_filename f e1 | None => e1 end).
  set (e3 := match given result_file with Some f => set_result_file f e2 | None => e2 end).
  set (e4 := match given gcs_uri with Some u => set_gcs_uri u e3 | None => e3 end).
  assert (Hl4 : e_logs e4 = e_logs e0).
  { unfold e4, e3, e2, e1.
    destruct (given gcs_uri), (given result_file), (given filename); reflexivity. }
  destruct (given error) as [msg|].
  - rewrite add_task_log_logs.
    2:{ apply add_task_log_present. cbn. rewrite lookup_insert_eq. eauto. }
    rewrite add_task_log_logs by (cbn; rewrite lookup_insert_eq; eauto).
    unfold logs_of at 1. cbn. rewrite lookup_insert_eq. cbn. rewrite Hl4, Hl0.
    rewrite <- app_assoc. cbn. do 3 f_equal.
    unfold add_task_log. cbn. by rewrite lookup_insert_eq.
  - rewrite add_task_log_logs by (cbn; rewrite lookup_insert_eq; eauto).
    unfold logs_of at 1. cbn. rewrite lookup_insert_eq.
    destruct (negb (String.eqb status "failed") && bool_decide (is_Some (e_error e4)))%bool;
      cbn; by rewrite Hl4, Hl0.
Qed.


Lemma update_task_status_other (task_id other status : string)
    (filename result_file error gcs_uri : option string) (L : ledger) :
  task_id ≠ other ->
  task_status (update_task_status task_id status filename result_file error gcs_uri L) !! other
  = task_status L !! other.
Proof.
  intros Hne. unfold update_task_status.
  destruct (given error); rewrite !add_task_log_other by done; cbn;
    by rewrite lookup_insert_ne.
Qed.

Lemma init_task_other (task_id other filename : string) (L : ledger) :
  task_id ≠ other ->
  task_status (init_task task_id filename L) !! other = task_status L !! other.
Proof.
  intros Hne. unfold init_task. rewrite add_task_log_other by done. cbn.
  by rewrite lookup_insert_ne.
Qed.

(** A call addressed to one task leaves the entry of every other task as it
    was: the runs of different tasks may interleave, and none of them sees
    the calls of another in its own entry. *)
Lemma do_call_other (c : call) (other : string) (L : ledger) :
  call_id c ≠ other -> task_status (do_call c L) !! other = task_status L !! other.
Proof.
  destruct c; cbn; intros Hne.
  - by apply init_task_other.
  - by apply update_task_status_other.
  - by apply add_task_log_other.
Qed.

Lemma init_task_logs (task_id filename : string) (L : ledger) :
  logs_of task_id (init_task task_id filename L)
  = [LogEntry (clock_reads L) ("Task initialized with file: " +:+ filename)].
Proof.
  unfold init_task. rewrite add_task_log_logs by (cbn; rewrite lookup_insert_eq; eauto).
  unfold logs_of. cbn. by rewrite lookup_insert_eq.
Qed.

(** The status a call gives a task, if it gives one. *)
Lemma status_of_do_call (c : call) (task_id : string) (L : ledger) :
  status_of task_id (do_call c L)
  = match assigns task_id c with
    | Some s => Some s
    | None => status_of task_id L
    end.
Proof.
  assert (Hlog : forall id m L', status_of task_id (add_task_log id m L') = status_of task_id L').
  { intros id m L'. unfold status_of, add_task_log.
    destruct (task_status L' !! id) as [e|] eqn:He; [|done]. cbn.
    destruct (decide (id = task_id)) as [->|Hne].
    - by rewrite lookup_insert_eq, He.
    - by rewrite lookup_insert_ne. }
  destruct c as [id filename|id status filename result_file error gcs_uri|id m]; cbn.
  - unfold init_task. rewrite Hlog. unfold status_of. cbn.
    destruct (String.eqb_spec id task_id) as [->|Hne].
    + by rewrite lookup_insert_eq.
    + by rewrite lookup_insert_ne.
  - unfold update_task_status.
    destruct (String.eqb_spec id task_id) as [->|Hne].
    + destruct (given error); rewrite !Hlog; unfold status_of; cbn;
        rewrite lookup_insert_eq.
      * by destruct (given gcs_uri), (given result_file), (given filename).
      * by destruct (negb _ && _)%bool, (given gcs_uri), (given result_file), (given filename).
    + destruct (given error); rewrite !Hlog; unfold status_of; cbn;
        by rewrite lookup_insert_ne.
  - apply Hlog.
Qed.

Lemma do_calls_app (cs1 cs2 : list call) (L : ledger) :
  do_calls (cs1 ++ cs2) L = do_calls cs2 (do_calls cs1 L).
Proof. unfold do_calls. apply fold_left_app. Qed.

End tasks_facts.

(** ** The status of a task over one upload *)

Section status_facts.
Import Py tasks processing workflow_manager main spec.

Lemma status_history_trace (task_id : string) (cs : list call) (L : ledger) :
  status_history task_id cs L = status_trace task_id (status_of task_id L) cs.
Proof.
  unfold status_history. revert L.
  induction cs as [|c cs IH]; intros L; [reflexivity|].
  cbn [ledgers_after List.map status_trace].
  rewrite IH, status_of_do_call. reflexivity.
Qed.

Lemma orderedb_sound (h : list (option string)) :
  orderedb h = true -> StronglySorted later h.
Proof.
  induction h as [|a t IH]; cbn; intros H; constructor.
  - apply IH. by apply andb_prop in H as [_ ?].
  - apply andb_prop in H as [H _]. apply List.Forall_forall. intros b Hb.
    rewrite forallb_forall in H. by apply H.
Qed.

(** [extract_with_gemini] returns only when the client is there, and then a
    dict. *)
Lemma extract_with_gemini_ok (E : env) (gcs_uri : string) (data : pyval) :
  extract_with_gemini E gcs_uri = Ok data ->
  gemini E = true /\ types E = true /\ is_dict data = true.
Proof.
  unfold extract_with_gemini.
  destruct (gemini E); [|discriminate]. destruct (types E); [|discriminate]. cbn.
  destruct (part_from_uri E gcs_uri); [|discriminate]. cbn.
  destruct (generate_content_async E gcs_uri) as [response_data|e]; [|discriminate]. cbn.
  unfold validate_response.
  destruct response_data as [| | | |text| |d]; cbn; try (intros [= <-]; done).
  destruct (json_loads E text) as [[| | | | | |]|[[] msg]]; cbn;
    try discriminate; intros [= <-]; done.
Qed.

Lemma stage_message_dict (d : list (string * pyval)) (found none : string) :
  exists msg, stage_message (PDict d) found none = Ok msg.
Proof.
  unfold stage_message, count_dict, count_list, py_get. cbn.
  destruct d; [eauto|].
  cbn. repeat (match goal with |- context [match ?x with _ => _ end] => destruct x end; cbn); eauto.
Qed.

(** The statuses along a run of [process_pdf], by the first stage that
    raises.  [reconcile_with_gemini] cannot be that stage: its two checks
    are those [extract_with_gemini] has passed. *)
Lemma process_pdf_trace (E : env) (task_id gcs_uri : string) (prev : option string) :
  let ocr := replicate 2 (Some "processing_ocr") in
  let extract := replicate 3 (Some "processing_gemini_extract") in
  let reconcile := replicate 3 (Some "processing_reconciliation") in
  let report := replicate 3 (Some "generating_report") in
  status_trace task_id prev (fst (process_pdf E task_id gcs_uri))
  = prev :: Some "processing_ocr" :: ocr
    ++ match perform_ocr E gcs_uri with
       | Raise _ => [Some "failed"]
       | Ok _ =>
           extract
           ++ match extract_with_gemini E gcs_uri with
              | Raise _ => [Some "failed"]
              | Ok data =>
                  reconcile ++ report
                  ++ match generate_excel E data task_id with
                     | Raise _ => [Some "failed"]
                     | Ok _ => replicate 2 (Some "completed")
                     end
              end
       end.
Proof.
  unfold process_pdf, stages, on_exception.
  destruct (perform_ocr E gcs_uri) as [ocr_text|e1];
    cbn [bind emit await try_except status_trace assigns fst snd app].
  2:{ by rewrite !String.eqb_refl. }
  destruct (extract_with_gemini E gcs_uri) as [data|e2] eqn:Hex;
    cbn [bind emit await try_except status_trace assigns fst snd app].
  2:{ by rewrite !String.eqb_refl. }
  apply extract_with_gemini_ok in Hex as (Hg & Ht & Hd).
  destruct data as [| | | | | |d]; try discriminate.
  destruct (stage_message_dict d "Gemini extraction completed. Found "
              "Gemini extraction completed but no structured data was returned.") as [m1 ->].
  cbn [bind emit await try_except status_trace assigns fst snd app].
  unfold reconcile_with_gemini. rewrite Hg, Ht.
  cbn [negb bind emit await try_except status_trace assigns fst snd app].
  destruct (stage_message_dict d "Gemini reconciliation completed. Final data has "
              "Gemini reconciliation completed but no structured data was returned.") as [m2 ->].
  cbn [bind emit await try_except status_trace assigns fst snd app].
  destruct (generate_excel E (PDict d) task_id) as [path|e4];
    cbn [bind emit await try_except status_trace assigns fst snd app];
    by rewrite !String.eqb_refl.
Qed.

(** The statuses over the calls of one upload. *)
Lemma task_calls_trace (E : env) (up : string -> result string)
    (filename task_id : string) (prev : option string) :
  status_trace task_id prev (task_calls E up filename task_id)
  = if negb (endswith (lower filename) ".pdf") then []
    else match up (task_id +:+ "_" +:+ filename) with
         | Raise _ => [Some "received"; Some "failed"]
         | Ok gcs_uri =>
             Some "received" :: Some "received"
             :: status_trace task_id (Some "processing")
                  (UpdateTaskStatus task_id "processing" None None None None
                   :: fst (process_pdf E task_id gcs_uri))
         end.
Proof.
  unfold task_calls, upload_pdf_for_processing.
  destruct (negb (endswith (lower filename) ".pdf")); [reflexivity|].
  destruct (up _) as [gcs_uri|e]; cbn [up_calls up_task app status_trace assigns];
    by rewrite !String.eqb_refl.
Qed.

(** Every status history of an upload is one of [task_histories]. *)
Lemma task_calls_history (E : env) (up : string -> result string)
    (filename task_id : string) (L : ledger) :
  status_history task_id (task_calls E up filename task_id) L ∈ task_histories.
Proof.
  rewrite status_history_trace, task_calls_trace.
  destruct (negb (endswith (lower filename) ".pdf")); [by left|].
  destruct (up _) as [gcs_uri|e]; [|by right; left].
  cbn [status_trace assigns]. rewrite String.eqb_refl, process_pdf_trace.
  unfold task_histories. cbn [replicate app].
  destruct (perform_ocr E gcs_uri); [|by do 2 right; left].
  destruct (extract_with_gemini E gcs_uri) as [data|]; [|by do 3 right; left].
  destruct (generate_excel E data task_id); cbn [replicate app].
  - by do 5 right; left.
  - by do 4 right; left.
Qed.

End status_facts.

(** ** Extraction and reconciliation *)


Section extraction_facts.
Import Py processing spec.

Lemma dict_get_set_same {V : Type} (k : string) (v : V) (d : list (string * V)) :
  dict_get k (dict_set k v d) = Some v.
Proof.
  induction d as [|[k' v'] d IH]; cbn.
  - by rewrite String.eqb_refl.
  - destruct (String.eqb k k') eqn:Hk; cbn; by rewrite ?String.eqb_refl, ?Hk.
Qed.

Lemma dict_get_set_other {V : Type} (k k' : string) (v : V) (d : list (string * V)) :
  k <> k' -> dict_get k (dict_set k' v d) = dict_get k d.
Proof.
  intros Hne. induction d as [|[k0 v0] d IH]; cbn.
  - by destruct (String.eqb_spec k k').
  - destruct (String.eqb_spec k' k0) as [->|Hk0]; cbn.
    + by destruct (String.eqb_spec k k0).
    + destruct (String.eqb_spec k k0); [done|apply IH].
Qed.

Lemma dict_has_init_key (k k' : string) (d : list (string * pyval)) :
  dict_has k (init_key k' d) = (String.eqb k k' || dict_has k d)%bool.
Proof.
  unfold init_key. destruct (dict_has k' d) eqn:Hk'.
  - destruct (String.eqb_spec k k') as [->|]; [by rewrite Hk'|done].
  - unfold dict_has. destruct (String.eqb_spec k k') as [->|Hne].
    + by rewrite dict_get_set_same.
    + by rewrite dict_get_set_other.
Qed.

Lemma dict_get_init_key (k k' : string) (d : list (string * pyval)) :
  k <> k' -> dict_get k (init_key k' d) = dict_get k d.
Proof.
  intros Hne. unfold init_key. destruct (dict_has k' d); [done|].
  by apply dict_get_set_other.
Qed.

Lemma init_tables_list (d : list (string * pyval)) :
  exists tables, dict_get "tables" (init_tables d) = Some (PList tables).
Proof.
  unfold init_tables.
  destruct (dict_get "tables" d) as [[| | | | |l|]|] eqn:Ht;
    rewrite ?dict_get_set_same; eauto.
Qed.

(** After lines 341-357 the dict has the four keys, ['tables'] a list. *)
Lemma init_keys_canonical (d : list (string * pyval)) : canonical (PDict (init_keys d)).
Proof.
  destruct (init_tables_list d) as [tables Ht].
  exists (init_keys d), tables. unfold init_keys.
  rewrite !dict_has_init_key, !dict_get_init_key by done.
  repeat split; done.
Qed.

Lemma fallback_structure_canonical (response_data : pyval) :
  canonical (fallback_structure response_data).
Proof. do 2 eexists. repeat split; reflexivity. Qed.

(** What the validation does with a mapping, with a value that is not a
    text, and with a text that [json.loads] decodes to an object or rejects
    with [JSONDecodeError]: it returns a document with the four fields,
    ['tables'] a list. *)
Theorem validate_response_canonical (E : env) (response_data : pyval) :
  (forall text, response_data = PStr text -> well_decoded E text) ->
  exists doc, validate_response E response_data = Ok doc /\ canonical doc.
Proof.
  intros Hdec. unfold validate_response.
  destruct response_data as [| | | |text| |d];
    try (eexists; split; [reflexivity|apply fallback_structure_canonical]).
  - destruct (Hdec text eq_refl) as [[parsed_data ->]|(e & -> & ->)].
    + eexists; split; [reflexivity|apply init_keys_canonical].
    + eexists; split; [reflexivity|apply fallback_structure_canonical].
  - eexists; split; [reflexivity|apply init_keys_canonical].
Qed.

Lemma validate_response_canonical_witness :
  exists doc,
    validate_response env_ok (PStr "Total: 10") = Ok doc /\ canonical doc.
Proof.
  apply (validate_response_canonical env_ok (PStr "Total: 10")).
  intros text [= <-]. right. eexists. split; reflexivity.
Defined.

(** C1, at the failing input.  A text payload that [json.loads] decodes to
    a value other than an object makes the validation raise
    [AttributeError] ([parsed_data.get], line 370), and
    [extract_with_gemini] raise its [Exception] in turn. *)
Theorem C1_decoded_text_that_is_no_object_raises (E : env) (gcs_uri text : string)
    (parsed_data : pyval) :
  json_loads E text = Ok parsed_data ->
  is_dict parsed_data = false ->
  validate_response E (PStr text)
  = Raise (Exn AttributeError
             ("'" +:+ type_name parsed_data +:+ "' object has no attribute 'get'"))
  /\ (gemini E = true -> types E = true -> part_from_uri E gcs_uri = true ->
      generate_content_async E gcs_uri = Ok (PStr text) ->
      extract_with_gemini E gcs_uri
      = Raise (Exn Exception ("Gemini extraction failed for " +:+ gcs_uri))).
Proof.
  intros Hj Hd.
  assert (Hv : validate_response E (PStr text)
               = Raise (Exn AttributeError
                          ("'" +:+ type_name parsed_data +:+ "' object has no attribute 'get'"))).
  { unfold validate_response. rewrite Hj. by destruct parsed_data. }
  split; [exact Hv|].
  intros Hg Ht Hp Hr. unfold extract_with_gemini. rewrite Hg, Ht, Hp, Hr.
  cbn [negb result_bind]. by rewrite Hv.
Qed.

Lemma C1_decoded_text_that_is_no_object_raises_witness :
  let E := env_of (PStr "[]") "" "[]" (PList []) in
  validate_response E (PStr "[]")
  = Raise (Exn AttributeError "'list' object has no attribute 'get'")
  /\ (gemini E = true -> types E = true -> part_from_uri E "gs://bucket/t1_doc.pdf" = true ->
      generate_content_async E "gs://bucket/t1_doc.pdf" = Ok (PStr "[]") ->
      extract_with_gemini E "gs://bucket/t1_doc.pdf"
      = Raise (Exn Exception "Gemini extraction failed for gs://bucket/t1_doc.pdf")).
Proof.
  apply (C1_decoded_text_that_is_no_object_raises
           (env_of (PStr "[]") "" "[]" (PList [])) "gs://bucket/t1_doc.pdf" "[]" (PList []));
    reflexivity.
Defined.

(** C2 (as amended).  With the Gemini client and its [types] module in
    place, [reconcile_with_gemini] returns the document it was given,
    whatever the OCR text. *)
Theorem C2_reconcile_returns_its_input (E : env) (extracted_json : pyval) (ocr_text : string) :
  gemini E = true -> types E = true ->
  reconcile_with_gemini E extracted_json ocr_text = Ok extracted_json.
Proof.
  intros Hg Ht. unfold reconcile_with_gemini. by rewrite Hg, Ht.
Qed.

Lemma C2_reconcile_returns_its_input_witness :
  reconcile_with_gemini env_ok
    (PDict [("metadata", PDict []); ("key_value_pairs", PDict [("Nome", PStr "Ana")]);
            ("text_sections", PDict []); ("tables", PList [])])
    "Nome: Ana"
  = Ok (PDict [("metadata", PDict []); ("key_value_pairs", PDict [("Nome", PStr "Ana")]);
               ("text_sections", PDict []); ("tables", PList [])]).
Proof.
  apply (C2_reconcile_returns_its_input env_ok); reflexivity.
Defined.

(** C2, counterexample.  Without the Gemini client the function raises
    [ImportError] (line 396) and returns nothing. *)
Lemma C2_reconcile_raises_without_client :
  reconcile_with_gemini (without_gemini env_ok)
    (PDict [("metadata", PDict []); ("key_value_pairs", PDict []);
            ("text_sections", PDict []); ("tables", PList [])])
    "Nome: Ana"
  = Raise (Exn ImportError "GeminiClient not initialized.").
Proof. reflexivity. Qed.

(** C3 (as amended).  For a payload that is not a mapping: when it is not
    a text, or a text that [json.loads] rejects with [JSONDecodeError], the
    answer is the fallback structure, with no tables, no text sections, the
    note ["Unexpected response type"] as metadata and the payload's text
    under the one key ["raw_response"]; when it is a text that decodes to
    an object, the answer is that object, validated as a mapping is; when
    it is a text on which [json.loads] raises another exception, the
    validation raises that exception and [extract_with_gemini] its own. *)
Theorem C3_fallback_for_other_payloads (E : env) (response_data : pyval) :
  is_dict response_data = false ->
  (undecodable E response_data ->
   validate_response E response_data
   = Ok (PDict [ ("metadata", PDict [("error", PStr "Unexpected response type")]);
                 ("key_value_pairs", PDict [("raw_response", PStr (py_str response_data))]);
                 ("text_sections", PDict []);
                 ("tables", PList []) ]))
  /\ (forall text parsed_data,
        response_data = PStr text -> json_loads E text = Ok (PDict parsed_data) ->
        validate_response E response_data = Ok (PDict (init_keys parsed_data))
        /\ canonical (PDict (init_keys parsed_data)))
  /\ (forall text e gcs_uri,
        response_data = PStr text -> json_loads E text = Raise e ->
        exn_class_of e <> JSONDecodeError ->
        validate_response E response_data = Raise e
        /\ (gemini E = true -> types E = true -> part_from_uri E gcs_uri = true ->
            generate_content_async E gcs_uri = Ok response_data ->
            extract_with_gemini E gcs_uri
            = Raise (Exn Exception ("Gemini extraction failed for " +:+ gcs_uri)))).
Proof.
  intros Hd. split; [|split].
  - unfold undecodable, validate_response.
    destruct response_data as [| | | |text| |d]; try done.
    by intros (e & -> & ->).
  - intros text parsed_data -> Hj. unfold validate_response. rewrite Hj.
    split; [reflexivity|apply init_keys_canonical].
  - intros text e gcs_uri -> Hj Hclass.
    assert (Hv : validate_response E (PStr text) = Raise e).
    { unfold validate_response. rewrite Hj. by destruct (exn_class_of e). }
    split; [exact Hv|].
    intros Hg Ht Hp Hr. unfold extract_with_gemini. rewrite Hg, Ht, Hp, Hr.
    cbn [negb result_bind]. by rewrite Hv.
Qed.

Lemma C3_fallback_for_other_payloads_witness :
  validate_response env_ok (PStr "Total: 10")
  = Ok (PDict [ ("metadata", PDict [("error", PStr "Unexpected response type")]);
                ("key_value_pairs", PDict [("raw_response", PStr "Total: 10")]);
                ("text_sections", PDict []);
                ("tables", PList []) ])
  /\ extract_with_gemini env_deep "gs://bucket/t1_doc.pdf"
     = Raise (Exn Exception "Gemini extraction failed for gs://bucket/t1_doc.pdf").
Proof.
  split.
  - apply (C3_fallback_for_other_payloads env_ok (PStr "Total: 10")); [reflexivity|].
    eexists. split; reflexivity.
  - destruct (C3_fallback_for_other_payloads env_deep (PStr deep_text) eq_refl)
      as (_ & _ & Hraise).
    apply (Hraise deep_text
             (Exn (Other "RecursionError")
                "maximum recursion depth exceeded while decoding a JSON array from a unicode string"));
      first [reflexivity | discriminate].
Defined.

(** C3, counterexample.  For the text of the specification's scenario the
    validation returns metadata that is not empty and the whole text under
    ["raw_response"], and the report of that document has a summary of one
    row, the metadata note.  The pairs [Nome] and [Idade] are built only by
    the text branch of [reconcile_with_gemini], which is never run and
    which leaves metadata and text sections non-empty as well. *)
Lemma C3_scenario_text_is_not_split :
  let text := "Nome: Ana" +:+ nl +:+ "Idade: 30" in
  let doc :=
    PDict [ ("metadata", PDict [("error", PStr "Unexpected response type")]);
            ("key_value_pairs", PDict [("raw_response", PStr text)]);
            ("text_sections", PDict []);
            ("tables", PList []) ] in
  validate_response env_ok (PStr text) = Ok doc
  /\ _write_excel_sheets env_ok doc "/tmp/pdf2any_results/doc-A_report.xlsx"
     = Ok [ Write (Sheet "Summary" [PStr "Field"; PStr "Value"]
                     [[PStr "meta_error"; PStr "Unexpected response type"]]) true ]
  /\ text_response_structure text
     = PDict [ ("metadata", PDict [("document_type", PStr "spreadsheet")]);
               ("key_value_pairs", PDict [("Nome", PStr "Ana"); ("Idade", PStr "30")]);
               ("text_sections", PDict [("extracted_text", PStr text)]);
               ("tables", PList []) ].
Proof. repeat split; reflexivity. Qed.

Lemma dict_get_init_tables (k : string) (d : list (string * pyval)) :
  k <> "tables" -> dict_get k (init_tables d) = dict_get k d.
Proof.
  intros Hne. unfold init_tables.
  destruct (dict_get "tables" d) as [[| | | | | |]|]; try done;
    by apply dict_get_set_other.
Qed.

Lemma dict_get_init_key_present (k k' : string) (d : list (string * pyval)) (v : pyval) :
  dict_get k d = Some v -> dict_get k (init_key k' d) = Some v.
Proof.
  intros Hk. destruct (String.eqb_spec k k') as [<-|Hne].
  - unfold init_key, dict_has. by rewrite Hk.
  - by rewrite dict_get_init_key.
Qed.

(** The validation of a mapping changes nothing that is in place: a field
    other than ['tables'] keeps its value, and ['tables'] keeps its list or
    becomes the empty list. *)
Theorem validate_response_keeps_fields (E : env) (d : list (string * pyval)) :
  validate_response E (PDict d) = Ok (PDict (init_keys d))
  /\ dict_get "tables" (init_keys d)
     = Some (PList match dict_get "tables" d with Some (PList l) => l | _ => [] end)
  /\ (forall k v, k <> "tables" -> dict_get k d = Some v ->
                  dict_get k (init_keys d) = Some v).
Proof.
  split; [reflexivity|]. split.
  - unfold init_keys. rewrite !dict_get_init_key by done. unfold init_tables.
    destruct (dict_get "tables" d) as [[| | | | |l|]|] eqn:Ht;
      rewrite ?dict_get_set_same; done.
  - intros k v Hne Hk. unfold init_keys.
    do 3 apply dict_get_init_key_present. by rewrite dict_get_init_tables.
Qed.

End extraction_facts.

(** ** The Excel writer *)


Section writer_facts.
Import Py processing spec.

Lemma valid_rows_omap (rows : list pyval) : valid_rows rows = omap cells_of rows.
Proof.
  unfold valid_rows.
  enough (H : forall acc, fold_left (fun valid_rows row => match row with
                                                         | PList cells => valid_rows ++ [cells]
                                                         | _ => valid_rows
                                                         end) rows acc
                          = acc ++ omap cells_of rows) by apply (H []).
  induction rows as [|row rows IH]; intros acc; cbn [fold_left omap].
  - by rewrite app_nil_r.
  - rewrite IH. destruct row; cbn [cells_of]; try reflexivity.
    by rewrite <- app_assoc.
Qed.

Lemma table_step_write (E : env) (st : writer_state) (i : nat) (table_info : pyval) :
  table_step E st i table_info
  = match table_write E i table_info with
    | Some w => (fst st ++ [w], if w_complete w then S (snd st) else snd st)
    | None => st
    end.
Proof.
  unfold table_step, table_write.
  destruct (table_sheet i table_info) as [s|]; [|reflexivity].
  destruct (data_frame E (rows s) (columns s)); [|reflexivity].
  by destruct (bool_decide (to_excel E s = None) && autosize E s)%bool.
Qed.

Lemma tables_loop_writes (E : env) (st : writer_state) (i : nat) (tables : list pyval) :
  fst (tables_loop E st i tables) = fst st ++ table_writes E i tables.
Proof.
  revert st i. induction tables as [|t tables IH]; intros st i; cbn [tables_loop table_writes].
  - by rewrite app_nil_r.
  - rewrite IH, table_step_write.
    destruct (table_write E i t) as [w|]; [|reflexivity].
    cbn [fst]. by rewrite <- app_assoc.
Qed.

Lemma table_writes_lookup (E : env) (i k : nat) (tables : list pyval) (t : pyval) (w : write) :
  tables !! k = Some t -> table_write E (i + k) t = Some w ->
  exists before after,
    table_writes E i tables = before ++ w :: after
    /\ before = table_writes E i (take k tables)
    /\ after = table_writes E (i + S k) (drop (S k) tables).
Proof.
  revert i k. induction tables as [|t0 tables IH]; intros i k Hk Hw; [done|].
  destruct k as [|k]; cbn in Hk.
  - injection Hk as ->. rewrite Nat.add_0_r in Hw. cbn [table_writes take drop]. rewrite Hw.
    exists [], (table_writes E (S i) tables). repeat split. by rewrite Nat.add_1_r.
  - replace (i + S k) with (S i + k) in Hw by lia.
    destruct (IH (S i) k Hk Hw) as (before & after & Heq & Hb & Ha).
    cbn [table_writes take drop]. rewrite Heq.
    replace (i + S (S k)) with (S i + S k) by lia. rewrite <- Ha, <- Hb.
    destruct (table_write E i t0) as [w0|].
    + exists (w0 :: before), after. done.
    + exists before, after. done.
Qed.

(** Two tables that are written appear in the order of their indices. *)
Lemma table_writes_two (E : env) (i j : nat) (tables : list pyval) (ti tj : pyval)
    (wi wj : write) :
  i < j -> tables !! i = Some ti -> tables !! j = Some tj ->
  table_write E i ti = Some wi -> table_write E j tj = Some wj ->
  [wi; wj] `sublist_of` table_writes E 0 tables.
Proof.
  intros Hij Hi Hj Hwi Hwj.
  destruct (table_writes_lookup E 0 i tables ti wi Hi Hwi) as (before & after & Heq & _ & Ha).
  rewrite Heq. apply sublist_inserts_l. apply sublist_skip.
  assert (Hj' : drop (S i) tables !! (j - S i) = Some tj).
  { rewrite lookup_drop. by replace (S i + (j - S i)) with j by lia. }
  assert (Hwj' : table_write E (0 + S i + (j - S i)) tj = Some wj).
  { by replace (0 + S i + (j - S i)) with j by lia. }
  destruct (table_writes_lookup E (0 + S i) (j - S i) _ tj wj Hj' Hwj')
    as (before' & after' & Heq' & _ & _).
  rewrite Ha, Heq'. apply sublist_inserts_l. apply sublist_skip. apply sublist_nil_l.
Qed.



Lemma field_dict (d : list (string * pyval)) (k : string) (v : pyval) :
  dict_get k d = Some v -> field (PDict d) k = Ok (Some v).
Proof.
  intros Hk. unfold field, py_get. destruct d as [|kv d]; [discriminate|].
  cbn [truthy]. by rewrite Hk.
Qed.

(** The calls of a run that returns: some sheets from the summary and the
    text sections, then the calls of the table loop, then the [Info] sheet
    or nothing. *)
Lemma write_sheets_body_tables (E : env) (d : list (string * pyval)) (tables : list pyval)
    (writes : list write) :
  dict_get "tables" d = Some (PList tables) ->
  write_sheets_body E (PDict d) = Ok writes ->
  exists before after, writes = before ++ table_writes E 0 tables ++ after.
Proof.
  intros Ht. unfold write_sheets_body.
  destruct (summary_data (PDict d)) as [summary|]; [|discriminate]. cbn [result_bind].
  destruct (match summary with [] => Ok _ | _ => _ end) as [st1|]; [|discriminate].
  cbn [result_bind].
  destruct (field (PDict d) "text_sections") as [text_sections|]; [|discriminate].
  cbn [result_bind].
  destruct (match text_sections with Some (PDict (kv :: ts)) => _ | _ => Ok st1 end)
    as [st2|]; [|discriminate].
  cbn [result_bind]. rewrite (field_dict d "tables" _ Ht). cbn [result_bind].
  destruct (Nat.eqb (snd (tables_loop E st2 0 tables)) 0).
  - unfold write_sheet. destruct (to_excel E info_sheet); [discriminate|].
    cbn [result_bind fst]. intros [= <-]. rewrite tables_loop_writes.
    exists (fst st2), [Write info_sheet true]. by rewrite <- app_assoc.
  - intros [= <-]. rewrite tables_loop_writes. exists (fst st2), []. by rewrite app_nil_r.
Qed.

Lemma write_excel_sheets_ok (E : env) (data : pyval) (output_path : string)
    (writes : list write) :
  _write_excel_sheets E data output_path = Ok writes ->
  excel_writer E output_path = true /\ write_sheets_body E data = Ok writes.
Proof.
  unfold _write_excel_sheets. destruct (excel_writer E output_path); [|discriminate].
  destruct (write_sheets_body E data); [|discriminate]. by intros [= ->].
Qed.

(** C6 (as amended).  When two tables of a document are written and their
    titles sanitize and truncate to the same sheet name, both calls of
    [to_excel] are issued under that name, in the order of the tables: no
    suffix is added, so the sheet names the writer hands over are not
    distinct. *)
Theorem C6_one_name_for_both_tables (E : env) (d : list (string * pyval))
    (output_path : string) (tables : list pyval) (i j : nat) (ti tj : pyval)
    (si sj : sheet) (writes : list write) :
  dict_get "tables" d = Some (PList tables) ->
  i < j -> tables !! i = Some ti -> tables !! j = Some tj ->
  table_sheet i ti = Some si -> table_sheet j tj = Some sj ->
  sheet_name si = sheet_name sj ->
  data_frame E (rows si) (columns si) = true ->
  data_frame E (rows sj) (columns sj) = true ->
  _write_excel_sheets E (PDict d) output_path = Ok writes ->
  (exists ci cj, [Write si ci; Write sj cj] `sublist_of` writes)
  /\ [sheet_name si; sheet_name si] `sublist_of` sheet_names writes
  /\ ~ NoDup (sheet_names writes).
Proof.
  intros Ht Hij Hi Hj Hsi Hsj Hname Hfi Hfj Hok.
  apply write_excel_sheets_ok in Hok as [_ Hbody].
  destruct (write_sheets_body_tables E d tables writes Ht Hbody) as (before & after & ->).
  set (wi := Write si (bool_decide (to_excel E si = None) && autosize E si)).
  set (wj := Write sj (bool_decide (to_excel E sj = None) && autosize E sj)).
  assert (Hwi : table_write E i ti = Some wi) by (unfold table_write; by rewrite Hsi, Hfi).
  assert (Hwj : table_write E j tj = Some wj) by (unfold table_write; by rewrite Hsj, Hfj).
  assert (Hsub : [wi; wj] `sublist_of` before ++ table_writes E 0 tables ++ after).
  { apply sublist_inserts_l, sublist_inserts_r.
    by apply (table_writes_two E i j tables ti tj). }
  assert (Hnames : [sheet_name si; sheet_name si]
                     `sublist_of` sheet_names (before ++ table_writes E 0 tables ++ after)).
  { apply (fmap_sublist (fun w => sheet_name (w_sheet w))) in Hsub.
    cbn [fmap list_fmap] in Hsub. subst wi wj. cbn [w_sheet] in Hsub.
    by rewrite <- Hname in Hsub. }
  split; [by eauto|]. split; [exact Hnames|].
  intros Hnodup. apply (sublist_NoDup _ _ Hnodup) in Hnames.
  apply NoDup_cons_1_1 in Hnames. apply Hnames. by left.
Qed.


Lemma C6_one_name_for_both_tables_witness :
  let table := fun title cell =>
    PDict [ ("table_title", PStr title); ("headers", PList [PStr "Item"]);
            ("rows", PList [PList [PStr cell]]) ] in
  let s := fun cell => Sheet "Q1_Sales" [PStr "Item"] [[PStr cell]] in
  let writes := [Write (s "10") true; Write (s "20") true] in
  (exists ci cj, [Write (s "10") ci; Write (s "20") cj] `sublist_of` writes)
  /\ ["Q1_Sales"; "Q1_Sales"] `sublist_of` sheet_names writes
  /\ ~ NoDup (sheet_names writes).
Proof.
  apply (C6_one_name_for_both_tables env_ok
           [ ("tables", PList [ PDict [ ("table_title", PStr "Q1 Sales");
                                        ("headers", PList [PStr "Item"]);
                                        ("rows", PList [PList [PStr "10"]]) ];
                                PDict [ ("table_title", PStr "Q1-Sales");
                                        ("headers", PList [PStr "Item"]);
                                        ("rows", PList [PList [PStr "20"]]) ] ]) ]
           "/tmp/pdf2any_results/t1_report.xlsx"
           [ PDict [ ("table_title", PStr "Q1 Sales"); ("headers", PList [PStr "Item"]);
                     ("rows", PList [PList [PStr "10"]]) ];
             PDict [ ("table_title", PStr "Q1-Sales"); ("headers", PList [PStr "Item"]);
                     ("rows", PList [PList [PStr "20"]]) ] ]
           0 1
           (PDict [ ("table_title", PStr "Q1 Sales"); ("headers", PList [PStr "Item"]);
                    ("rows", PList [PList [PStr "10"]]) ])
           (PDict [ ("table_title", PStr "Q1-Sales"); ("headers", PList [PStr "Item"]);
                    ("rows", PList [PList [PStr "20"]]) ])
           (Sheet "Q1_Sales" [PStr "Item"] [[PStr "10"]])
           (Sheet "Q1_Sales" [PStr "Item"] [[PStr "20"]])
           [ Write (Sheet "Q1_Sales" [PStr "Item"] [[PStr "10"]]) true;
             Write (Sheet "Q1_Sales" [PStr "Item"] [[PStr "20"]]) true ]);
    first [ reflexivity | lia ].
Defined.

(** C6, counterexample.  Two tables titled ["Q1 Sales"] and ["Q1-Sales"]:
    both are handed to [to_excel] under the name ["Q1_Sales"]. *)
Lemma C6_two_tables_one_sheet_name :
  let table := fun title cell =>
    PDict [ ("table_title", PStr title); ("headers", PList [PStr "Item"]);
            ("rows", PList [PList [PStr cell]]) ] in
  let data :=
    PDict [ ("metadata", PDict []); ("key_value_pairs", PDict []);
            ("text_sections", PDict []);
            ("tables", PList [table "Q1 Sales" "10"; table "Q1-Sales" "20"]) ] in
  let writes :=
    [ Write (Sheet "Q1_Sales" [PStr "Item"] [[PStr "10"]]) true;
      Write (Sheet "Q1_Sales" [PStr "Item"] [[PStr "20"]]) true ] in
  _write_excel_sheets env_ok data "/tmp/pdf2any_results/t1_report.xlsx" = Ok writes
  /\ sheet_names writes = ["Q1_Sales"; "Q1_Sales"].
Proof. split; reflexivity. Qed.

(** The kept rows are the rows that are lists, in their order. *)
Lemma valid_rows_filter (rows : list pyval) :
  List.map PList (valid_rows rows) = List.filter is_list rows.
Proof.
  rewrite valid_rows_omap.
  induction rows as [|row rows IH]; [reflexivity|].
  destruct row; cbn in *; by rewrite ?IH.
Qed.

(** A document that has tables and nothing else. *)
Lemma write_sheets_body_only_tables (E : env) (tables : list pyval) :
  write_sheets_body E (PDict [("tables", PList tables)])
  = let st := tables_loop E ([], 0) 0 tables in
    if Nat.eqb (snd st) 0
    then result_bind (write_sheet E info_sheet st) (fun st => Ok (fst st))
    else Ok (fst st).
Proof. reflexivity. Qed.

(** C7.  In a table with a list of headers and a list of rows, the rows
    that are lists are kept in their order and every other row is dropped;
    when no row is left the table is skipped and the loop goes on; when
    some are left the sheet of the table has the headers as columns and
    the kept rows.  The table with headers [A], [B] and rows
    [["1","2"]], ["bad-row"] is written as one sheet with the one row
    [["1","2"]]. *)
Theorem C7_rows_that_are_not_lists_are_dropped (E : env) (i : nat)
    (t : list (string * pyval)) (headers rows_ : list pyval) (output_path : string) :
  dict_get "headers" t = Some (PList headers) ->
  dict_get "rows" t = Some (PList rows_) ->
  let example :=
    PDict [ ("headers", PList [PStr "A"; PStr "B"]);
            ("rows", PList [PList [PStr "1"; PStr "2"]; PStr "bad-row"]) ] in
  let example_sheet := Sheet "Table_1" [PStr "A"; PStr "B"] [[PStr "1"; PStr "2"]] in
  List.map PList (valid_rows rows_) = List.filter is_list rows_
  /\ (valid_rows rows_ = [] ->
      table_sheet i (PDict t) = None /\ forall st, table_step E st i (PDict t) = st)
  /\ (valid_rows rows_ <> [] ->
      table_sheet i (PDict t)
      = Some (Sheet (safe_sheet_name (raw_title i t)) headers (valid_rows rows_)))
  /\ table_sheet 0 example = Some example_sheet
  /\ (excel_writer E output_path = true ->
      data_frame E (rows example_sheet) (columns example_sheet) = true ->
      to_excel E example_sheet = None -> autosize E example_sheet = true ->
      _write_excel_sheets E (PDict [("tables", PList [example])]) output_path
      = Ok [Write example_sheet true]).
Proof.
  intros Hh Hr example example_sheet.
  split; [apply valid_rows_filter|].
  split; [|split; [|split]].
  - intros Hnone.
    assert (Hs : table_sheet i (PDict t) = None).
    { unfold table_sheet. rewrite Hh, Hr, Hnone. by destruct (truthy (PList rows_)). }
    split; [exact Hs|]. intros st. unfold table_step. by rewrite Hs.
  - intros Hsome. unfold table_sheet. rewrite Hh, Hr.
    destruct rows_ as [|row rows_]; [done|]. cbn [truthy].
    by destruct (valid_rows (row :: rows_)).
  - reflexivity.
  - intros Hw Hf Hx Ha. unfold _write_excel_sheets. rewrite Hw.
    rewrite write_sheets_body_only_tables. cbn [tables_loop].
    rewrite table_step_write. unfold table_write.
    change (table_sheet 0 example) with (Some example_sheet).
    cbv beta iota. rewrite Hf, Hx, Ha. reflexivity.
Qed.

Lemma C7_rows_that_are_not_lists_are_dropped_witness :
  let example :=
    PDict [ ("headers", PList [PStr "A"; PStr "B"]);
            ("rows", PList [PList [PStr "1"; PStr "2"]; PStr "bad-row"]) ] in
  let example_sheet := Sheet "Table_1" [PStr "A"; PStr "B"] [[PStr "1"; PStr "2"]] in
  let rows_ := [PList [PStr "1"; PStr "2"]; PStr "bad-row"] in
  let t := [ ("headers", PList [PStr "A"; PStr "B"]); ("rows", PList rows_) ] in
  List.map PList (valid_rows rows_) = List.filter is_list rows_
  /\ (valid_rows rows_ = [] ->
      table_sheet 0 (PDict t) = None /\ forall st, table_step env_ok st 0 (PDict t) = st)
  /\ (valid_rows rows_ <> [] ->
      table_sheet 0 (PDict t)
      = Some (Sheet (safe_sheet_name (raw_title 0 t)) [PStr "A"; PStr "B"] (valid_rows rows_)))
  /\ table_sheet 0 example = Some example_sheet
  /\ (excel_writer env_ok "report.xlsx" = true ->
      data_frame env_ok (rows example_sheet) (columns example_sheet) = true ->
      to_excel env_ok example_sheet = None -> autosize env_ok example_sheet = true ->
      _write_excel_sheets env_ok (PDict [("tables", PList [example])]) "report.xlsx"
      = Ok [Write example_sheet true]).
Proof.
  apply (C7_rows_that_are_not_lists_are_dropped env_ok 0
           [ ("headers", PList [PStr "A"; PStr "B"]);
             ("rows", PList [PList [PStr "1"; PStr "2"]; PStr "bad-row"]) ]
           [PStr "A"; PStr "B"] [PList [PStr "1"; PStr "2"]; PStr "bad-row"] "report.xlsx");
    reflexivity.
Defined.


(** C8.  For a document whose metadata, key-value pairs, text sections and
    tables are all empty, a run in which the writer opens and the sheet is
    written issues one call of [to_excel]: the sheet [Info], with the one
    row that says no data was extracted. *)
Theorem C8_empty_document_gets_the_info_sheet (E : env) (d : list (string * pyval))
    (output_path : string) :
  dict_get "metadata" d = Some (PDict []) ->
  dict_get "key_value_pairs" d = Some (PDict []) ->
  dict_get "text_sections" d = Some (PDict []) ->
  dict_get "tables" d = Some (PList []) ->
  excel_writer E output_path = true ->
  to_excel E info_sheet = None ->
  _write_excel_sheets E (PDict d) output_path = Ok [Write info_sheet true]
  /\ sheet_names [Write info_sheet true] = ["Info"]
  /\ rows info_sheet = [[PStr "No structured data extracted or processed"]].
Proof.
  intros Hm Hk Hs Ht Hw Hx. split; [|split; reflexivity].
  unfold _write_excel_sheets. rewrite Hw.
  unfold write_sheets_body, summary_data.
  rewrite (field_dict d "metadata" _ Hm). cbn [result_bind].
  rewrite (field_dict d "key_value_pairs" _ Hk). cbn [result_bind].
  cbn [List.filter List.map dict_of_items dict_update fold_left].
  rewrite (field_dict d "text_sections" _ Hs). cbn [result_bind].
  rewrite (field_dict d "tables" _ Ht). cbn [result_bind tables_loop snd fst Nat.eqb].
  unfold write_sheet. by rewrite Hx.
Qed.

Lemma C8_empty_document_gets_the_info_sheet_witness :
  _write_excel_sheets env_ok
    (PDict [ ("metadata", PDict []); ("key_value_pairs", PDict []);
             ("text_sections", PDict []); ("tables", PList []) ])
    "/tmp/pdf2any_results/t1_report.xlsx"
  = Ok [Write info_sheet true]
  /\ sheet_names [Write info_sheet true] = ["Info"]
  /\ rows info_sheet = [[PStr "No structured data extracted or processed"]].
Proof.
  apply (C8_empty_document_gets_the_info_sheet env_ok
           [ ("metadata", PDict []); ("key_value_pairs", PDict []);
             ("text_sections", PDict []); ("tables", PList []) ]
           "/tmp/pdf2any_results/t1_report.xlsx"); reflexivity.
Defined.


End writer_facts.


Section status_claims.
Import Py tasks processing workflow_manager main spec.

Lemma not_followed_by (a b : string) (h : list (option string)) :
  forallb (fun i => negb (bool_decide (h !! i = Some (Some a))
                          && bool_decide (h !! S i = Some (Some b))))
          (seq 0 (length h)) = true ->
  ~ followed_by a b h.
Proof.
  intros Hall [i [Ha Hb]]. rewrite forallb_forall in Hall.
  assert (Hi : i < length h) by (apply lookup_lt_Some in Ha; done).
  specialize (Hall i). rewrite in_seq in Hall.
  assert (Hn : negb (bool_decide (h !! i = Some (Some a))
                     && bool_decide (h !! S i = Some (Some b))) = true) by (apply Hall; lia).
  rewrite !bool_decide_eq_true_2 in Hn by done. discriminate.
Qed.

Lemma task_histories_ordered :
  Forall (fun h => Forall (fun s => s ∈ Some <$> status_order) h
                   /\ StronglySorted later h
                   /\ ~ followed_by "processing_reconciliation" "failed" h
                   /\ ~ followed_by "processing" "failed" h)
         task_histories.
Proof.
  unfold task_histories. cbn [replicate app].
  repeat apply Forall_cons_2; try apply Forall_nil_2; repeat split;
    first [ apply (bool_decide_unpack _); vm_compute; reflexivity
          | apply orderedb_sound; vm_compute; reflexivity
          | apply not_followed_by; vm_compute; reflexivity ].
Qed.


Lemma reaches_failed (s : string) (task_id : string) (L : ledger) :
  s ∈ ["received"; "processing_ocr"; "processing_gemini_extract"; "generating_report"] ->
  exists E up,
    followed_by s "failed" (status_history task_id (task_calls E up "doc.pdf" task_id) L).
Proof.
  intros Hs. rewrite !elem_of_cons in Hs.
  destruct Hs as [->|[->|[->|[->|Hs]]]]; [| | | |by apply elem_of_nil in Hs].
  - exists env_ok, (fun _ => Raise (Exn Exception "Failed to upload file 'doc.pdf' to GCS.")).
    rewrite status_history_trace, task_calls_trace. by exists 0.
  - exists (with_perform_ocr (fun _ => Raise (Exn ImportError "pytesseract library not available."))
                             env_ok), uploaded.
    rewrite status_history_trace, task_calls_trace.
    change (negb (endswith (lower "doc.pdf") ".pdf")) with false.
    cbv beta iota delta [uploaded]. cbn [status_trace assigns].
    rewrite String.eqb_refl, process_pdf_trace. by exists 6.
  - exists (without_gemini env_ok), uploaded.
    rewrite status_history_trace, task_calls_trace.
    change (negb (endswith (lower "doc.pdf") ".pdf")) with false.
    cbv beta iota delta [uploaded]. cbn [status_trace assigns].
    rewrite String.eqb_refl, process_pdf_trace. by exists 9.
  - exists (without_excel_writer env_ok), uploaded.
    rewrite status_history_trace, task_calls_trace.
    change (negb (endswith (lower "doc.pdf") ".pdf")) with false.
    cbv beta iota delta [uploaded]. cbn [status_trace assigns].
    rewrite String.eqb_refl, process_pdf_trace. by exists 15.
Qed.

(** C4 (as amended).  Over the calls made for one upload, the status of the
    task is always one of [status_order] (the seven statuses of the
    specification and ["processing"]), it never moves backward in that
    order, nothing but [failed] follows [failed], and [failed] directly
    follows [received], [processing_ocr], [processing_gemini_extract] and
    [generating_report] in some run. *)
Theorem C4_status_moves_forward (E : env) (upload_file_to_gcs : string -> result string)
    (filename task_id : string) (L : ledger) :
  let h := status_history task_id (task_calls E upload_file_to_gcs filename task_id) L in
  Forall (fun s => s ∈ Some <$> status_order) h
  /\ StronglySorted later h
  /\ (forall s,
        s ∈ ["received"; "processing_ocr"; "processing_gemini_extract"; "generating_report"] ->
        exists E' up',
          followed_by s "failed"
            (status_history task_id (task_calls E' up' "doc.pdf" task_id) L)).
Proof.
  intros h.
  pose proof (task_calls_history E upload_file_to_gcs filename task_id L) as Hin.
  pose proof task_histories_ordered as Hall.
  rewrite List.Forall_forall in Hall.
  apply list_elem_of_In in Hin. apply Hall in Hin as (H1 & H2 & _).
  split; [exact H1|]. split; [exact H2|].
  intros s Hs. by apply reaches_failed.
Qed.

(** C4, counterexample.  In a run where every stage succeeds the third
    ledger call leaves the task with status ["processing"], which is not
    one of the seven statuses; and in no run does [failed] directly follow
    [processing_reconciliation]. *)
Lemma C4_processing_is_not_in_the_enum :
  (status_history "t1" (task_calls env_ok uploaded "doc.pdf" "t1") empty_ledger) !! 2
  = Some (Some "processing")
  /\ ("processing" ∉ status_enum)
  /\ (forall E up filename task_id L,
        ~ followed_by "processing_reconciliation" "failed"
            (status_history task_id (task_calls E up filename task_id) L)).
Proof.
  split; [|split].
  - rewrite status_history_trace. vm_compute. reflexivity.
  - unfold status_enum. intros H. rewrite !elem_of_cons in H.
    destruct H as [H|[H|[H|[H|[H|[H|[H|H]]]]]]]; try discriminate. by apply elem_of_nil in H.
  - intros E up filename task_id L.
    pose proof (task_calls_history E up filename task_id L) as Hin.
    pose proof task_histories_ordered as Hall.
    rewrite List.Forall_forall in Hall.
    apply list_elem_of_In in Hin. by apply Hall in Hin as (_ & _ & H3 & _).
Qed.

End status_claims.

(** ** The log of a task *)


Section log_facts.
Import tasks spec.

Lemma do_call_logs_prefix (task_id : string) (c : call) (L : ledger) :
  keeps task_id c ->
  logs_of task_id L `prefix_of` logs_of task_id (do_call c L).
Proof.
  intros Hkeep.
  destruct (decide (call_id c = task_id)) as [Heq|Hne].
  - destruct c as [id filename|id status filename result_file error gcs_uri|id m];
      cbn in Heq, Hkeep |- *; subst id.
    + done.
    + rewrite update_task_status_logs. by apply prefix_app_r.
    + apply add_task_log_logs_prefix.
  - unfold logs_of. by rewrite do_call_other.
Qed.

Lemma do_calls_logs_prefix (task_id : string) (cs : list call) (L : ledger) :
  Forall (keeps task_id) cs ->
  logs_of task_id L `prefix_of` logs_of task_id (do_calls cs L).
Proof.
  unfold do_calls. revert L.
  induction cs as [|c cs IH]; intros L Hall; cbn [fold_left]; [done|].
  apply Forall_cons_1 in Hall as [Hc Hcs].
  etrans; [by apply do_call_logs_prefix|]. by apply IH.
Qed.


(** C9 (as amended).  The log of a task that is in the ledger only grows
    at its end over the calls that do not create the task anew: over any
    calls of [update_task_status] and [add_task_log] (for this or any other
    task, and [init_task] for other tasks) the log after a longer run
    extends the log after a shorter one, so it never gets shorter and no
    line is removed or moved; [update_task_status] appends a status line,
    after the error line when an error is given; [add_task_log] appends its
    message. *)
Theorem C9_log_append_only (task_id : string) (L : ledger) :
  is_Some (get_task_status task_id L) ->
  (forall cs1 cs2, Forall (keeps task_id) cs2 ->
     logs_of task_id (do_calls cs1 L) `prefix_of` logs_of task_id (do_calls (cs1 ++ cs2) L)
     /\ length (logs_of task_id (do_calls cs1 L))
        <= length (logs_of task_id (do_calls (cs1 ++ cs2) L)))
  /\ (forall status filename result_file error gcs_uri,
        logs_of task_id
          (update_task_status task_id status filename result_file error gcs_uri L)
        = logs_of task_id L
          ++ match given error with
             | Some msg => [LogEntry (clock_reads L) ("ERROR: " +:+ msg);
                            LogEntry (S (clock_reads L)) ("Status changed to: " +:+ status)]
             | None => [LogEntry (clock_reads L) ("Status changed to: " +:+ status)]
             end)
  /\ (forall message,
        logs_of task_id (add_task_log task_id message L)
        = logs_of task_id L ++ [LogEntry (clock_reads L) message]).
Proof.
  intros Hpresent. split; [|split].
  - intros cs1 cs2 Hkeep. rewrite do_calls_app.
    pose proof (do_calls_logs_prefix task_id cs2 (do_calls cs1 L) Hkeep) as Hpre.
    split; [exact Hpre|]. by apply prefix_length.
  - intros. apply update_task_status_logs.
  - intros message. by apply add_task_log_logs.
Qed.

Lemma C9_log_append_only_witness :
  let L := init_task "t1" "doc.pdf" empty_ledger in
  (forall cs1 cs2, Forall (keeps "t1") cs2 ->
     logs_of "t1" (do_calls cs1 L) `prefix_of` logs_of "t1" (do_calls (cs1 ++ cs2) L)
     /\ length (logs_of "t1" (do_calls cs1 L))
        <= length (logs_of "t1" (do_calls (cs1 ++ cs2) L)))
  /\ (forall status filename result_file error gcs_uri,
        logs_of "t1" (update_task_status "t1" status filename result_file error gcs_uri L)
        = logs_of "t1" L
          ++ match given error with
             | Some msg => [LogEntry (clock_reads L) ("ERROR: " +:+ msg);
                            LogEntry (S (clock_reads L)) ("Status changed to: " +:+ status)]
             | None => [LogEntry (clock_reads L) ("Status changed to: " +:+ status)]
             end)
  /\ (forall message,
        logs_of "t1" (add_task_log "t1" message L)
        = logs_of "t1" L ++ [LogEntry (clock_reads L) message]).
Proof.
  apply (C9_log_append_only "t1" (init_task "t1" "doc.pdf" empty_ledger)).
  vm_compute. eauto.
Defined.

(** C9, counterexample.  [init_task] is a ledger operation too, and on the
    id of a task that is in the ledger it puts a new entry in the place of
    the old one: the two lines of the log are gone, and the log is the one
    line of the new entry. *)
Lemma C9_init_task_restarts_the_log :
  let L := add_task_log "t1" "Starting OCR processing..."
             (init_task "t1" "doc.pdf" empty_ledger) in
  let L' := do_calls [InitTask "t1" "b.pdf"] L in
  is_Some (get_task_status "t1" L)
  /\ List.map message (logs_of "t1" L)
     = ["Task initialized with file: doc.pdf"; "Starting OCR processing..."]
  /\ List.map message (logs_of "t1" L') = ["Task initialized with file: b.pdf"]
  /\ length (logs_of "t1" L') < length (logs_of "t1" L)
  /\ ~ logs_of "t1" L `prefix_of` logs_of "t1" L'.
Proof.
  cbn zeta. split; [by eexists|]. split; [reflexivity|]. split; [reflexivity|].
  split; [vm_compute; lia|].
  intros Hpre. apply prefix_length in Hpre. vm_compute in Hpre. lia.
Qed.

(** C10.  [add_task_log] for a task id that is not in the ledger returns
    the ledger it was given: no entry is created, no line is recorded, the
    clock is not read. *)
Theorem C10_log_for_unknown_task_is_dropped (task_id message : string) (L : ledger) :
  get_task_status task_id L = None ->
  add_task_log task_id message L = L.
Proof.
  unfold get_task_status, add_task_log. by intros ->.
Qed.

Lemma C10_log_for_unknown_task_is_dropped_witness :
  add_task_log "unknown" "Starting OCR processing..." (init_task "t1" "doc.pdf" empty_ledger)
  = init_task "t1" "doc.pdf" empty_ledger.
Proof.
  apply (C10_log_for_unknown_task_is_dropped "unknown" "Starting OCR processing..."
           (init_task "t1" "doc.pdf" empty_ledger)).
  vm_compute. reflexivity.
Defined.

End log_facts.

(** ** The orchestrator *)


Section orchestrator_facts.
Import Py tasks processing workflow_manager main spec.





Lemma add_task_log_entry (task_id message : string) (L : ledger) (e : entry) :
  task_status L !! task_id = Some e ->
  task_status (add_task_log task_id message L) !! task_id
  = Some (set_logs (match e_logs e with Some l => l | None => [] end
                    ++ [LogEntry (clock_reads L) message]) e).
Proof.
  intros He. unfold add_task_log. rewrite He. cbn [task_status].
  by rewrite lookup_insert_eq.
Qed.










(** C5, at the failing input.  The OCR stage raises an exception whose
    message is empty (a [ValueError] of a library, which [perform_ocr]
    raises again as it is).  The orchestrator returns, the task ends with
    status [failed], the failure line is in its log and the download
    handler answers 400; but the entry has no error: [update_task_status]
    takes the empty message for no message, writes no [ERROR] line and
    sets no error field. *)
Theorem C5_empty_message_leaves_no_error :
  let E := with_perform_ocr (fun _ => Raise (Exn ValueError "")) env_ok in
  let L := do_calls (task_calls E uploaded "doc.pdf" "t1") empty_ledger in
  snd (process_pdf E "t1" "gs://bucket/t1_doc.pdf") = Ok tt
  /\ status_of "t1" L = Some "failed"
  /\ (e_error <$> get_task_status "t1" L) = Some None
  /\ List.map message (logs_of "t1" L)
     = [ "Task initialized with file: doc.pdf";
         "Status changed to: received";
         "Status changed to: processing";
         "Starting workflow with GCS URI: gs://bucket/t1_doc.pdf";
         "Status changed to: processing_ocr";
         "Starting OCR processing...";
         "Workflow failed: ";
         "Status changed to: failed" ]
  /\ download_result_endpoint (fun _ => true) "t1" L
     = HTTPException 400 "Processing not complete or result file not available.".
Proof.
  vm_compute. auto.
Qed.

(** A file is served only for a task whose status is [completed] and whose
    entry names a result file, under a path that is not empty and at which
    a file exists; it is served under the name built from the entry's file
    name. *)
Theorem download_needs_completed (exists_ : string -> bool) (task_id : string) (L : ledger)
    (path filename : string) :
  download_result_endpoint exists_ task_id L = FileResponse path filename ->
  status_of task_id L = Some "completed"
  /\ (exists e original,
        get_task_status task_id L = Some e
        /\ e_result_file e = Some (Some path)
        /\ e_filename e = Some original
        /\ filename = splitext_root original +:+ "_extracted.xlsx")
  /\ path <> ""
  /\ exists_ path = true.
Proof.
  unfold download_result_endpoint, status_of, get_task_status.
  destruct (task_status L !! task_id) as [e|]; [|discriminate].
  destruct (is_empty e); [discriminate|].
  destruct (e_status e) as [status|]; [|discriminate].
  destruct (e_result_file e) as [[result_file_path|]|] eqn:Hr; try discriminate.
  destruct (String.eqb_spec status "completed") as [->|]; [|discriminate]. cbn [negb orb].
  destruct (String.eqb_spec result_file_path "") as [|Hpath]; [discriminate|].
  destruct (exists_ result_file_path) eqn:Hex; [|discriminate]. cbn [negb].
  destruct (e_filename e) as [original|] eqn:Hf; [|discriminate].
  intros [= <- <-]. split; [done|]. split; [by exists e, original|]. by split.
Qed.

Lemma download_needs_completed_witness :
  let L := do_calls (task_calls env_ok uploaded "doc.pdf" "t1") empty_ledger in
  status_of "t1" L = Some "completed"
  /\ (exists e original,
        get_task_status "t1" L = Some e
        /\ e_result_file e = Some (Some "/tmp/pdf2any_results/t1_report.xlsx")
        /\ e_filename e = Some original
        /\ "doc_extracted.xlsx" = splitext_root original +:+ "_extracted.xlsx")
  /\ "/tmp/pdf2any_results/t1_report.xlsx" <> ""
  /\ (fun _ : string => true) "/tmp/pdf2any_results/t1_report.xlsx" = true.
Proof.
  apply (download_needs_completed (fun _ => true) "t1"
           (do_calls (task_calls env_ok uploaded "doc.pdf" "t1") empty_ledger)
           "/tmp/pdf2any_results/t1_report.xlsx" "doc_extracted.xlsx").
  vm_compute. reflexivity.
Defined.

End orchestrator_facts.

(** ** Uploads that run side by side *)

Section interleaving.
Import Py tasks processing workflow_manager main spec.

Lemma assigns_other (task_id : string) (c : call) :
  String.eqb (call_id c) task_id = false -> assigns task_id c = None.
Proof. destruct c; cbn; intros H; by rewrite ?H. Qed.

Lemma status_trace_stutter (task_id : string) (prev : option string) (cs : list call) :
  stutter prev (status_trace task_id prev (own task_id cs)) (status_trace task_id prev cs).
Proof.
  revert prev. induction cs as [|c cs IH]; intros prev; cbn [own List.filter status_trace].
  - constructor.
  - destruct (String.eqb (call_id c) task_id) eqn:Hc.
    + cbn [status_trace]. apply stutter_next, IH.
    + rewrite (assigns_other task_id c Hc). apply stutter_stay, IH.
Qed.

Lemma stutter_Forall {A : Type} (P : A -> Prop) (x : A) (small big : list A) :
  stutter x small big -> P x -> Forall P small -> Forall P big.
Proof.
  induction 1 as [x|x small big _ IH|x y small big _ IH]; intros Hx Hs.
  - constructor.
  - constructor; [done|by apply IH].
  - apply Forall_cons_1 in Hs as [Hy Hs]. constructor; [done|by apply IH].
Qed.

Lemma stutter_StronglySorted {A : Type} (R : A -> A -> Prop) (x : A) (small big : list A) :
  stutter x small big ->
  Forall (fun a => R a a) (x :: small) ->
  StronglySorted R (x :: small) -> StronglySorted R (x :: big).
Proof.
  induction 1 as [x|x small big Hst IH|x y small big Hst IH]; intros Hrefl Hsorted.
  - done.
  - specialize (IH Hrefl Hsorted). apply StronglySorted_inv in IH as [Hbig Hx].
    apply Forall_cons_1 in Hrefl as [Hxx _].
    constructor; [by constructor|]. by apply List.Forall_cons.
  - apply StronglySorted_inv in Hsorted as [Hsmall Hx].
    apply Forall_cons_1 in Hrefl as [_ Hrefl].
    specialize (IH Hrefl Hsmall).
    assert (Hx' : Forall (R x) (y :: small)).
    { apply List.Forall_forall. by rewrite List.Forall_forall in Hx. }
    apply Forall_cons_1 in Hx' as [Hy Hs].
    constructor; [done|].
    apply List.Forall_cons; [done|].
    assert (Hall : Forall (R x) big) by (by apply (stutter_Forall (R x) y small big)).
    apply List.Forall_forall. intros b Hb.
    rewrite Forall_forall in Hall. apply Hall. by apply list_elem_of_In.
Qed.


Lemma stutter_head {A : Type} (x : A) (small big : list A) :
  stutter x small big ->
  exists k, (small = [] /\ big = replicate k x)
            \/ (exists y small' big', small = y :: small'
                                      /\ big = replicate k x ++ y :: big'
                                      /\ stutter y small' big').
Proof.
  induction 1 as [x|x small big _ [k IH]|x y small big Hst _].
  - exists 0. by left.
  - exists (S k). destruct IH as [[-> ->]|(y & small' & big' & -> & -> & Hst)].
    + by left.
    + right. by exists y, small', big'.
  - exists 0. right. by exists y, small, big.
Qed.

Lemma later_refl (s : option string) : s ∈ Some <$> status_order -> later s s.
Proof.
  unfold status_order. cbn. rewrite !elem_of_cons.
  intros H. repeat (destruct H as [->|H]; [reflexivity|]). by apply elem_of_nil in H.
Qed.

Lemma filter_is_Some_all (h : list (option string)) :
  Forall (fun s => s ∈ Some <$> status_order) h ->
  filter (fun s : option string => is_Some s) h = h.
Proof.
  induction 1 as [|s h Hs _ IH]; [reflexivity|].
  rewrite filter_cons_True, IH; [done|].
  apply list_elem_of_fmap in Hs as (name & -> & _). eauto.
Qed.

Lemma filter_is_Some_replicate (k : nat) (h : list (option string)) :
  filter (fun s : option string => is_Some s) (replicate k None ++ h)
  = filter (fun s : option string => is_Some s) h.
Proof.
  induction k as [|k IH]; [reflexivity|].
  cbn [replicate app]. rewrite filter_cons_False; [done|]. by intros [? ?].
Qed.

(** The status of a task when the calls made for other tasks come in
    between those of its own upload: for a task id that is new to the
    ledger, the statuses the task has once it exists are statuses of
    [status_order], they never move backward, and nothing but [failed]
    follows [failed]. *)
Theorem interleaved_status_history (E : env) (upload_file_to_gcs : string -> result string)
    (filename task_id : string) (L : ledger) (cs : list call) :
  get_task_status task_id L = None ->
  own task_id cs = task_calls E upload_file_to_gcs filename task_id ->
  Forall (fun s => s ∈ Some <$> status_order) (held (status_history task_id cs L))
  /\ StronglySorted later (held (status_history task_id cs L)).
Proof.
  intros Hnew Hown. unfold held.
  assert (Hprev : status_of task_id L = None).
  { unfold status_of. unfold get_task_status in Hnew. by rewrite Hnew. }
  pose proof (task_calls_history E upload_file_to_gcs filename task_id L) as Hin.
  pose proof task_histories_ordered as Hall.
  rewrite List.Forall_forall in Hall.
  apply list_elem_of_In in Hin. apply Hall in Hin as (Hvals & Hsorted & _).
  rewrite status_history_trace, Hprev in Hvals, Hsorted |- *.
  pose proof (status_trace_stutter task_id None cs) as Hst.
  rewrite Hown in Hst.
  destruct (stutter_head _ _ _ Hst) as [k [[_ ->]|(y & small' & big' & Hsmall & -> & Hst')]].
  - replace (replicate k None) with (replicate k (@None string) ++ []) by apply app_nil_r.
    rewrite filter_is_Some_replicate. split; constructor.
  - rewrite Hsmall in Hvals, Hsorted.
    assert (Hbig : Forall (fun s => s ∈ Some <$> status_order) (y :: big')).
    { apply Forall_cons_1 in Hvals as [Hy Hs]. apply Forall_cons_2; [done|].
      by apply (stutter_Forall _ y small' big'). }
    rewrite filter_is_Some_replicate, filter_is_Some_all by done.
    split; [done|].
    apply (stutter_StronglySorted later y small' big'); [done| |done].
    eapply Forall_impl; [exact Hvals|]. intros s Hs. by apply later_refl.
Qed.

Lemma interleaved_status_history_witness :
  Forall (fun s => s ∈ Some <$> status_order)
         (held (status_history "t1" ([ InitTask "t2" "other.pdf" ]
                                     ++ task_calls env_ok uploaded "doc.pdf" "t1"
                                     ++ [ AddTaskLog "t2" "Starting OCR processing..." ])
                               empty_ledger))
  /\ StronglySorted later
       (held (status_history "t1" ([ InitTask "t2" "other.pdf" ]
                                   ++ task_calls env_ok uploaded "doc.pdf" "t1"
                                   ++ [ AddTaskLog "t2" "Starting OCR processing..." ])
                             empty_ledger)).
Proof.
  apply (interleaved_status_history env_ok uploaded "doc.pdf" "t1" empty_ledger
           ([ InitTask "t2" "other.pdf" ]
            ++ task_calls env_ok uploaded "doc.pdf" "t1"
            ++ [ AddTaskLog "t2" "Starting OCR processing..." ])).
  - reflexivity.
  - vm_compute. reflexivity.
Defined.

End interleaving.

(** ** Texts *)

Section strip_facts.
Import Py processing spec.

Lemma lstrip_head (s : string) :
  lstrip s = "" \/ exists c s', lstrip s = String c s' /\ isspace c = false.
Proof.
  induction s as [|c s IH]; cbn [lstrip]; [by left|].
  destruct (isspace c) eqn:Hc; [exact IH|]. right. by exists c, s.
Qed.

Lemma lstrip_nonspace (c : ascii) (s : string) :
  isspace c = false -> lstrip (String c s) = String c s.
Proof. intros Hc. cbn [lstrip]. by rewrite Hc. Qed.

Lemma rstrip_cons (c : ascii) (s : string) :
  rstrip s <> "" -> rstrip (String c s) = String c (rstrip s).
Proof. intros Hne. cbn [rstrip]. by destruct (rstrip s). Qed.

Lemma rstrip_idem (s : string) : rstrip (rstrip s) = rstrip s.
Proof.
  induction s as [|c s IH]; [done|]. cbn [rstrip].
  destruct (rstrip s) as [|d r] eqn:Hr.
  - destruct (isspace c) eqn:Hc; [done|]. cbn [rstrip]. by rewrite Hc.
  - rewrite rstrip_cons; rewrite IH; done.
Qed.

Lemma rstrip_head (c : ascii) (s : string) :
  isspace c = false -> exists t, rstrip (String c s) = String c t.
Proof.
  intros Hc. cbn [rstrip]. destruct (rstrip s); [|by eexists].
  rewrite Hc. by eexists.
Qed.

Lemma strip_idem (s : string) : strip (strip s) = strip s.
Proof.
  unfold strip. destruct (lstrip_head s) as [->|(c & s' & -> & Hc)]; [done|].
  destruct (rstrip_head c s' Hc) as [t Ht]. rewrite Ht at 1.
  rewrite (lstrip_nonspace _ _ Hc), <- Ht. apply rstrip_idem.
Qed.

End strip_facts.

Section string_facts.
Import Py processing markdown spec.

Lemma append_cons (x : ascii) (a b : string) : String x a +:+ b = String x (a +:+ b).
Proof. reflexivity. Qed.

Lemma append_assoc (a b c : string) : (a +:+ b) +:+ c = a +:+ (b +:+ c).
Proof. induction a as [|x a IH]; [done|]. by rewrite !append_cons, IH. Qed.

Lemma append_nil_r (a : string) : a +:+ "" = a.
Proof. induction a as [|x a IH]; [done|]. by rewrite append_cons, IH. Qed.

Lemma contains_char_append (c : ascii) (a b : string) :
  contains_char c (a +:+ b) = (contains_char c a || contains_char c b)%bool.
Proof.
  induction a as [|x a IH]; simpl; [done|]. by destruct (Ascii.eqb c x).
Qed.

Lemma split_all_app (c : ascii) (a b : string) :
  contains_char c a = false ->
  split_all c (a +:+ String c b) = a :: split_all c b.
Proof.
  induction a as [|x a IH]; simpl; intros H.
  - by rewrite Ascii.eqb_refl.
  - destruct (Ascii.eqb c x); [discriminate|]. by rewrite (IH H).
Qed.

Lemma split_all_none (c : ascii) (a : string) :
  contains_char c a = false -> split_all c a = [a].
Proof.
  induction a as [|x a IH]; simpl; intros H; [done|].
  destruct (Ascii.eqb c x); [discriminate|]. by rewrite (IH H).
Qed.

Lemma split_all_join (c : ascii) (lines : list string) :
  lines <> [] -> Forall (fun line => contains_char c line = false) lines ->
  split_all c (join (String c "") lines) = lines.
Proof.
  intros Hne Hall. induction Hall as [|line lines Hline Hall IH]; [done|].
  destruct lines as [|line' lines].
  - cbn [join]. by apply split_all_none.
  - change (join (String c "") (line :: line' :: lines))
      with (line +:+ String c "" +:+ join (String c "") (line' :: lines)).
    change (String c "" +:+ join (String c "") (line' :: lines))
      with (String c (join (String c "") (line' :: lines))).
    rewrite split_all_app by done. by rewrite IH.
Qed.

Lemma rstrip_app (s t : string) : rstrip t <> "" -> rstrip (s +:+ t) = s +:+ rstrip t.
Proof.
  intros Hne. induction s as [|c s IH]; [done|].
  rewrite !append_cons. cbn [rstrip]. rewrite IH. destruct (s +:+ rstrip t) eqn:Hs; [|done].
  destruct s; [by change (rstrip t = "") in Hs|discriminate].
Qed.

Lemma rstrip_space (s : string) : rstrip (s +:+ " ") = rstrip s.
Proof.
  induction s as [|c s IH]; [done|]. rewrite append_cons. cbn [rstrip]. by rewrite IH.
Qed.


Lemma ends_ok_app (s t : string) : ends_ok t -> ends_ok (s +:+ t).
Proof.
  intros [Hr Hne]. split.
  - rewrite rstrip_app; rewrite Hr; done.
  - destruct s; simpl; [done|discriminate].
Qed.

Lemma lstrip_length (s : string) : String.length (lstrip s) <= String.length s.
Proof.
  induction s as [|c s IH]; simpl; [lia|]. destruct (isspace c); simpl; lia.
Qed.

Lemma rstrip_length (s : string) : String.length (rstrip s) <= String.length s.
Proof.
  induction s as [|c s IH]; simpl; [lia|].
  destruct (rstrip s); [destruct (isspace c)|]; simpl in *; lia.
Qed.

Lemma strip_fixed (s : string) :
  strip s = s ->
  rstrip s = s /\ (s = "" \/ exists c s', s = String c s' /\ isspace c = false).
Proof.
  unfold strip. intros H.
  assert (Hlen : String.length (lstrip s) = String.length s).
  { pose proof (lstrip_length s). pose proof (rstrip_length (lstrip s)).
    rewrite H in *. lia. }
  assert (Hl : lstrip s = s).
  { destruct s as [|c s]; [done|]. simpl in Hlen |- *.
    destruct (isspace c); [|done]. pose proof (lstrip_length s). lia. }
  rewrite Hl in H. split; [done|].
  destruct (lstrip_head s) as [He|(c & s' & He & Hc)]; rewrite Hl in He; eauto.
Qed.

Lemma strip_pad (cell : string) : strip cell = cell -> strip (" " +:+ cell +:+ " ") = cell.
Proof.
  intros H. apply strip_fixed in H as [Hr [->|(c & s' & -> & Hc)]]; [done|].
  unfold strip. simpl. rewrite Hc.
  change (String c (s' +:+ " ")) with (String c s' +:+ " ").
  by rewrite rstrip_space.
Qed.

End string_facts.


(** ** One task's entry *)

Section entry_facts.
Import Py tasks processing workflow_manager main spec.

Lemma untimed_logged (now : nat) (m : string) (e : entry) :
  untimed (set_logs (match e_logs e with Some l => l | None => [] end ++ [LogEntry now m]) e)
  = logged m (untimed e).
Proof.
  destruct e as [s f r g er [l|]]; unfold untimed, logged, set_logs; cbn.
  - by rewrite List.map_app.
  - reflexivity.
Qed.

Lemma untimed_set (e : entry) :
  (forall s, untimed (set_status s e) = set_status s (untimed e))
  /\ (forall s, untimed (set_filename s e) = set_filename s (untimed e))
  /\ (forall s, untimed (set_result_file s e) = set_result_file s (untimed e))
  /\ (forall s, untimed (set_gcs_uri s e) = set_gcs_uri s (untimed e))
  /\ (forall s, untimed (set_error s e) = set_error s (untimed e))
  /\ untimed (del_error e) = del_error (untimed e)
  /\ e_error (untimed e) = e_error e.
Proof. by destruct e as [s f r g er [l|]]. Qed.

Lemma add_task_log_untimed (task_id message : string) (L : ledger) :
  untimed <$> task_status (add_task_log task_id message L) !! task_id
  = logged message <$> (untimed <$> task_status L !! task_id).
Proof.
  destruct (task_status L !! task_id) as [e|] eqn:He.
  - rewrite (add_task_log_entry _ _ _ _ He).
    change (Some (untimed (set_logs (match e_logs e with Some l => l | None => [] end
                                     ++ [LogEntry (clock_reads L) message]) e))
            = Some (logged message (untimed e))).
    by rewrite untimed_logged.
  - unfold add_task_log. by rewrite He, He.
Qed.

Lemma add_task_log_inserted (task_id message : string) (m : gmap string entry) (now : nat)
    (e : entry) :
  untimed <$> task_status (add_task_log task_id message (Ledger (<[task_id := e]> m) now))
              !! task_id
  = Some (logged message (untimed e)).
Proof.
  rewrite add_task_log_untimed. cbn [task_status]. by rewrite lookup_insert_eq.
Qed.

Lemma entry_after_do_call (task_id : string) (c : call) (L : ledger) :
  untimed <$> task_status (do_call c L) !! task_id
  = entry_after task_id c (untimed <$> task_status L !! task_id).
Proof.
  unfold entry_after.
  destruct (String.eqb (call_id c) task_id) eqn:Hid; cbn [negb].
  - apply String.eqb_eq in Hid.
    destruct c as [id filename|id status filename result_file error gcs_uri|id m];
      cbn in Hid; subst id; cbn [do_call].
    + unfold init_task. by rewrite add_task_log_inserted.
    + unfold update_task_status.
      set (e0 := match task_status L !! task_id with Some e => e | None => empty_entry end).
      assert (He0 : untimed e0
                    = match untimed <$> task_status L !! task_id with
                      | Some e => e | None => empty_entry end).
      { subst e0. by destruct (task_status L !! task_id). }
      rewrite <- He0. clear He0. generalize e0. clear e0. intros e0.
      set (e1 := set_status status e0).
      assert (He1 : untimed e1 = set_status status (untimed e0))
        by apply (untimed_set e0).
      rewrite <- He1. clearbody e1. clear He1 e0.
      set (e2 := match given filename with Some f => set_filename f e1 | None => e1 end).
      assert (He2 : untimed e2
                    = match given filename with
                      | Some f => set_filename f (untimed e1) | None => untimed e1 end).
      { subst e2. destruct (given filename); [apply (untimed_set e1)|done]. }
      rewrite <- He2. clearbody e2. clear He2 e1.
      set (e3 := match given result_file with Some f => set_result_file f e2 | None => e2 end).
      assert (He3 : untimed e3
                    = match given result_file with
                      | Some f => set_result_file f (untimed e2) | None => untimed e2 end).
      { subst e3. destruct (given result_file); [apply (untimed_set e2)|done]. }
      rewrite <- He3. clearbody e3. clear He3 e2.
      set (e4 := match given gcs_uri with Some u => set_gcs_uri u e3 | None => e3 end).
      assert (He4 : untimed e4
                    = match given gcs_uri with
                      | Some u => set_gcs_uri u (untimed e3) | None => untimed e3 end).
      { subst e4. destruct (given gcs_uri); [apply (untimed_set e3)|done]. }
      rewrite <- He4. clearbody e4. clear He4 e3.
      destruct (untimed_set e4) as (_ & _ & _ & _ & Herr & Hdel & Hget).
      destruct (given error) as [msg|].
      * rewrite add_task_log_untimed, add_task_log_inserted. cbn. by rewrite Herr.
      * rewrite add_task_log_inserted. rewrite Hget.
        destruct (negb (String.eqb status "failed") && bool_decide (is_Some (e_error e4)))%bool;
          by rewrite ?Hdel.
    + apply add_task_log_untimed.
  - apply String.eqb_neq in Hid. by rewrite do_call_other.
Qed.

Lemma entries_after_do_calls (task_id : string) (cs : list call) (L : ledger) :
  untimed <$> task_status (do_calls cs L) !! task_id
  = entries_after task_id cs (untimed <$> task_status L !! task_id).
Proof.
  unfold do_calls, entries_after. revert L.
  induction cs as [|c cs IH]; intros L; cbn [fold_left]; [done|].
  by rewrite IH, entry_after_do_call.
Qed.

Lemma entries_after_own (task_id : string) (cs : list call) (v : option entry) :
  entries_after task_id (own task_id cs) v = entries_after task_id cs v.
Proof.
  unfold entries_after, own. revert v.
  induction cs as [|c cs IH]; intros v; cbn [List.filter fold_left]; [done|].
  destruct (String.eqb (call_id c) task_id) eqn:Hid; cbn [fold_left].
  - apply IH.
  - replace (entry_after task_id c v) with v by (unfold entry_after; by rewrite Hid).
    apply IH.
Qed.

Lemma entries_after_cons (task_id : string) (c : call) (cs : list call) (v : option entry) :
  entries_after task_id (c :: cs) v = entries_after task_id cs (entry_after task_id c v).
Proof. reflexivity. Qed.

Lemma entry_after_init (task_id filename : string) (v : option entry) :
  entry_after task_id (InitTask task_id filename) v
  = Some (Entry (Some "received") (Some filename) (Some None) None None
            (Some [LogEntry 0 ("Task initialized with file: " +:+ filename)])).
Proof. unfold entry_after. cbn [call_id]. by rewrite String.eqb_refl. Qed.

Lemma entry_after_log (task_id message : string) (v : option entry) :
  entry_after task_id (AddTaskLog task_id message) v = logged message <$> v.
Proof. unfold entry_after. cbn [call_id]. by rewrite String.eqb_refl. Qed.

(** [update_task_status] without an error text, on an entry without the
    ['error'] key. *)
Lemma entry_after_update (task_id status : string) (result_file gcs_uri : option string)
    (e : entry) :
  e_error e = None ->
  entry_after task_id (UpdateTaskStatus task_id status None result_file None gcs_uri) (Some e)
  = Some (logged ("Status changed to: " +:+ status)
            (match given gcs_uri with
             | Some u => set_gcs_uri u
             | None => fun e => e
             end (match given result_file with
                  | Some f => set_result_file f
                  | None => fun e => e
                  end (set_status status e)))).
Proof.
  intros Herr. unfold entry_after. cbn [call_id]. rewrite String.eqb_refl. cbn [negb given].
  destruct e as [s f r g er l]. cbn in Herr. subst er.
  destruct (given result_file), (given gcs_uri); cbn; by rewrite andb_false_r.
Qed.

(** [update_task_status] with an error text. *)
Lemma entry_after_error (task_id status msg : string) (v : option entry) :
  msg <> "" ->
  entry_after task_id (UpdateTaskStatus task_id status None None (Some msg) None) v
  = Some (logged ("Status changed to: " +:+ status)
            (logged ("ERROR: " +:+ msg)
               (set_error msg
                  (set_status status (match v with Some e => e | None => empty_entry end))))).
Proof.
  intros Hmsg. unfold entry_after. cbn [call_id]. rewrite String.eqb_refl. cbn [negb given].
  apply String.eqb_neq in Hmsg. by rewrite Hmsg.
Qed.

(** A task's entry, clock readings apart, is what the calls made for the
    task make of it: calls made for other tasks in between change nothing
    but the readings. *)
Theorem entry_depends_on_own_calls (task_id : string) (cs : list call) (L : ledger) :
  untimed <$> get_task_status task_id (do_calls cs L)
  = untimed <$> get_task_status task_id (do_calls (own task_id cs) L).
Proof.
  unfold get_task_status. by rewrite !entries_after_do_calls, entries_after_own.
Qed.

End entry_facts.


(** ** Uploads *)

Section upload_facts.
Import Py tasks processing workflow_manager main spec gcs_utils.

Lemma upload_file_to_gcs_message (S : storage) (filename blob : string) (e : exn) :
  close S = None ->
  upload_file_to_gcs S filename blob = Raise e ->
  exn_class_of e ∈ [ValueError; Exception] /\ exn_str e <> "".
Proof.
  unfold upload_file_to_gcs. intros ->.
  destruct (storage_client S); cbn [negb].
  - destruct (upload_from_file S (gcs_bucket_name S) blob) as [[| |]|];
      intros [= <-]; cbn; (split; [set_solver|discriminate]).
  - intros [= <-]; cbn. split; [set_solver|discriminate].
Qed.

Lemma upload_file_to_gcs_uri (S : storage) (filename blob gcs_uri : string) :
  upload_file_to_gcs S filename blob = Ok gcs_uri ->
  gcs_uri = "gs://" +:+ gcs_bucket_name S +:+ "/" +:+ blob.
Proof.
  unfold upload_file_to_gcs.
  destruct (storage_client S); cbn [negb]; [|discriminate].
  destruct (close S); [discriminate|].
  destruct (upload_from_file S (gcs_bucket_name S) blob) as [[| |]|]; try discriminate.
  by intros [= <-].
Qed.

(** A failed upload: whatever goes wrong in the storage helper, short of
    [file.close()] raising, the handler answers 500 with the helper's
    message, starts no workflow, and leaves the task failed with the message
    as its error and in its log. *)
Theorem upload_failure_is_recorded (S : storage) (filename task_id : string) (e : exn)
    (L : ledger) :
  endswith (lower filename) ".pdf" = true ->
  close S = None ->
  upload_file_to_gcs S filename (task_id +:+ "_" +:+ filename) = Raise e ->
  exn_str e <> ""
  /\ up_response (upload_pdf_for_processing (upload_file_to_gcs S filename) filename task_id)
     = HTTPException 500 ("Failed to process file: " +:+ exn_str e)
  /\ up_task (upload_pdf_for_processing (upload_file_to_gcs S filename) filename task_id) = None
  /\ untimed <$> get_task_status task_id
                   (do_calls (up_calls (upload_pdf_for_processing (upload_file_to_gcs S filename)
                                          filename task_id)) L)
     = Some (Entry (Some "failed") (Some filename) (Some None) None (Some (exn_str e))
               (Some [ LogEntry 0 ("Task initialized with file: " +:+ filename);
                       LogEntry 0 ("ERROR: " +:+ exn_str e);
                       LogEntry 0 "Status changed to: failed" ])).
Proof.
  intros Hpdf Hclose Hup.
  destruct (upload_file_to_gcs_message S filename _ e Hclose Hup) as [_ Hmsg].
  split; [exact Hmsg|].
  unfold upload_pdf_for_processing. rewrite Hpdf, Hup. cbn [negb up_response up_task up_calls].
  repeat split.
  unfold get_task_status. rewrite entries_after_do_calls.
  unfold entries_after. cbn [fold_left]. unfold entry_after. cbn [call_id].
  rewrite !String.eqb_refl. cbn [negb given].
  apply String.eqb_neq in Hmsg. rewrite Hmsg. reflexivity.
Qed.

Lemma upload_failure_is_recorded_witness :
  exn_str (Exn ValueError
             "Google Cloud Storage client not initialized. Check credentials and configuration.")
  <> ""
  /\ up_response (upload_pdf_for_processing (upload_file_to_gcs storage_down "doc.pdf")
                    "doc.pdf" "t1")
     = HTTPException 500
         ("Failed to process file: "
          +:+ "Google Cloud Storage client not initialized. Check credentials and configuration.")
  /\ up_task (upload_pdf_for_processing (upload_file_to_gcs storage_down "doc.pdf")
                "doc.pdf" "t1") = None
  /\ untimed <$> get_task_status "t1"
                   (do_calls (up_calls (upload_pdf_for_processing
                                          (upload_file_to_gcs storage_down "doc.pdf")
                                          "doc.pdf" "t1")) empty_ledger)
     = Some (Entry (Some "failed") (Some "doc.pdf") (Some None) None
               (Some "Google Cloud Storage client not initialized. Check credentials and configuration.")
               (Some [ LogEntry 0 "Task initialized with file: doc.pdf";
                       LogEntry 0 ("ERROR: " +:+ "Google Cloud Storage client not initialized. Check credentials and configuration.");
                       LogEntry 0 "Status changed to: failed" ])).
Proof.
  apply (upload_failure_is_recorded storage_down "doc.pdf" "t1"
           (Exn ValueError
              "Google Cloud Storage client not initialized. Check credentials and configuration.")
           empty_ledger); reflexivity.
Defined.

End upload_facts.

Section upload_run.
Import Py tasks processing workflow_manager main spec gcs_utils.

Lemma path_join_nonempty (a b : string) : a <> "" -> path_join a b <> "".
Proof.
  intros Ha. unfold path_join.
  destruct a as [|c0 a]; [done|].
  destruct b as [|c b].
  - destruct (_ || _)%bool; discriminate.
  - destruct c as [[] [] [] [] [] [] [] []]; try discriminate;
      destruct (_ || _)%bool; discriminate.
Qed.

Lemma generate_excel_path (E : env) (data : pyval) (task_id path : string) :
  generate_excel E data task_id = Ok path ->
  path = path_join output_dir (task_id +:+ "_report.xlsx") /\ path <> "".
Proof.
  unfold generate_excel.
  destruct (is_dict data); cbn [negb]; [|discriminate].
  destruct (makedirs E output_dir); [discriminate|].
  destruct (_write_excel_sheets E data _); [|discriminate].
  intros [= <-]. split; [done|]. by apply path_join_nonempty.
Qed.

Lemma process_pdf_completed (E : env) (task_id gcs_uri ocr_text path : string) (data : pyval) :
  perform_ocr E gcs_uri = Ok ocr_text ->
  extract_with_gemini E gcs_uri = Ok data ->
  generate_excel E data task_id = Ok path ->
  exists m1 m2,
    stage_message data "Gemini extraction completed. Found "
      "Gemini extraction completed but no structured data was returned." = Ok m1
    /\ stage_message data "Gemini reconciliation completed. Final data has "
         "Gemini reconciliation completed but no structured data was returned." = Ok m2
    /\ process_pdf E task_id gcs_uri
       = ([ AddTaskLog task_id ("Starting workflow with GCS URI: " +:+ gcs_uri);
            UpdateTaskStatus task_id "processing_ocr" None None None None;
            AddTaskLog task_id "Starting OCR processing...";
            AddTaskLog task_id ("OCR completed successfully. Extracted "
                                +:+ str_of_nat (String.length ocr_text) +:+ " characters.");
            UpdateTaskStatus task_id "processing_gemini_extract" None None None None;
            AddTaskLog task_id "Starting Gemini extraction...";
            AddTaskLog task_id m1;
            UpdateTaskStatus task_id "processing_reconciliation" None None None None;
            AddTaskLog task_id "Starting Gemini reconciliation...";
            AddTaskLog task_id m2;
            UpdateTaskStatus task_id "generating_report" None None None None;
            AddTaskLog task_id "Generating Excel report...";
            AddTaskLog task_id ("Excel report generated at: " +:+ path);
            UpdateTaskStatus task_id "completed" None (Some path) None None;
            AddTaskLog task_id "Workflow completed successfully!" ], Ok tt).
Proof.
  intros Hocr Hex Hgen.
  pose proof (extract_with_gemini_ok _ _ _ Hex) as (Hg & Ht & Hd).
  destruct data as [| | | | | |d]; try discriminate.
  destruct (stage_message_dict d "Gemini extraction completed. Found "
              "Gemini extraction completed but no structured data was returned.") as [m1 Hm1].
  destruct (stage_message_dict d "Gemini reconciliation completed. Final data has "
              "Gemini reconciliation completed but no structured data was returned.") as [m2 Hm2].
  exists m1, m2. split; [done|]. split; [done|].
  unfold process_pdf, stages. rewrite Hocr, Hex.
  cbn [bind emit await try_except fst snd app]. rewrite Hm1.
  cbn [bind emit await try_except fst snd app].
  unfold reconcile_with_gemini. rewrite Hg, Ht.
  cbn [negb bind emit await try_except fst snd app]. rewrite Hm2.
  cbn [bind emit await try_except fst snd app]. rewrite Hgen.
  reflexivity.
Qed.

Lemma download_serves (exists_ : string -> bool) (task_id path filename : string)
    (L : ledger) (v : entry) :
  untimed <$> get_task_status task_id L = Some v ->
  e_status v = Some "completed" -> e_result_file v = Some (Some path) ->
  e_filename v = Some filename -> path <> "" -> exists_ path = true ->
  download_result_endpoint exists_ task_id L
  = FileResponse path (splitext_root filename +:+ "_extracted.xlsx").
Proof.
  intros Hv Hs Hr Hf Hne Hex. unfold download_result_endpoint.
  destruct (get_task_status task_id L) as [e|]; [|discriminate].
  injection Hv as <-.
  destruct e as [s f r g er [l|]]; cbn in Hs, Hr, Hf; subst; cbn;
    apply String.eqb_neq in Hne; by rewrite Hne, Hex.
Qed.

(** An upload that goes through: the file is accepted and stored, every
    stage returns, and the report exists.  The handler answers with the
    task id and starts the workflow; the workflow returns; the task ends
    completed, with the report's path, the URI of the stored file and no
    error, and with the log below; a download request is served the report
    under the name of the upload with its extension replaced. *)
Theorem upload_to_download (E : env) (S : storage) (exists_ : string -> bool)
    (filename task_id gcs_uri ocr_text path : string) (data : pyval) (L : ledger) :
  endswith (lower filename) ".pdf" = true ->
  upload_file_to_gcs S filename (task_id +:+ "_" +:+ filename) = Ok gcs_uri ->
  perform_ocr E gcs_uri = Ok ocr_text ->
  extract_with_gemini E gcs_uri = Ok data ->
  generate_excel E data task_id = Ok path ->
  exists_ path = true ->
  exists m1 m2,
    stage_message data "Gemini extraction completed. Found "
      "Gemini extraction completed but no structured data was returned." = Ok m1
    /\ stage_message data "Gemini reconciliation completed. Final data has "
         "Gemini reconciliation completed but no structured data was returned." = Ok m2
    /\ upload_pdf_for_processing (upload_file_to_gcs S filename) filename task_id
       = Upload [ InitTask task_id filename;
                  UpdateTaskStatus task_id "received" None None None (Some gcs_uri);
                  UpdateTaskStatus task_id "processing" None None None None ]
                (JSONResponse "File received and processing started." task_id)
                (Some (task_id, gcs_uri))
    /\ snd (process_pdf E task_id gcs_uri) = Ok tt
    /\ untimed <$> get_task_status task_id
                     (do_calls (task_calls E (upload_file_to_gcs S filename) filename task_id) L)
       = Some (Entry (Some "completed") (Some filename) (Some (Some path)) (Some gcs_uri) None
                 (Some (List.map (LogEntry 0)
                    [ "Task initialized with file: " +:+ filename;
                      "Status changed to: received";
                      "Status changed to: processing";
                      "Starting workflow with GCS URI: " +:+ gcs_uri;
                      "Status changed to: processing_ocr";
                      "Starting OCR processing...";
                      "OCR completed successfully. Extracted "
                        +:+ str_of_nat (String.length ocr_text) +:+ " characters.";
                      "Status changed to: processing_gemini_extract";
                      "Starting Gemini extraction...";
                      m1;
                      "Status changed to: processing_reconciliation";
                      "Starting Gemini reconciliation...";
                      m2;
                      "Status changed to: generating_report";
                      "Generating Excel report...";
                      "Excel report generated at: " +:+ path;
                      "Status changed to: completed";
                      "Workflow completed successfully!" ])))
    /\ download_result_endpoint exists_ task_id
         (do_calls (task_calls E (upload_file_to_gcs S filename) filename task_id) L)
       = FileResponse path (splitext_root filename +:+ "_extracted.xlsx").
Proof.
  intros Hpdf Hup Hocr Hex Hgen Hexists.
  destruct (process_pdf_completed E task_id gcs_uri ocr_text path data Hocr Hex Hgen)
    as (m1 & m2 & Hm1 & Hm2 & Hrun).
  destruct (generate_excel_path _ _ _ _ Hgen) as [_ Hpath].
  pose proof (upload_file_to_gcs_uri _ _ _ _ Hup) as Huri.
  assert (Huri_ne : String.eqb gcs_uri "" = false) by (by rewrite Huri).
  exists m1, m2. split; [done|]. split; [done|].
  assert (Hu : upload_pdf_for_processing (upload_file_to_gcs S filename) filename task_id
               = Upload [ InitTask task_id filename;
                          UpdateTaskStatus task_id "received" None None None (Some gcs_uri);
                          UpdateTaskStatus task_id "processing" None None None None ]
                        (JSONResponse "File received and processing started." task_id)
                        (Some (task_id, gcs_uri))).
  { unfold upload_pdf_for_processing. by rewrite Hpdf, Hup. }
  split; [done|]. split; [by rewrite Hrun|].
  assert (Hentry : untimed <$> get_task_status task_id
                     (do_calls (task_calls E (upload_file_to_gcs S filename) filename task_id) L)
                   = Some (Entry (Some "completed") (Some filename) (Some (Some path))
                             (Some gcs_uri) None
                 (Some (List.map (LogEntry 0)
                    [ "Task initialized with file: " +:+ filename;
                      "Status changed to: received";
                      "Status changed to: processing";
                      "Starting workflow with GCS URI: " +:+ gcs_uri;
                      "Status changed to: processing_ocr";
                      "Starting OCR processing...";
                      "OCR completed successfully. Extracted "
                        +:+ str_of_nat (String.length ocr_text) +:+ " characters.";
                      "Status changed to: processing_gemini_extract";
                      "Starting Gemini extraction...";
                      m1;
                      "Status changed to: processing_reconciliation";
                      "Starting Gemini reconciliation...";
                      m2;
                      "Status changed to: generating_report";
                      "Generating Excel report...";
                      "Excel report generated at: " +:+ path;
                      "Status changed to: completed";
                      "Workflow completed successfully!" ])))).
  { unfold get_task_status, task_calls. rewrite Hu. cbn [up_calls up_task]. rewrite Hrun.
    rewrite entries_after_do_calls. cbn [fst app].
    apply String.eqb_neq in Hpath.
    rewrite entries_after_cons, entry_after_init.
    repeat (rewrite entries_after_cons;
            first [ rewrite entry_after_log | erewrite entry_after_update by reflexivity ];
            cbn [given fmap option_fmap option_map logged set_logs set_status set_result_file
                 set_gcs_uri e_status e_filename e_result_file e_gcs_uri e_error e_logs app];
            rewrite ?Hpath, ?Huri_ne).
    reflexivity. }
  split; [exact Hentry|].
  by apply (download_serves exists_ task_id path filename _ _ Hentry).
Qed.

Lemma upload_to_download_witness :
  exists m1 m2,
    stage_message (PDict (init_keys [])) "Gemini extraction completed. Found "
      "Gemini extraction completed but no structured data was returned." = Ok m1
    /\ stage_message (PDict (init_keys [])) "Gemini reconciliation completed. Final data has "
         "Gemini reconciliation completed but no structured data was returned." = Ok m2
    /\ upload_pdf_for_processing (upload_file_to_gcs storage_ok "scan.PDF") "scan.PDF" "t1"
       = Upload [ InitTask "t1" "scan.PDF";
                  UpdateTaskStatus "t1" "received" None None None
                    (Some "gs://bucket/t1_scan.PDF");
                  UpdateTaskStatus "t1" "processing" None None None None ]
                (JSONResponse "File received and processing started." "t1")
                (Some ("t1", "gs://bucket/t1_scan.PDF"))
    /\ snd (process_pdf env_ok "t1" "gs://bucket/t1_scan.PDF") = Ok tt
    /\ untimed <$> get_task_status "t1"
                     (do_calls (task_calls env_ok (upload_file_to_gcs storage_ok "scan.PDF")
                                  "scan.PDF" "t1") empty_ledger)
       = Some (Entry (Some "completed") (Some "scan.PDF")
                 (Some (Some "/tmp/pdf2any_results/t1_report.xlsx"))
                 (Some "gs://bucket/t1_scan.PDF") None
                 (Some (List.map (LogEntry 0)
                    [ "Task initialized with file: " +:+ "scan.PDF";
                      "Status changed to: received";
                      "Status changed to: processing";
                      "Starting workflow with GCS URI: " +:+ "gs://bucket/t1_scan.PDF";
                      "Status changed to: processing_ocr";
                      "Starting OCR processing...";
                      "OCR completed successfully. Extracted "
                        +:+ str_of_nat (String.length "") +:+ " characters.";
                      "Status changed to: processing_gemini_extract";
                      "Starting Gemini extraction...";
                      m1;
                      "Status changed to: processing_reconciliation";
                      "Starting Gemini reconciliation...";
                      m2;
                      "Status changed to: generating_report";
                      "Generating Excel report...";
                      "Excel report generated at: " +:+ "/tmp/pdf2any_results/t1_report.xlsx";
                      "Status changed to: completed";
                      "Workflow completed successfully!" ])))
    /\ download_result_endpoint (fun _ => true) "t1"
         (do_calls (task_calls env_ok (upload_file_to_gcs storage_ok "scan.PDF")
                      "scan.PDF" "t1") empty_ledger)
       = FileResponse "/tmp/pdf2any_results/t1_report.xlsx"
           (splitext_root "scan.PDF" +:+ "_extracted.xlsx").
Proof.
  apply (upload_to_download env_ok storage_ok (fun _ => true) "scan.PDF" "t1"
           "gs://bucket/t1_scan.PDF" "" "/tmp/pdf2any_results/t1_report.xlsx"
           (PDict (init_keys [])) empty_ledger); reflexivity.
Defined.

End upload_run.

Section run_facts.
Import Py tasks processing workflow_manager main spec.

Lemma process_pdf_keeps (E : env) (task_id gcs_uri : string) :
  Forall (fun c => call_id c = task_id /\ keeps task_id c) (fst (process_pdf E task_id gcs_uri)).
Proof.
  unfold process_pdf, stages, on_exception.
  destruct (processing.perform_ocr E gcs_uri) as [ocr_text|e1];
    cbn [bind emit await try_except fst snd app].
  2:{ repeat (constructor; [by split|]). constructor. }
  destruct (extract_with_gemini E gcs_uri) as [data|e2] eqn:Hex;
    cbn [bind emit await try_except fst snd app].
  2:{ repeat (constructor; [by split|]). constructor. }
  apply extract_with_gemini_ok in Hex as (Hg & Ht & Hd).
  destruct data as [| | | | | |d]; try discriminate.
  destruct (stage_message_dict d "Gemini extraction completed. Found "
              "Gemini extraction completed but no structured data was returned.") as [m1 ->].
  cbn [bind emit await try_except fst snd app].
  unfold reconcile_with_gemini. rewrite Hg, Ht.
  cbn [negb bind emit await try_except fst snd app].
  destruct (stage_message_dict d "Gemini reconciliation completed. Final data has "
              "Gemini reconciliation completed but no structured data was returned.") as [m2 ->].
  cbn [bind emit await try_except fst snd app].
  destruct (generate_excel E (PDict d) task_id) as [path|e4];
    cbn [bind emit await try_except fst snd app];
    repeat (constructor; [by split|]); constructor.
Qed.

Lemma task_calls_keeps (E : env) (up : string -> result string) (filename task_id : string) :
  task_calls E up filename task_id = []
  \/ exists cs, task_calls E up filename task_id = InitTask task_id filename :: cs
                /\ Forall (fun c => call_id c = task_id /\ keeps task_id c) cs.
Proof.
  unfold task_calls, upload_pdf_for_processing.
  destruct (negb (endswith (lower filename) ".pdf")); [by left|]. right.
  destruct (up (task_id +:+ "_" +:+ filename)) as [gcs_uri|e]; cbn [up_calls up_task app].
  - eexists. split; [reflexivity|].
    repeat (constructor; [by split|]). apply process_pdf_keeps.
  - eexists. split; [reflexivity|]. repeat (constructor; [by split|]). constructor.
Qed.

(** The calls of one upload, the handler's and the workflow's: all are made
    for the upload's task, the first initialises it and no later one does;
    so from the first call on the task's log starts with the line of the
    initialisation and only grows. *)
Theorem upload_log_grows (E : env) (up : string -> result string) (filename task_id : string)
    (cs1 cs2 : list call) (L : ledger) :
  task_calls E up filename task_id = cs1 ++ cs2 ->
  cs1 <> [] ->
  Forall (fun c => call_id c = task_id) (cs1 ++ cs2)
  /\ Forall (keeps task_id) cs2
  /\ (exists t rest,
        logs_of task_id (do_calls cs1 L)
        = LogEntry t ("Task initialized with file: " +:+ filename) :: rest)
  /\ logs_of task_id (do_calls cs1 L) `prefix_of` logs_of task_id (do_calls (cs1 ++ cs2) L).
Proof.
  intros Hsplit Hne.
  destruct (task_calls_keeps E up filename task_id) as [Hnil|(cs & Hcs & Hall)].
  { rewrite Hnil in Hsplit. symmetry in Hsplit. by apply app_eq_nil in Hsplit as [-> _]. }
  rewrite Hcs in Hsplit.
  destruct cs1 as [|c cs1]; [done|]. injection Hsplit as <- ->.
  apply Forall_app in Hall as [Hall1 Hall2].
  assert (Hkeep2 : Forall (keeps task_id) cs2).
  { eapply Forall_impl; [exact Hall2|]. by intros c [_ H]. }
  assert (Hkeep1 : Forall (keeps task_id) cs1).
  { eapply Forall_impl; [exact Hall1|]. by intros c [_ H]. }
  split; [|split; [done|split]].
  - constructor; [done|]. apply Forall_app. split.
    + eapply Forall_impl; [exact Hall1|]. by intros c [H _].
    + eapply Forall_impl; [exact Hall2|]. by intros c [H _].
  - pose proof (do_calls_logs_prefix task_id cs1 (init_task task_id filename L) Hkeep1)
      as [rest Hrest].
    rewrite init_task_logs in Hrest.
    exists (clock_reads L), rest. exact Hrest.
  - change (InitTask task_id filename :: cs1) with ([InitTask task_id filename] ++ cs1).
    rewrite <- !app_assoc, !(do_calls_app [InitTask task_id filename]).
    rewrite do_calls_app. by apply do_calls_logs_prefix.
Qed.

Lemma upload_log_grows_witness :
  Forall (fun c => call_id c = "t1")
         ([InitTask "t1" "doc.pdf"] ++ List.tl (task_calls env_ok uploaded "doc.pdf" "t1"))
  /\ Forall (keeps "t1") (List.tl (task_calls env_ok uploaded "doc.pdf" "t1"))
  /\ (exists t rest,
        logs_of "t1" (do_calls [InitTask "t1" "doc.pdf"] empty_ledger)
        = LogEntry t ("Task initialized with file: " +:+ "doc.pdf") :: rest)
  /\ logs_of "t1" (do_calls [InitTask "t1" "doc.pdf"] empty_ledger)
     `prefix_of` logs_of "t1" (do_calls ([InitTask "t1" "doc.pdf"]
                                         ++ List.tl (task_calls env_ok uploaded "doc.pdf" "t1"))
                                        empty_ledger).
Proof.
  apply (upload_log_grows env_ok uploaded "doc.pdf" "t1" [InitTask "t1" "doc.pdf"]
           (List.tl (task_calls env_ok uploaded "doc.pdf" "t1")) empty_ledger).
  - vm_compute. reflexivity.
  - discriminate.
Defined.

End run_facts.


(** ** The handlers that read a task *)

Section endpoint_facts.
Import Py tasks processing workflow_manager main spec.

Lemma entry_after_unnamed (task_id : string) (c : call) :
  assigns task_id c = None -> entry_after task_id c None = None.
Proof.
  unfold entry_after.
  destruct c as [id filename|id status filename result_file error gcs_uri|id m]; cbn;
    destruct (String.eqb id task_id); cbn; congruence.
Qed.

Lemma entries_after_unnamed (task_id : string) (cs : list call) :
  Forall (fun c => assigns task_id c = None) cs -> entries_after task_id cs None = None.
Proof.
  induction 1 as [|c cs Hc _ IH]; [done|].
  by rewrite entries_after_cons, entry_after_unnamed.
Qed.

(** An entry with the keys ['status'] and ['logs']. *)
Lemma entry_after_named (task_id : string) (c : call) (v : option entry) :
  is_Some (assigns task_id c)
  \/ (exists e, v = Some e /\ is_Some (e_status e) /\ is_Some (e_logs e)) ->
  exists e, entry_after task_id c v = Some e /\ is_Some (e_status e) /\ is_Some (e_logs e).
Proof.
  unfold entry_after.
  destruct c as [id filename|id status filename result_file error gcs_uri|id m]; cbn;
    destruct (String.eqb id task_id); cbn [negb].
  - intros _. eexists. split; [reflexivity|]. cbn. split; by eexists.
  - intros [H|H]; [by apply is_Some_None in H|done].
  - intros _. eexists. split; [reflexivity|].
    destruct (given filename), (given result_file), (given gcs_uri), (given error);
      try destruct (_ && _)%bool; cbn; split; by eexists.
  - intros [H|H]; [by apply is_Some_None in H|done].
  - intros [H|(e & -> & Hs & Hl)]; [by apply is_Some_None in H|]. eexists. split; [reflexivity|]. cbn.
    split; [done|by eexists].
  - intros [H|H]; [by apply is_Some_None in H|done].
Qed.

Lemma entries_after_named (task_id : string) (cs : list call) (v : option entry) :
  Exists (fun c => is_Some (assigns task_id c)) cs
  \/ (exists e, v = Some e /\ is_Some (e_status e) /\ is_Some (e_logs e)) ->
  exists e, entries_after task_id cs v = Some e /\ is_Some (e_status e) /\ is_Some (e_logs e).
Proof.
  revert v. induction cs as [|c cs IH]; intros v.
  - intros [H|H]; [by apply Exists_nil in H|]. exact H.
  - intros H. rewrite entries_after_cons. apply IH.
    destruct H as [H|H].
    + apply Exists_cons in H as [H|H]; [|by left].
      right. apply entry_after_named. by left.
    + right. apply entry_after_named. by right.
Qed.

Lemma untimed_Some (x : option entry) (v : entry) :
  untimed <$> x = Some v ->
  exists e, x = Some e /\ e_status e = e_status v /\ is_empty e = is_empty v
            /\ (is_Some (e_logs e) <-> is_Some (e_logs v)).
Proof.
  destruct x as [e|]; [|discriminate]. intros [= <-]. exists e. split; [done|].
  by destruct e as [s f r g er [l|]].
Qed.

(** The two handlers that read a task, on a ledger built from the empty
    one by calls.  A task id that no [init_task] or [update_task_status]
    call has named is answered with status 404.  Any other id is answered
    with its entry: the entry has its status and its log, so it is never
    taken for a missing one and the log handler never fails on a missing
    key. *)
Theorem handlers_know_the_named_tasks (cs : list call) (task_id : string) :
  (Forall (fun c => assigns task_id c = None) cs ->
   get_task_status_endpoint task_id (do_calls cs empty_ledger)
   = inr (HTTPException 404 "Task ID not found.")
   /\ get_task_logs_endpoint task_id (do_calls cs empty_ledger)
      = inr (HTTPException 404 "Task ID not found."))
  /\ (Exists (fun c => is_Some (assigns task_id c)) cs ->
      exists e status,
        get_task_status task_id (do_calls cs empty_ledger) = Some e
        /\ e_status e = Some status
        /\ get_task_status_endpoint task_id (do_calls cs empty_ledger) = inl (StatusInfo e)
        /\ get_task_logs_endpoint task_id (do_calls cs empty_ledger)
           = inl (TaskLogs task_id status (logs_of task_id (do_calls cs empty_ledger)))).
Proof.
  pose proof (entries_after_do_calls task_id cs empty_ledger) as Hview.
  change (task_status empty_ledger !! task_id) with ((∅ : gmap string entry) !! task_id) in Hview.
  rewrite lookup_empty in Hview. cbn [fmap option_fmap option_map] in Hview.
  unfold get_task_status_endpoint, get_task_logs_endpoint, get_task_status, logs_of.
  split.
  - intros Hnone. rewrite (entries_after_unnamed _ _ Hnone) in Hview.
    by destruct (task_status (do_calls cs empty_ledger) !! task_id).
  - intros Hsome.
    destruct (entries_after_named task_id cs None (or_introl Hsome)) as (v & Hv & Hs & Hl).
    rewrite Hv in Hview.
    apply untimed_Some in Hview as (e & -> & Hstatus & Hempty & Hlogs).
    destruct Hs as [status Hs]. exists e, status.
    assert (He : is_empty e = false).
    { rewrite Hempty. destruct v as [s f r g er l]. cbn in Hs. by subst s. }
    rewrite He, Hstatus, Hs. repeat split; try done.
Qed.

End endpoint_facts.

Section download_name.
Import Py tasks processing workflow_manager main spec.

Lemma last_index_none (c : ascii) (s : string) (i : nat) (found : option nat) :
  contains_char c s = false -> last_index c s i found = found.
Proof.
  revert i found. induction s as [|x s IH]; intros i found; cbn [contains_char last_index];
    [done|].
  destruct (Ascii.eqb c x); [discriminate|]. apply IH.
Qed.

Lemma last_index_app (c : ascii) (a b : string) (i : nat) (found : option nat) :
  contains_char c b = false ->
  last_index c (a +:+ String c b) i found = Some (i + String.length a).
Proof.
  intros Hb. revert i found. induction a as [|x a IH]; intros i found.
  - change ("" +:+ String c b) with (String c b). cbn [last_index String.length].
    rewrite Ascii.eqb_refl, last_index_none by done. f_equal. lia.
  - rewrite append_cons. cbn [last_index String.length]. rewrite IH. f_equal. lia.
Qed.

Lemma substring_prefix (a b : string) : String.substring 0 (String.length a) (a +:+ b) = a.
Proof.
  induction a as [|x a IH]; [by destruct b|].
  rewrite append_cons. cbn [String.length String.substring]. by rewrite IH.
Qed.

Lemma splitext_root_stem (stem ext : string) :
  contains_char "/"%char (stem +:+ "." +:+ ext) = false ->
  contains_char "."%char ext = false ->
  all_dots stem = false ->
  splitext_root (stem +:+ "." +:+ ext) = stem.
Proof.
  intros Hslash Hext Hstem. unfold splitext_root.
  rewrite (last_index_none "/") by done.
  change (stem +:+ "." +:+ ext) with (stem +:+ String "."%char ext).
  rewrite last_index_app by done. cbn [Nat.add Nat.leb andb].
  by rewrite Nat.sub_0_r, substring_prefix, Hstem.
Qed.

(** The name under which the report is served.  For a completed task whose
    report exists and whose upload was named [stem.ext] (no [/] in the
    name, no further dot in [ext], and [stem] not made of dots only), the
    download handler serves the report as [stem_extracted.xlsx]: only the
    last extension is replaced. *)
Theorem report_download_name (exists_ : string -> bool) (task_id path stem ext : string)
    (L : ledger) (e : entry) :
  get_task_status task_id L = Some e ->
  e_status e = Some "completed" ->
  e_result_file e = Some (Some path) -> path <> "" -> exists_ path = true ->
  e_filename e = Some (stem +:+ "." +:+ ext) ->
  contains_char "/"%char (stem +:+ "." +:+ ext) = false ->
  contains_char "."%char ext = false ->
  all_dots stem = false ->
  download_result_endpoint exists_ task_id L
  = FileResponse path (stem +:+ "_extracted.xlsx").
Proof.
  intros He Hs Hr Hpath Hex Hf Hslash Hext Hstem.
  pose proof (download_serves exists_ task_id path (stem +:+ "." +:+ ext) L (untimed e)) as H.
  rewrite (splitext_root_stem stem ext Hslash Hext Hstem) in H.
  apply H; try done.
  - by rewrite He.
  - by destruct e as [s f r g er [l|]].
  - by destruct e as [s f r g er [l|]].
  - by destruct e as [s f r g er [l|]].
Qed.

Lemma report_download_name_witness :
  download_result_endpoint (fun _ => true) "t1"
    (Ledger {[ "t1" := Entry (Some "completed") (Some "annual.report.pdf")
                         (Some (Some "/tmp/pdf2any_results/t1_report.xlsx")) None None
                         (Some []) ]} 0)
  = FileResponse "/tmp/pdf2any_results/t1_report.xlsx" ("annual.report" +:+ "_extracted.xlsx").
Proof.
  apply (report_download_name (fun _ => true) "t1" "/tmp/pdf2any_results/t1_report.xlsx"
           "annual.report" "pdf"
           (Ledger {[ "t1" := Entry (Some "completed") (Some "annual.report.pdf")
                                (Some (Some "/tmp/pdf2any_results/t1_report.xlsx")) None None
                                (Some []) ]} 0)
           (Entry (Some "completed") (Some "annual.report.pdf")
              (Some (Some "/tmp/pdf2any_results/t1_report.xlsx")) None None (Some [])));
    try reflexivity.
  discriminate.
Defined.

End download_name.


(** ** The OCR stage *)

Section ocr_facts.
Import Py tasks processing workflow_manager main spec gcs_utils ocr.

Lemma ocr_pages_returns (O : engine) (images : list image) (all_text result : list string) :
  ocr_pages O images all_text = Returns result <->
  exists texts, pages_read O images texts /\ result = all_text ++ texts.
Proof.
  unfold pages_read. revert all_text.
  induction images as [|img rest IH]; intros all_text; cbn [ocr_pages].
  - split.
    + intros [= <-]. exists []. by rewrite app_nil_r.
    + intros (texts & Hread & ->). apply Forall2_nil_inv_l in Hread as ->.
      by rewrite app_nil_r.
  - destruct (image_to_string O img) as [page_text|f] eqn:Himg.
    + rewrite IH. split.
      * intros (texts & Hread & ->). exists (page_text :: texts).
        split; [by constructor|]. by rewrite <- app_assoc.
      * intros (texts & Hread & ->).
        apply Forall2_cons_inv_l in Hread as (t & texts' & Ht & Hread & ->).
        rewrite Himg in Ht. injection Ht as <-.
        exists texts'. split; [done|]. by rewrite <- app_assoc.
    + split; [discriminate|].
      intros (texts & Hread & _).
      apply Forall2_cons_inv_l in Hread as (t & texts' & Ht & _). congruence.
Qed.

Lemma ocr_pages_fails (O : engine) (images : list image) (all_text : list string)
    (f : failure) :
  ocr_pages O images all_text = Fails f ->
  exists before img after texts,
    images = before ++ img :: after /\ pages_read O before texts
    /\ image_to_string O img = Fails f.
Proof.
  unfold pages_read. revert all_text.
  induction images as [|img rest IH]; intros all_text; cbn [ocr_pages]; [discriminate|].
  destruct (image_to_string O img) as [page_text|f'] eqn:Himg.
  - intros H. apply IH in H as (before & img' & after & texts & -> & Hread & Hf).
    exists (img :: before), img', after, (page_text :: texts).
    split; [done|]. split; [by constructor|done].
  - intros [= <-]. exists [], img, rest, []. split; [done|]. split; [constructor|done].
Qed.

Lemma bucket_and_blob_fails (gcs_uri : string) (f : failure) :
  bucket_and_blob gcs_uri = Fails f ->
  f = AsValueError (Exn ValueError "Invalid GCS URI format. Must start with gs://")
  \/ f = AsValueError (Exn ValueError "not enough values to unpack (expected 2, got 1)").
Proof.
  unfold bucket_and_blob.
  destruct (startswith gcs_uri "gs://"); cbn [negb]; [|intros [= <-]; by left].
  destruct (split_once "/" (slice_from 5 gcs_uri)) as [|a [|b [|c l]]];
    try (intros [= <-]; by right); discriminate.
Qed.

Lemma ocr_body_fails (O : engine) (gcs_uri : string) (f : failure) :
  ocr_body O gcs_uri = Fails f ->
  bucket_and_blob gcs_uri = Fails f \/ library_fails O gcs_uri f.
Proof.
  unfold ocr_body, library_fails.
  destruct (bucket_and_blob gcs_uri) as [[bucket_name blob_name]|f0] eqn:Huri.
  2:{ intros [= <-]. by left. }
  intros H. right. exists bucket_name, blob_name. split; [done|].
  destruct (download_as_bytes O bucket_name blob_name) as [pdf_bytes|f1].
  2:{ injection H as <-. by left. }
  right. exists pdf_bytes. split; [done|].
  destruct (convert_from_bytes O pdf_bytes) as [images|f2].
  2:{ injection H as <-. by left. }
  right. destruct images as [|img rest]; [discriminate|].
  destruct (ocr_pages O (img :: rest) []) as [all_text|f3] eqn:Hpages; [discriminate|].
  injection H as <-.
  apply ocr_pages_fails in Hpages as (before & img' & after & texts & Himgs & Hread & Hf).
  by exists (img :: rest), before, img', after, texts.
Qed.

(** What [perform_ocr] raises: the error of a guard (of the imports, which
    are made together, only the first), the [RuntimeError] of the check of
    the OCR engine, a [ValueError] for a URI it cannot take apart, or what
    the [except] clauses make of the failure of a library call. *)
Theorem perform_ocr_raises (O : engine) (gcs_uri : string) (e : exn) :
  ocr.perform_ocr O gcs_uri = Raise e ->
  e ∈ [ Exn ImportError "pytesseract library not available.";
        Exn ValueError "Google Cloud Storage client not initialized.";
        Exn ValueError "Invalid GCS URI format. Must start with gs://";
        Exn ValueError "not enough values to unpack (expected 2, got 1)" ]
  \/ (exists tess_err,
        get_tesseract_version O = Some tess_err
        /\ e = Exn RuntimeError ("Tesseract executable not found or failed: " +:+ tess_err
                                 +:+ ". OCR cannot proceed."))
  \/ (exists f, library_fails O gcs_uri f /\ e = reraise gcs_uri f).
Proof.
  unfold ocr.perform_ocr.
  destruct (ocr_imports O); cbn [negb]; [|intros [= <-]; left; set_solver].
  destruct (ocr.storage_client O); cbn [negb]; [|intros [= <-]; left; set_solver].
  destruct (get_tesseract_version O) as [tess_err|].
  { intros [= <-]. right. left. by exists tess_err. }
  destruct (ocr_body O gcs_uri) as [text|f] eqn:Hbody; [discriminate|].
  intros [= <-].
  apply ocr_body_fails in Hbody as [Huri|Hlib].
  - apply bucket_and_blob_fails in Huri as [-> | ->]; left; cbn [reraise]; set_solver.
  - right. right. by exists f.
Qed.

Lemma perform_ocr_raises_witness :
  Exn FileNotFoundError "PDF not found in GCS at gs://bucket/t1_doc.pdf"
  ∈ [ Exn ImportError "pytesseract library not available.";
      Exn ValueError "Google Cloud Storage client not initialized.";
      Exn ValueError "Invalid GCS URI format. Must start with gs://";
      Exn ValueError "not enough values to unpack (expected 2, got 1)" ]
  \/ (exists tess_err,
        get_tesseract_version (engine_of (Fails AsNotFound)) = Some tess_err
        /\ Exn FileNotFoundError "PDF not found in GCS at gs://bucket/t1_doc.pdf"
           = Exn RuntimeError ("Tesseract executable not found or failed: " +:+ tess_err
                               +:+ ". OCR cannot proceed."))
  \/ (exists f, library_fails (engine_of (Fails AsNotFound)) "gs://bucket/t1_doc.pdf" f
                /\ Exn FileNotFoundError "PDF not found in GCS at gs://bucket/t1_doc.pdf"
                   = reraise "gs://bucket/t1_doc.pdf" f).
Proof.
  apply (perform_ocr_raises (engine_of (Fails AsNotFound)) "gs://bucket/t1_doc.pdf").
  reflexivity.
Defined.

(** When [perform_ocr] returns: the imports and the storage client are
    there, the OCR engine answers, the URI names a bucket and a blob, the
    blob is downloaded and converted, every page is read, and the text is
    the page texts in order with the page break between them (the empty
    text for a document without pages). *)
Theorem perform_ocr_returns (O : engine) (gcs_uri text : string) :
  ocr.perform_ocr O gcs_uri = Ok text <->
  ocr_imports O = true /\ ocr.storage_client O = true /\ get_tesseract_version O = None
  /\ exists bucket_name blob_name pdf_bytes images texts,
       bucket_and_blob gcs_uri = Returns (bucket_name, blob_name)
       /\ download_as_bytes O bucket_name blob_name = Returns pdf_bytes
       /\ convert_from_bytes O pdf_bytes = Returns images
       /\ pages_read O images texts
       /\ text = join page_break texts.
Proof.
  unfold ocr.perform_ocr, ocr_body.
  destruct (ocr_imports O); cbn [negb]; [|split; [discriminate|by intros [? _]]].
  destruct (ocr.storage_client O); cbn [negb]; [|split; [discriminate|by intros (_ & ? & _)]].
  destruct (get_tesseract_version O) as [tess_err|];
    [split; [discriminate|by intros (_ & _ & ? & _)]|].
  split.
  - intros H. do 3 (split; [done|]).
    destruct (bucket_and_blob gcs_uri) as [[bucket_name blob_name]|f0]; [|discriminate].
    destruct (download_as_bytes O bucket_name blob_name) as [pdf_bytes|f1] eqn:Hd;
      [|discriminate].
    destruct (convert_from_bytes O pdf_bytes) as [images|f2] eqn:Hc; [|discriminate].
    exists bucket_name, blob_name, pdf_bytes, images.
    destruct images as [|img rest].
    + injection H as <-. exists []. repeat split; try done. constructor.
    + destruct (ocr_pages O (img :: rest) []) as [all_text|f3] eqn:Hpages; [|discriminate].
      injection H as <-.
      apply ocr_pages_returns in Hpages as (texts & Hread & ->).
      by exists texts.
  - intros (_ & _ & _ & bucket_name & blob_name & pdf_bytes & images & texts
            & -> & -> & -> & Hread & ->).
    destruct images as [|img rest].
    + by apply Forall2_nil_inv_l in Hread as ->.
    + assert (Hpages : ocr_pages O (img :: rest) [] = Returns texts).
      { apply ocr_pages_returns. by exists texts. }
      by rewrite Hpages.
Qed.

End ocr_facts.

Section stage_errors.
Import Py tasks processing workflow_manager main spec gcs_utils ocr.

Lemma perform_ocr_silent (O : engine) (gcs_uri : string) (e : exn) :
  ocr.perform_ocr O gcs_uri = Raise e -> exn_str e = "" ->
  exists f, library_fails O gcs_uri f /\ (f = AsImportError e \/ f = AsValueError e).
Proof.
  unfold ocr.perform_ocr.
  destruct (ocr_imports O); cbn [negb]; [|by intros [= <-]].
  destruct (ocr.storage_client O); cbn [negb]; [|by intros [= <-]].
  destruct (get_tesseract_version O) as [tess_err|]; [by intros [= <-]|].
  destruct (ocr_body O gcs_uri) as [text|f] eqn:Hbody; [discriminate|].
  intros [= <-] Hmsg.
  apply ocr_body_fails in Hbody as [Huri|Hlib].
  - apply bucket_and_blob_fails in Huri as [-> | ->]; discriminate.
  - exists f. split; [done|].
    destruct f as [e0|e0| |error_type]; cbn in Hmsg |- *; try discriminate; eauto.
Qed.

Lemma extract_with_gemini_message (E : env) (gcs_uri : string) (e : exn) :
  extract_with_gemini E gcs_uri = Raise e -> exn_str e <> "".
Proof.
  unfold extract_with_gemini.
  destruct (gemini E); cbn [negb]; [|by intros [= <-]].
  destruct (types E); cbn [negb]; [|by intros [= <-]].
  destruct (part_from_uri E gcs_uri); cbn [negb]; [|by intros [= <-]].
  destruct (result_bind _ _); [discriminate|by intros [= <-]].
Qed.

Lemma generate_excel_message (E : env) (data : pyval) (task_id : string) (e : exn) :
  generate_excel E data task_id = Raise e ->
  exn_str e <> "" \/ makedirs E output_dir = Some e.
Proof.
  unfold generate_excel.
  destruct (is_dict data); cbn [negb]; [|intros [= <-]; by left].
  destruct (makedirs E output_dir) as [oe|]; [intros [= <-]; by right|].
  destruct (_write_excel_sheets E data _); [discriminate|intros [= <-]; by left].
Qed.

(** With the OCR stage written out: when a stage fails with an exception
    whose text is empty (the case in which the task gets no error text),
    the exception is an [ImportError] or a [ValueError] raised by a library
    call of the OCR stage and passed on as it is, or it was raised by
    [os.makedirs].  Every exception the pipeline makes itself has a
    text. *)
Theorem failure_without_error_text (O : engine) (E : env) (task_id gcs_uri : string)
    (e : exn) :
  stage_raises (with_ocr O E) task_id gcs_uri e ->
  exn_str e = "" ->
  (exists f, library_fails O gcs_uri f /\ (f = AsImportError e \/ f = AsValueError e))
  \/ makedirs E output_dir = Some e.
Proof.
  intros [Hocr|[(ocr_text & _ & Hex)|(ocr_text & data & _ & _ & Hgen)]] Hmsg.
  - left. by apply perform_ocr_silent.
  - by apply extract_with_gemini_message in Hex.
  - apply generate_excel_message in Hgen as [Hne|Hmk]; [done|by right].
Qed.

Lemma failure_without_error_text_witness :
  (exists f, library_fails (engine_of (Fails (AsValueError (Exn ValueError ""))))
               "gs://bucket/t1_doc.pdf" f
             /\ (f = AsImportError (Exn ValueError "") \/ f = AsValueError (Exn ValueError "")))
  \/ makedirs env_ok output_dir = Some (Exn ValueError "").
Proof.
  apply (failure_without_error_text (engine_of (Fails (AsValueError (Exn ValueError ""))))
           env_ok "t1" "gs://bucket/t1_doc.pdf" (Exn ValueError "")).
  - left. reflexivity.
  - reflexivity.
Defined.

End stage_errors.

Section uri_facts.
Import Py tasks processing workflow_manager main spec gcs_utils ocr.

Lemma split_once_head (c : ascii) (s a : string) (rest : list string) :
  split_once c s = a :: rest -> contains_char c a = false.
Proof.
  revert a rest. induction s as [|c' s IH]; intros a rest; cbn [split_once].
  - by intros [= <- <-].
  - destruct (Ascii.eqb c c') eqn:Hc; [by intros [= <- <-]|].
    destruct (split_once c s) as [|p l]; [discriminate|].
    intros [= <- <-]. cbn [contains_char]. rewrite Hc. by apply (IH p l).
Qed.

Lemma split_once_app (c : ascii) (a b : string) :
  contains_char c a = false ->
  split_once c (a +:+ String c b) = [a; b].
Proof.
  induction a as [|c' a IH]; simpl; intros H.
  - by rewrite Ascii.eqb_refl.
  - destruct (Ascii.eqb c c'); [discriminate|]. by rewrite (IH H).
Qed.

(** The URI a successful upload returns leads [perform_ocr] back to the
    bucket and the blob of the upload exactly when the configured bucket
    name has no [/]: the blob name may have any. *)
Theorem uploaded_uri_is_read_back (S : storage) (filename blob gcs_uri : string) :
  upload_file_to_gcs S filename blob = Ok gcs_uri ->
  bucket_and_blob gcs_uri = Returns (gcs_bucket_name S, blob)
  <-> contains_char "/"%char (gcs_bucket_name S) = false.
Proof.
  intros Hup. apply upload_file_to_gcs_uri in Hup as ->.
  unfold bucket_and_blob.
  change (startswith ("gs://" +:+ gcs_bucket_name S +:+ "/" +:+ blob) "gs://") with true.
  change (slice_from 5 ("gs://" +:+ gcs_bucket_name S +:+ "/" +:+ blob))
    with (gcs_bucket_name S +:+ String "/"%char blob).
  cbn [negb]. split.
  - destruct (split_once "/" _) as [|a [|b [|c l]]] eqn:Hsplit; try discriminate.
    intros [= -> ->]. by apply split_once_head in Hsplit.
  - intros Hbucket. by rewrite split_once_app.
Qed.

Lemma uploaded_uri_is_read_back_witness :
  bucket_and_blob "gs://bucket/t1_doc.pdf" = Returns (gcs_bucket_name storage_ok, "t1_doc.pdf")
  <-> contains_char "/"%char (gcs_bucket_name storage_ok) = false.
Proof.
  apply (uploaded_uri_is_read_back storage_ok "doc.pdf" "t1_doc.pdf" "gs://bucket/t1_doc.pdf").
  reflexivity.
Defined.

End uri_facts.

Section uri_parts.
Import Py tasks processing workflow_manager main spec gcs_utils ocr.

Lemma startswith_inv (s prefix : string) :
  startswith s prefix = true -> s = prefix +:+ slice_from (String.length prefix) s.
Proof.
  revert s. induction prefix as [|p prefix IH]; intros s; [done|].
  destruct s as [|c s]; cbn [startswith]; [discriminate|].
  intros [Hc Hs]%andb_prop. apply Ascii.eqb_eq in Hc as ->.
  rewrite append_cons. cbn [String.length slice_from]. f_equal. by apply IH.
Qed.

Lemma split_once_two (c : ascii) (s a b : string) :
  split_once c s = [a; b] -> s = a +:+ String c b /\ contains_char c a = false.
Proof.
  revert a. induction s as [|x s IH]; intros a; cbn [split_once]; [discriminate|].
  destruct (Ascii.eqb c x) eqn:Hc.
  - apply Ascii.eqb_eq in Hc as <-. by intros [= <- <-].
  - destruct (split_once c s) as [|p [|q [|r l]]]; try discriminate.
    intros [= <- <-]. destruct (IH p eq_refl) as [-> Hp].
    split; [done|]. cbn [contains_char]. by rewrite Hc.
Qed.

(** The URIs [perform_ocr] takes apart, and how: [gs://], the bucket name
    up to the first [/], and the blob name after it, which may have more
    of them. *)
Theorem gcs_uri_parts (gcs_uri bucket_name blob_name : string) :
  bucket_and_blob gcs_uri = Returns (bucket_name, blob_name)
  <-> gcs_uri = "gs://" +:+ bucket_name +:+ "/" +:+ blob_name
      /\ contains_char "/"%char bucket_name = false.
Proof.
  unfold bucket_and_blob. split.
  - destruct (startswith gcs_uri "gs://") eqn:Hstart; cbn [negb]; [|discriminate].
    apply startswith_inv in Hstart. cbn [String.length] in Hstart.
    destruct (split_once "/" (slice_from 5 gcs_uri)) as [|a [|b [|c l]]] eqn:Hsplit;
      try discriminate.
    intros [= -> ->]. apply split_once_two in Hsplit as [Hrest Hbucket].
    split; [|done]. rewrite Hstart at 1. by rewrite Hrest.
  - intros [-> Hbucket].
    change (startswith ("gs://" +:+ bucket_name +:+ "/" +:+ blob_name) "gs://") with true.
    change (slice_from 5 ("gs://" +:+ bucket_name +:+ "/" +:+ blob_name))
      with (bucket_name +:+ String "/"%char blob_name).
    cbn [negb]. by rewrite split_once_app.
Qed.

End uri_parts.


(** ** The workbook *)

Section workbook_facts.
Import Py tasks processing workflow_manager main spec.

Lemma counted_app (ws1 ws2 : list write) : counted (ws1 ++ ws2) = counted ws1 + counted ws2.
Proof. unfold counted. by rewrite List.filter_app, length_app. Qed.

Lemma tables_loop_counted (E : env) (st : writer_state) (i : nat) (tables : list pyval) :
  snd (tables_loop E st i tables) = snd st + counted (table_writes E i tables).
Proof.
  revert st i. induction tables as [|t tables IH]; intros st i; cbn [tables_loop table_writes].
  - unfold counted. cbn. lia.
  - rewrite IH, table_step_write.
    destruct (table_write E i t) as [w|]; [|done].
    change (w :: table_writes E (S i) tables) with ([w] ++ table_writes E (S i) tables).
    rewrite counted_app. unfold counted at 2. cbn [snd List.filter].
    destruct (w_complete w); cbn [length]; lia.
Qed.

(** The calls of [to_excel] of a run of the [with] block that reaches its
    end. *)
Lemma write_sheets_body_shape (E : env) (data : pyval) (writes : list write) :
  write_sheets_body E data = Ok writes ->
  exists summary text_sections tables,
    summary_data data = Ok summary
    /\ field data "text_sections" = Ok text_sections
    /\ field data "tables" = Ok tables
    /\ let sheets := summary_writes summary ++ sections_writes text_sections
                     ++ tables_writes E tables in
       writes = sheets ++ (if Nat.eqb (counted sheets) 0 then [Write info_sheet true] else []).
Proof.
  unfold write_sheets_body.
  destruct (summary_data data) as [summary|]; [|discriminate]. cbn [result_bind].
  destruct (match summary with [] => Ok _ | _ => _ end) as [st1|] eqn:H1; [|discriminate].
  assert (Hst1 : st1 = (summary_writes summary, counted (summary_writes summary))).
  { destruct summary as [|kv summary]; [by injection H1 as <-|].
    unfold write_sheet in H1. destruct (to_excel E _); [discriminate|]. by injection H1 as <-. }
  subst st1. clear H1. cbn [result_bind].
  destruct (field data "text_sections") as [text_sections|]; [|discriminate].
  cbn [result_bind].
  destruct (match text_sections with Some (PDict (kv :: ts)) => _ | _ => Ok _ end)
    as [st2|] eqn:H2; [|discriminate].
  assert (Hst2 : st2 = (summary_writes summary ++ sections_writes text_sections,
                        counted (summary_writes summary ++ sections_writes text_sections))).
  { destruct text_sections as [[| | | | | |[|kv ts]]|]; cbn [sections_writes];
      rewrite ?app_nil_r; try (by injection H2 as <-).
    unfold write_sheet in H2. destruct (to_excel E _); [discriminate|].
    injection H2 as <-. cbn [fst snd]. rewrite counted_app. f_equal. unfold counted at 3.
    cbn. lia. }
  subst st2. clear H2. cbn [result_bind].
  destruct (field data "tables") as [tables|]; [|discriminate]. cbn [result_bind].
  set (st3 := match tables with Some (PList ts) => tables_loop E _ 0 ts | _ => _ end).
  assert (Hst3 : st3 = (summary_writes summary ++ sections_writes text_sections
                        ++ tables_writes E tables,
                        counted (summary_writes summary ++ sections_writes text_sections
                                 ++ tables_writes E tables))).
  { subst st3. destruct tables as [[| | | | |ts|]|]; cbn [tables_writes];
      rewrite ?app_nil_r; try done.
    apply injective_projections.
    - rewrite tables_loop_writes. cbn [fst]. by rewrite app_assoc.
    - rewrite tables_loop_counted. cbn [fst snd]. by rewrite app_assoc, (counted_app (_ ++ _)). }
  rewrite Hst3. clear Hst3 st3. cbn [fst snd].
  intros H. exists summary, text_sections, tables. do 3 (split; [done|]). cbn zeta.
  destruct (Nat.eqb _ 0).
  - unfold write_sheet in H. destruct (to_excel E info_sheet); [discriminate|].
    cbn [result_bind fst] in H. by injection H as <-.
  - injection H as <-. by rewrite app_nil_r.
Qed.

End workbook_facts.

Section workbook_claims.
Import Py tasks processing workflow_manager main spec.

(** What [_write_excel_sheets] does, in full: it raises one [Exception]
    that names the path, or it has written, in this order, the Summary
    sheet if the summary has a field, the Text Sections sheet if there is a
    section, the sheets of the tables in the order of the document, and
    then the Info sheet exactly when none of the sheets before counts as
    written. *)
Theorem workbook_sheets (E : env) (data : pyval) (output_path : string) :
  _write_excel_sheets E data output_path
  = Raise (Exn Exception ("Failed to write Excel file " +:+ output_path))
  \/ exists summary text_sections tables,
       summary_data data = Ok summary
       /\ field data "text_sections" = Ok text_sections
       /\ field data "tables" = Ok tables
       /\ _write_excel_sheets E data output_path
          = Ok ((summary_writes summary ++ sections_writes text_sections
                 ++ tables_writes E tables)
                ++ (if Nat.eqb (counted (summary_writes summary
                                         ++ sections_writes text_sections
                                         ++ tables_writes E tables)) 0
                    then [Write info_sheet true] else [])).
Proof.
  unfold _write_excel_sheets.
  destruct (excel_writer E output_path); [|by left].
  destruct (write_sheets_body E data) as [writes|e] eqn:Hbody; [|by left].
  right. apply write_sheets_body_shape in Hbody
    as (summary & text_sections & tables & Hs & Ht & Htab & ->).
  by exists summary, text_sections, tables.
Qed.

Lemma length_substring_le (n : nat) (s : string) : String.length (String.substring 0 n s) <= n.
Proof.
  revert s. induction n as [|n IH]; intros [|c s]; cbn; try lia.
  specialize (IH s). lia.
Qed.

Lemma all_chars_substring (p : ascii -> bool) (n : nat) (s : string) :
  all_chars p s = true -> all_chars p (String.substring 0 n s) = true.
Proof.
  revert s. induction n as [|n IH]; intros [|c s]; cbn; try done.
  intros [Hc Hs]%andb_prop. by rewrite Hc, IH.
Qed.

Lemma safe_sheet_name_plain (raw_title : pyval) : plain_name (safe_sheet_name raw_title).
Proof.
  unfold plain_name, safe_sheet_name. split; [apply length_substring_le|].
  apply all_chars_substring.
  induction (py_str raw_title) as [|c s IH]; cbn [map_chars all_chars]; [done|].
  rewrite IH, andb_true_r. by destruct (isalnum c) eqn:Hc; rewrite ?Hc.
Qed.

Lemma table_write_name (E : env) (i : nat) (table_info : pyval) (w : write) :
  table_write E i table_info = Some w ->
  exists t, table_info = PDict t /\ sheet_name (w_sheet w) = safe_sheet_name (raw_title i t).
Proof.
  unfold table_write, table_sheet.
  destruct table_info as [| | | | | |t]; try discriminate.
  destruct (dict_get "headers" t) as [[| | | | |headers|]|]; try discriminate.
  destruct (dict_get "rows" t) as [[| | | | |rows_|]|]; try discriminate.
  destruct (truthy (PList rows_)); [|discriminate].
  destruct (valid_rows rows_) as [|r rs]; [discriminate|].
  destruct (data_frame E _ _); [|discriminate].
  intros [= <-]. by exists t.
Qed.

Lemma table_writes_Forall (E : env) (P : write -> Prop) (i : nat) (tables : list pyval) :
  (forall j t w, table_write E j t = Some w -> P w) ->
  Forall P (table_writes E i tables).
Proof.
  intros HP. revert i. induction tables as [|t tables IH]; intros i; cbn [table_writes].
  - constructor.
  - destruct (table_write E i t) as [w|] eqn:Hw; [|apply IH].
    constructor; [by apply (HP i t)|apply IH].
Qed.

(** Every sheet name the writer hands to [to_excel] has at most 31
    characters, each alphanumeric, an underscore or a space: the three
    fixed names and the sanitised titles of the tables. *)
Theorem sheet_names_are_plain (E : env) (data : pyval) (output_path : string)
    (writes : list write) :
  _write_excel_sheets E data output_path = Ok writes ->
  Forall (fun w => plain_name (sheet_name (w_sheet w))) writes.
Proof.
  intros Hok. apply write_excel_sheets_ok in Hok as [_ Hbody].
  apply write_sheets_body_shape in Hbody
    as (summary & text_sections & tables & _ & _ & _ & ->). cbn zeta.
  assert (Hfixed : forall name, name ∈ ["Summary"; "Text Sections"; "Info"] -> plain_name name).
  { intros name Hname. unfold plain_name.
    repeat (apply elem_of_cons in Hname as [-> |Hname]; [split; [cbn; lia|reflexivity]|]).
    by apply elem_of_nil in Hname. }
  repeat apply Forall_app_2.
  - destruct summary; cbn [summary_writes]; [constructor|].
    constructor; [|constructor]. apply Hfixed. set_solver.
  - destruct text_sections as [[| | | | | |[|kv ts]]|]; cbn [sections_writes];
      try constructor; [|constructor]. apply Hfixed. set_solver.
  - destruct tables as [[| | | | |ts|]|]; cbn [tables_writes]; try constructor.
    apply table_writes_Forall. intros j t w Hw.
    apply table_write_name in Hw as (t' & _ & ->). apply safe_sheet_name_plain.
  - destruct (Nat.eqb _ 0); [|constructor].
    constructor; [|constructor]. apply Hfixed. set_solver.
Qed.

Lemma sheet_names_are_plain_witness :
  Forall (fun w => plain_name (sheet_name (w_sheet w)))
         [ Write (Sheet "Summary" [PStr "Field"; PStr "Value"]
                    [ [PStr "meta_error"; PStr "Unexpected response type"];
                      [PStr "Total"; PStr "10"] ]) true;
           Write (Sheet "Q1_Sales__north_south" [PStr "Item"] [[PStr "10"]]) true ].
Proof.
  apply (sheet_names_are_plain env_ok fallback_with_table
           "/tmp/pdf2any_results/t1_report.xlsx").
  reflexivity.
Defined.

Lemma write_sheet_returned (E : env) (s : sheet) (st st' : writer_state) :
  write_sheet E s st = Ok st' ->
  to_excel E s = None /\ st' = (fst st ++ [Write s true], S (snd st)).
Proof.
  unfold write_sheet. destruct (to_excel E s); [discriminate|]. by intros [= <-].
Qed.

(** A write that counts is a call of [to_excel] that returned. *)
Lemma write_sheets_body_returned (E : env) (data : pyval) (writes : list write) :
  write_sheets_body E data = Ok writes ->
  Forall (fun w => w_complete w = true -> to_excel E (w_sheet w) = None) writes.
Proof.
  unfold write_sheets_body.
  destruct (summary_data data) as [summary|]; [|discriminate]. cbn [result_bind].
  destruct (match summary with [] => Ok _ | _ => _ end) as [st1|] eqn:H1; [|discriminate].
  assert (Hst1 : Forall (fun w => w_complete w = true -> to_excel E (w_sheet w) = None)
                        (fst st1)).
  { destruct summary as [|kv summary]; [injection H1 as <-; constructor|].
    apply write_sheet_returned in H1 as [Hx ->]. by repeat constructor. }
  cbn [result_bind].
  destruct (field data "text_sections") as [text_sections|]; [|discriminate].
  cbn [result_bind].
  destruct (match text_sections with Some (PDict (kv :: ts)) => _ | _ => Ok st1 end)
    as [st2|] eqn:H2; [|discriminate].
  assert (Hst2 : Forall (fun w => w_complete w = true -> to_excel E (w_sheet w) = None)
                        (fst st2)).
  { destruct text_sections as [[| | | | | |[|kv ts]]|]; try (by injection H2 as <-).
    apply write_sheet_returned in H2 as [Hx ->]. cbn [fst].
    apply Forall_app_2; [done|]. by repeat constructor. }
  cbn [result_bind].
  destruct (field data "tables") as [tables|]; [|discriminate]. cbn [result_bind].
  set (st3 := match tables with Some (PList ts) => tables_loop E st2 0 ts | _ => st2 end).
  assert (Hst3 : Forall (fun w => w_complete w = true -> to_excel E (w_sheet w) = None)
                        (fst st3)).
  { unfold st3. destruct tables as [[| | | | |ts|]|]; try done.
    rewrite tables_loop_writes. apply Forall_app_2; [done|].
    apply table_writes_Forall. intros j t w Hw. unfold table_write in Hw.
    destruct (table_sheet j t) as [s|]; [|discriminate].
    destruct (data_frame E (rows s) (columns s)); [|discriminate].
    injection Hw as <-. cbn [w_complete w_sheet]. intros Hc.
    apply andb_prop in Hc as [Hc _]. by apply bool_decide_eq_true in Hc. }
  clearbody st3. destruct (Nat.eqb (snd st3) 0).
  - destruct (write_sheet E info_sheet st3) as [st4|] eqn:H4; [|discriminate].
    cbn [result_bind]. intros [= <-]. apply write_sheet_returned in H4 as [Hx ->].
    cbn [fst]. apply Forall_app_2; [done|]. by repeat constructor.
  - by intros [= <-].
Qed.

(** A file that was written has a sheet.  Whenever [_write_excel_sheets]
    returns, one of its calls of [to_excel] has returned and counts as a
    written sheet; and when neither the Summary sheet, nor the Text
    Sections sheet, nor a sheet of a table counts, the last call is the one
    for the sheet [Info], and it has returned. *)
Theorem written_file_has_a_sheet (E : env) (data : pyval) (output_path : string)
    (writes : list write) :
  _write_excel_sheets E data output_path = Ok writes ->
  (exists w, w ∈ writes /\ w_complete w = true /\ to_excel E (w_sheet w) = None)
  /\ (forall summary text_sections tables,
        summary_data data = Ok summary ->
        field data "text_sections" = Ok text_sections ->
        field data "tables" = Ok tables ->
        counted (summary_writes summary ++ sections_writes text_sections
                 ++ tables_writes E tables) = 0 ->
        last writes = Some (Write info_sheet true) /\ to_excel E info_sheet = None).
Proof.
  intros Hok. apply write_excel_sheets_ok in Hok as [_ Hbody].
  pose proof (write_sheets_body_returned E data writes Hbody) as Hret.
  rewrite Forall_forall in Hret.
  apply write_sheets_body_shape in Hbody
    as (summary & text_sections & tables & Hs & Ht & Htab & Hwrites). cbn zeta in Hwrites.
  set (sheets := summary_writes summary ++ sections_writes text_sections
                 ++ tables_writes E tables) in *.
  assert (Hinfo : counted sheets = 0 ->
                  last writes = Some (Write info_sheet true) /\ to_excel E info_sheet = None).
  { intros Hz. rewrite Hz in Hwrites. cbn [Nat.eqb] in Hwrites.
    assert (Hlast : last writes = Some (Write info_sheet true))
      by (rewrite Hwrites; apply last_snoc).
    split; [exact Hlast|].
    apply (Hret (Write info_sheet true)); [|reflexivity].
    rewrite Hwrites. apply elem_of_app. right. by left. }
  split.
  - destruct (Nat.eqb_spec (counted sheets) 0) as [Hz|Hnz].
    + destruct (Hinfo Hz) as [Hlast Hx]. exists (Write info_sheet true).
      split; [|by split]. rewrite Hwrites. apply elem_of_app. right. by left.
    + assert (Hsome : exists w, w ∈ List.filter w_complete sheets).
      { unfold counted in Hnz. destruct (List.filter w_complete sheets) as [|w l];
          [done|]. exists w. by left. }
      destruct Hsome as [w Hw]. apply list_elem_of_In, filter_In in Hw as [Hin Hc].
      apply list_elem_of_In in Hin.
      assert (Hinw : w ∈ writes) by (rewrite Hwrites; apply elem_of_app; by left).
      exists w. split; [done|]. split; [done|]. by apply Hret.
  - intros summary' text_sections' tables' Hs' Ht' Htab'.
    rewrite Hs in Hs'. rewrite Ht in Ht'. rewrite Htab in Htab'.
    injection Hs' as <-. injection Ht' as <-. injection Htab' as <-. exact Hinfo.
Qed.

Lemma written_file_has_a_sheet_witness :
  (exists w, w ∈ [Write info_sheet true] /\ w_complete w = true
             /\ to_excel env_ok (w_sheet w) = None)
  /\ (forall summary text_sections tables,
        summary_data (PDict []) = Ok summary ->
        field (PDict []) "text_sections" = Ok text_sections ->
        field (PDict []) "tables" = Ok tables ->
        counted (summary_writes summary ++ sections_writes text_sections
                 ++ tables_writes env_ok tables) = 0 ->
        last [Write info_sheet true] = Some (Write info_sheet true)
        /\ to_excel env_ok info_sheet = None).
Proof.
  apply (written_file_has_a_sheet env_ok (PDict []) "/tmp/pdf2any_results/t1_report.xlsx").
  reflexivity.
Defined.

End workbook_claims.

Section summary_facts.
Import Py tasks processing workflow_manager main spec.

Lemma dict_has_set {V : Type} (k k' : string) (v : V) (d : list (string * V)) :
  dict_has k (dict_set k' v d) = (String.eqb k k' || dict_has k d)%bool.
Proof.
  unfold dict_has. destruct (String.eqb_spec k k') as [->|Hne].
  - by rewrite dict_get_set_same.
  - by rewrite dict_get_set_other.
Qed.

Lemma dict_has_update {V : Type} (k : string) (d other : list (string * V)) :
  dict_has k (dict_update d other)
  = (dict_has k d || existsb (fun kv => String.eqb k (fst kv)) other)%bool.
Proof.
  unfold dict_update. revert d.
  induction other as [|[k' v] other IH]; intros d; cbn [fold_left existsb fst snd].
  - by rewrite orb_false_r.
  - rewrite IH, dict_has_set. by destruct (String.eqb k k'), (dict_has k d).
Qed.

Lemma dict_has_items {V : Type} (k : string) (d : list (string * V)) :
  dict_has k d = existsb (fun kv => String.eqb k (fst kv)) d.
Proof.
  unfold dict_has. induction d as [|[k' v] d IH]; cbn [dict_get existsb fst]; [done|].
  destruct (String.eqb k k'); [done|]. exact IH.
Qed.

Lemma existsb_filter_not_raw (k : string) (d : list (string * pyval)) :
  existsb (fun kv => String.eqb k (fst kv)) (List.filter not_raw_response d)
  = (negb (String.eqb k "raw_response") && existsb (fun kv => String.eqb k (fst kv)) d)%bool.
Proof.
  induction d as [|[k' v] d IH]; cbn [List.filter existsb fst]; [by rewrite andb_false_r|].
  unfold not_raw_response at 1. cbn [fst].
  destruct (String.eqb_spec k' "raw_response") as [->|Hne]; cbn [negb existsb fst].
  - rewrite IH. by destruct (String.eqb k "raw_response").
  - rewrite IH. destruct (String.eqb_spec k k') as [->|Hkk']; [|done].
    apply String.eqb_neq in Hne. by rewrite Hne.
Qed.

Lemma existsb_meta (k : string) (md : list (string * pyval)) :
  existsb (fun kv => String.eqb k (fst kv))
    (List.map (fun kv : string * pyval => ("meta_" +:+ fst kv, snd kv)) md) = true ->
  exists k', k = "meta_" +:+ k' /\ existsb (fun kv => String.eqb k' (fst kv)) md = true.
Proof.
  induction md as [|[k0 v] md IH]; cbn [List.map existsb fst snd]; [discriminate|].
  intros [Hk|Hrest]%orb_prop.
  - apply String.eqb_eq in Hk. exists k0. by rewrite String.eqb_refl.
  - destruct (IH Hrest) as (k' & -> & Hk'). exists k'. by rewrite Hk', orb_true_r.
Qed.

(** The fields of the Summary sheet.  The sheet, when there is one, is the
    first that is written and lists the summary; a field of the summary is
    a key of ['key_value_pairs'], or [meta_] followed by a key of
    ['metadata']; the key [raw_response] of either dict is left out, so a
    response kept under it never reaches the sheet. *)
Theorem summary_sheet_fields (E : env) (data : pyval) (output_path : string)
    (writes : list write) :
  _write_excel_sheets E data output_path = Ok writes ->
  exists summary,
    summary_data data = Ok summary
    /\ summary_writes summary `prefix_of` writes
    /\ forall k, dict_has k summary = true ->
         k <> "raw_response"
         /\ ((exists kv, field data "key_value_pairs" = Ok (Some (PDict kv))
                         /\ dict_has k kv = true)
             \/ (exists md k', field data "metadata" = Ok (Some (PDict md))
                               /\ k = "meta_" +:+ k' /\ k' <> "raw_response"
                               /\ dict_has k' md = true)).
Proof.
  intros Hok. apply write_excel_sheets_ok in Hok as [_ Hbody].
  apply write_sheets_body_shape in Hbody
    as (summary & text_sections & tables & Hs & _ & _ & ->). cbn zeta.
  exists summary. split; [done|]. split.
  { rewrite <- !app_assoc. by apply prefix_app_r. }
  intros k Hk. revert Hs Hk. unfold summary_data.
  destruct (field data "metadata") as [metadata|]; [|discriminate]. cbn [result_bind].
  destruct (field data "key_value_pairs") as [key_value_pairs|]; [|discriminate].
  cbn [result_bind].
  set (meta := match metadata with Some (PDict md) => _ | _ => [] end).
  assert (Hmeta : dict_has k meta = true ->
                  exists md k', metadata = Some (PDict md) /\ k = "meta_" +:+ k'
                                /\ k' <> "raw_response" /\ dict_has k' md = true).
  { subst meta. destruct metadata as [[| | | | | |md]|]; try discriminate.
    rewrite dict_has_update. cbn [dict_has dict_get orb].
    unfold dict_of_items. rewrite <- dict_has_items, dict_has_update.
    cbn [dict_has dict_get orb]. intros Hex.
    apply existsb_meta in Hex as (k' & -> & Hk').
    rewrite existsb_filter_not_raw in Hk'. apply andb_prop in Hk' as [Hraw Hk'].
    exists md, k'. rewrite dict_has_items.
    repeat split; try done. apply String.eqb_neq. by destruct (String.eqb k' "raw_response"). }
  clearbody meta.
  assert (Hmeta_key : dict_has k meta = true -> k <> "raw_response").
  { intros H. destruct (Hmeta H) as (md & k' & _ & -> & _). discriminate. }
  destruct key_value_pairs as [[| | | | | |kv]|];
    try (intros [= <-] H; split; [by apply Hmeta_key|];
         right; destruct (Hmeta H) as (md & k' & -> & ?); by exists md, k').
  intros [= <-]. rewrite dict_has_update. unfold dict_of_items.
  rewrite <- dict_has_items, dict_has_update. cbn [dict_has dict_get orb].
  rewrite existsb_filter_not_raw, <- dict_has_items.
  intros [H|[Hraw H]%andb_prop]%orb_prop.
  - split; [by apply Hmeta_key|].
    right. destruct (Hmeta H) as (md & k' & -> & ?). by exists md, k'.
  - split; [apply String.eqb_neq; by destruct (String.eqb k "raw_response")|].
    left. by exists kv.
Qed.

Lemma summary_sheet_fields_witness :
  exists summary,
    summary_data fallback_with_table = Ok summary
    /\ summary_writes summary
       `prefix_of` [ Write (Sheet "Summary" [PStr "Field"; PStr "Value"]
                              [ [PStr "meta_error"; PStr "Unexpected response type"];
                                [PStr "Total"; PStr "10"] ]) true;
                     Write (Sheet "Q1_Sales__north_south" [PStr "Item"] [[PStr "10"]]) true ]
    /\ forall k, dict_has k summary = true ->
         k <> "raw_response"
         /\ ((exists kv, field fallback_with_table "key_value_pairs" = Ok (Some (PDict kv))
                         /\ dict_has k kv = true)
             \/ (exists md k', field fallback_with_table "metadata" = Ok (Some (PDict md))
                               /\ k = "meta_" +:+ k' /\ k' <> "raw_response"
                               /\ dict_has k' md = true)).
Proof.
  apply (summary_sheet_fields env_ok fallback_with_table
           "/tmp/pdf2any_results/t1_report.xlsx").
  reflexivity.
Defined.

End summary_facts.

Section report_path_facts.
Import Py tasks processing workflow_manager main spec ocr.

Lemma path_join_cases (a b : string) :
  path_join a b
  = if startswith b "/" then b
    else if (String.eqb a "" || endswith a "/")%bool then a +:+ b else a +:+ "/" +:+ b.
Proof.
  unfold path_join. destruct b as [|c b]; [done|].
  by destruct c as [[] [] [] [] [] [] [] []].
Qed.

Lemma length_append (s t : string) :
  String.length (s +:+ t) = String.length s + String.length t.
Proof. induction s as [|c s IH]; simpl; [done|by f_equal]. Qed.

Lemma append_inj_r (s1 s2 t : string) : s1 +:+ t = s2 +:+ t -> s1 = s2.
Proof.
  intros H.
  assert (Hlen : String.length s1 = String.length s2).
  { apply (f_equal String.length) in H. rewrite !length_append in H. lia. }
  revert s2 H Hlen. induction s1 as [|c s1 IH]; intros [|c' s2]; cbn; try done.
  intros [= -> H] [= Hlen]. f_equal. by apply IH.
Qed.

Lemma report_path (E : env) (data : pyval) (task_id path : string) :
  startswith task_id "/" = false ->
  generate_excel E data task_id = Ok path ->
  path = "/tmp/pdf2any_results/" +:+ task_id +:+ "_report.xlsx".
Proof.
  intros Hid. unfold generate_excel.
  destruct (is_dict data); cbn [negb]; [|discriminate].
  destruct (makedirs E output_dir); [discriminate|].
  destruct (_write_excel_sheets E data _); [|discriminate].
  intros [= <-]. rewrite path_join_cases.
  assert (Hb : startswith (task_id +:+ "_report.xlsx") "/" = false).
  { by destruct task_id. }
  by rewrite Hb.
Qed.

(** The report of a task is the file [<task id>_report.xlsx] in the output
    directory, and the reports of two tasks are two files: for task ids
    that do not begin with [/], as the ids drawn by the upload handler. *)
Theorem reports_are_apart (E1 E2 : env) (data1 data2 : pyval)
    (task_id1 task_id2 path1 path2 : string) :
  startswith task_id1 "/" = false ->
  startswith task_id2 "/" = false ->
  generate_excel E1 data1 task_id1 = Ok path1 ->
  generate_excel E2 data2 task_id2 = Ok path2 ->
  path1 = "/tmp/pdf2any_results/" +:+ task_id1 +:+ "_report.xlsx"
  /\ (path1 = path2 -> task_id1 = task_id2).
Proof.
  intros H1 H2 Hg1 Hg2.
  apply (report_path _ _ _ _ H1) in Hg1 as ->.
  apply (report_path _ _ _ _ H2) in Hg2 as ->.
  split; [done|]. intros Heq.
  apply (inj (String.app "/tmp/pdf2any_results/")) in Heq.
  by apply append_inj_r in Heq.
Qed.

Lemma reports_are_apart_witness :
  "/tmp/pdf2any_results/t1_report.xlsx" = "/tmp/pdf2any_results/" +:+ "t1" +:+ "_report.xlsx"
  /\ ("/tmp/pdf2any_results/t1_report.xlsx" = "/tmp/pdf2any_results/t2_report.xlsx"
      -> "t1" = "t2").
Proof.
  apply (reports_are_apart env_ok env_ok fallback_with_table (PDict []) "t1" "t2");
    reflexivity.
Defined.

End report_path_facts.

Section extraction_claims.
Import Py processing spec.

Lemma validate_response_dict (E : env) (response_data data : pyval) :
  validate_response E response_data = Ok data -> canonical data.
Proof.
  unfold validate_response.
  destruct response_data as [| | | |text| |d];
    try (intros [= <-]; apply fallback_structure_canonical).
  - destruct (json_loads E text) as [[| | | | | |parsed]|[[] msg]]; try discriminate.
    + intros [= <-]. apply init_keys_canonical.
    + intros [= <-]. apply fallback_structure_canonical.
  - intros [= <-]. apply init_keys_canonical.
Qed.

(** What the stages after the extraction can rely on.  Whenever
    [extract_with_gemini] returns, whatever the model answered, the
    document is a dict with the four fields and ['tables'] a list; so
    reconciliation returns it, and [generate_excel] does not raise its
    [TypeError]: it returns the path of the report, raises what
    [os.makedirs] raised, or raises its one [Exception]. *)
Theorem extracted_document_is_canonical (E : env) (gcs_uri task_id ocr_text : string)
    (data : pyval) :
  extract_with_gemini E gcs_uri = Ok data ->
  canonical data
  /\ reconcile_with_gemini E data ocr_text = Ok data
  /\ (generate_excel E data task_id = Ok (path_join output_dir (task_id +:+ "_report.xlsx"))
      \/ (exists oe, makedirs E output_dir = Some oe /\ generate_excel E data task_id = Raise oe)
      \/ generate_excel E data task_id
         = Raise (Exn Exception ("Excel generation failed for Task " +:+ task_id))).
Proof.
  intros Hex.
  destruct (extract_with_gemini_ok _ _ _ Hex) as (Hg & Ht & Hd).
  assert (Hcanon : canonical data).
  { revert Hex. unfold extract_with_gemini. rewrite Hg, Ht. cbn [negb].
    destruct (part_from_uri E gcs_uri); cbn [negb]; [|discriminate].
    destruct (generate_content_async E gcs_uri) as [response_data|e]; [|discriminate].
    cbn [result_bind].
    destruct (validate_response E response_data) as [doc|e] eqn:Hv; [|discriminate].
    intros [= <-]. by apply (validate_response_dict E response_data). }
  split; [exact Hcanon|]. split.
  - unfold reconcile_with_gemini. by rewrite Hg, Ht.
  - unfold generate_excel. rewrite Hd. cbn [negb].
    destruct (makedirs E output_dir) as [oe|]; [right; left; by exists oe|].
    destruct (_write_excel_sheets E data _); [by left|by right; right].
Qed.

Lemma extracted_document_is_canonical_witness :
  canonical (PDict (init_keys []))
  /\ reconcile_with_gemini env_ok (PDict (init_keys [])) "" = Ok (PDict (init_keys []))
  /\ (generate_excel env_ok (PDict (init_keys [])) "t1"
      = Ok (path_join output_dir ("t1" +:+ "_report.xlsx"))
      \/ (exists oe, makedirs env_ok output_dir = Some oe
                     /\ generate_excel env_ok (PDict (init_keys [])) "t1" = Raise oe)
      \/ generate_excel env_ok (PDict (init_keys [])) "t1"
         = Raise (Exn Exception ("Excel generation failed for Task " +:+ "t1"))).
Proof.
  apply (extracted_document_is_canonical env_ok "gs://bucket/t1_doc.pdf" "t1" "").
  reflexivity.
Defined.

End extraction_claims.


(** ** Markdown tables *)

Section markdown_facts.
Import Py processing markdown spec.

Lemma cells_of_line_sub (P : string -> Prop) (line : string) :
  Forall P (List.map strip (split_all "|" line)) -> Forall P (cells_of_line line).
Proof.
  unfold cells_of_line. intros Hall.
  set (cells := List.map strip (split_all "|" line)) in *. clearbody cells.
  assert (H1 : Forall P match cells with
                        | first :: rest => if String.eqb first "" then rest else cells
                        | [] => cells
                        end).
  { destruct cells as [|first rest]; [done|].
    destruct (String.eqb first ""); [by apply Forall_cons_1 in Hall as [_ ?]|done]. }
  revert H1. generalize (match cells with
                         | first :: rest => if String.eqb first "" then rest else cells
                         | [] => cells
                         end). clear. intros cells H.
  destruct cells as [|c cells]; [done|].
  destruct (String.eqb (List.last (c :: cells) "") ""); [|done].
  apply List.Forall_forall. intros x Hx. rewrite List.Forall_forall in H. apply H.
  destruct (exists_last (l := c :: cells)) as (l' & a & Hl); [done|].
  rewrite Hl in Hx |- *. rewrite removelast_last in Hx. apply in_or_app. by left.
Qed.

Lemma cells_of_line_stripped (line : string) :
  Forall (fun cell => strip cell = cell) (cells_of_line line).
Proof.
  apply cells_of_line_sub. apply List.Forall_forall. intros x Hx.
  apply in_map_iff in Hx as (y & <- & _). apply strip_idem.
Qed.

Lemma dict_set_Forall {V : Type} (P : string * V -> Prop) (k : string) (v : V)
    (d : list (string * V)) :
  P (k, v) -> Forall P d -> Forall P (dict_set k v d).
Proof.
  intros Hkv. induction 1 as [|[k' v'] d Hd Hall IH]; cbn [dict_set].
  - by constructor.
  - destruct (String.eqb k k'); by constructor.
Qed.

Lemma fill_row_Forall (P : string * string -> Prop) (headers : list string) (j : nat)
    (cells : list string) (row : list (string * string)) :
  (forall i cell, j <= i -> P (column_name headers i, strip cell)) ->
  Forall P row -> Forall P (fill_row headers j cells row).
Proof.
  revert j row. induction cells as [|cell cells IH]; intros j row HP Hrow; cbn [fill_row].
  - done.
  - apply IH.
    + intros i c Hi. apply HP. lia.
    + apply dict_set_Forall; [by apply HP|done].
Qed.


Lemma column_name_ok (headers : list string) (i : nat) :
  column_name headers i ∈ headers
  \/ exists j, length headers <= j /\ column_name headers i = "Column_" +:+ str_of_nat (j + 1).
Proof.
  unfold column_name. destruct (headers !! i) as [h|] eqn:Hi.
  - left. by apply list_elem_of_lookup_2 in Hi.
  - right. exists i. split; [by apply lookup_ge_None|done].
Qed.

Lemma table_line_ok (st : option (list string) * list (list (string * string)))
    (line : string) :
  table_ok st -> table_ok (table_line st line).
Proof.
  unfold table_line, table_ok.
  destruct (is_separator line); [done|].
  destruct (String.eqb (strip line) ""); [done|].
  destruct st as [[headers|] rows_]; cbn [fst snd].
  - intros (Hh & Hne & Hrows). destruct headers as [|h hs]; cbn [fst snd]; [done|].
    split; [done|]. split; [done|].
    apply Forall_app. split; [done|]. constructor; [|constructor].
    apply fill_row_Forall; [|constructor].
    intros i cell _. cbn [fst snd]. split; [apply strip_idem|apply column_name_ok].
  - intros ->. split; [apply cells_of_line_stripped|]. split; [done|constructor].
Qed.

Lemma table_lines_ok (lines : list string)
    (st : option (list string) * list (list (string * string))) :
  table_ok st -> table_ok (fold_left table_line lines st).
Proof.
  revert st. induction lines as [|line lines IH]; intros st Hst; cbn [fold_left]; [done|].
  by apply IH, table_line_ok.
Qed.

Lemma parse_markdown_table_ok (text : string) :
  table_ok (t_headers (parse_markdown_table text), t_rows (parse_markdown_table text)).
Proof.
  unfold parse_markdown_table. cbn [t_headers t_rows].
  rewrite <- surjective_pairing. by apply table_lines_ok.
Qed.

End markdown_facts.

Section render_facts.
Import Py processing markdown spec.

Lemma is_separator_append (a b : string) :
  is_separator (a +:+ b) = (is_separator a && is_separator b)%bool.
Proof.
  induction a as [|x a IH]; [done|]. rewrite append_cons. cbn [is_separator].
  rewrite IH. by rewrite andb_assoc.
Qed.

Lemma is_separator_join (cells : list string) :
  is_separator (join " | " cells) = forallb is_separator cells.
Proof.
  induction cells as [|cell cells IH]; [done|].
  destruct cells as [|cell' cells].
  - cbn [join forallb]. by rewrite andb_true_r.
  - change (join " | " (cell :: cell' :: cells))
      with (cell +:+ " | " +:+ join " | " (cell' :: cells)).
    rewrite !is_separator_append, IH. cbn [forallb]. by destruct (is_separator cell).
Qed.

Lemma is_separator_render_line (cells : list string) :
  is_separator (render_line cells) = forallb is_separator cells.
Proof.
  unfold render_line. rewrite !is_separator_append, is_separator_join.
  change (is_separator "| ") with true. change (is_separator " |") with true.
  by rewrite andb_true_r.
Qed.

Lemma line_ok_separator (cells : list string) :
  line_ok cells -> is_separator (render_line cells) = false /\ cells <> [].
Proof.
  intros [_ Hex]. rewrite is_separator_render_line. split.
  - apply not_true_is_false. intros Hall. rewrite forallb_forall in Hall.
    apply List.Exists_exists in Hex as (cell & Hin & Hcell).
    apply Hall in Hin. congruence.
  - intros ->. by apply Exists_nil in Hex.
Qed.

Lemma contains_char_join (c : ascii) (sep : string) (cells : list string) :
  contains_char c sep = false ->
  Forall (fun cell => contains_char c cell = false) cells ->
  contains_char c (join sep cells) = false.
Proof.
  intros Hsep. induction 1 as [|cell cells Hcell Hall IH]; [done|].
  destruct cells as [|cell' cells]; [done|].
  change (join sep (cell :: cell' :: cells)) with (cell +:+ sep +:+ join sep (cell' :: cells)).
  by rewrite !contains_char_append, Hcell, Hsep, IH.
Qed.

Lemma render_line_no_break (cells : list string) :
  Forall cell_ok cells -> contains_char "010"%char (render_line cells) = false.
Proof.
  intros Hall. unfold render_line. rewrite !contains_char_append.
  rewrite contains_char_join; [done|done|].
  eapply Forall_impl; [exact Hall|]. by intros cell (_ & _ & ?).
Qed.

Lemma render_line_ends (cells : list string) : ends_ok (render_line cells).
Proof.
  unfold render_line. rewrite <- append_assoc. by apply ends_ok_app.
Qed.

Lemma render_line_strip (cells : list string) : strip (render_line cells) = render_line cells.
Proof.
  unfold strip. change (lstrip (render_line cells)) with (render_line cells).
  apply render_line_ends.
Qed.

(** The padded cells between the bars of a line. *)
Lemma split_all_bars (cells : list string) :
  cells <> [] -> Forall cell_ok cells ->
  split_all "|" (" " +:+ join " | " cells +:+ " |")
  = List.map (fun cell => " " +:+ cell +:+ " ") cells ++ [""].
Proof.
  intros Hne Hall. induction Hall as [|cell cells Hcell Hall IH]; [done|].
  destruct Hcell as (_ & Hbar & _).
  assert (Hpad : contains_char "|" (" " +:+ cell +:+ " ") = false).
  { by rewrite !contains_char_append, Hbar. }
  destruct cells as [|cell' cells].
  - cbn [join List.map app].
    replace (" " +:+ cell +:+ " |") with ((" " +:+ cell +:+ " ") +:+ String "|" "")
      by (by rewrite !append_assoc).
    by rewrite split_all_app.
  - change (join " | " (cell :: cell' :: cells))
      with (cell +:+ " | " +:+ join " | " (cell' :: cells)).
    replace (" " +:+ (cell +:+ " | " +:+ join " | " (cell' :: cells)) +:+ " |")
      with ((" " +:+ cell +:+ " ")
            +:+ String "|" (" " +:+ join " | " (cell' :: cells) +:+ " |")).
    2:{ rewrite !append_assoc. reflexivity. }
    rewrite split_all_app by done. rewrite IH by done. reflexivity.
Qed.

Lemma removelast_snoc {A : Type} (l : list A) (x d : A) :
  List.last (l ++ [x]) d = x /\ removelast (l ++ [x]) = l.
Proof. split; [apply last_last|apply removelast_last]. Qed.

Lemma cells_of_render_line (cells : list string) :
  cells <> [] -> Forall cell_ok cells -> cells_of_line (render_line cells) = cells.
Proof.
  intros Hne Hall. unfold cells_of_line, render_line.
  change ("| " +:+ join " | " cells +:+ " |")
    with (String "|" (" " +:+ join " | " cells +:+ " |")).
  cbn [split_all]. change (Ascii.eqb "|" "|") with true. cbv iota.
  rewrite split_all_bars by done.
  cbn [List.map]. change (strip "") with "". change (String.eqb "" "") with true. cbv iota.
  rewrite List.map_app, List.map_map. cbn [List.map]. change (strip "") with "".
  assert (Hmap : List.map (fun cell => strip (" " +:+ cell +:+ " ")) cells = cells).
  { clear Hne. induction Hall as [|cell cells Hcell Hall IH]; [done|].
    cbn [List.map]. rewrite IH. destruct Hcell as (Hs & _). by rewrite strip_pad. }
  rewrite Hmap.
  destruct (removelast_snoc cells "" "") as [Hlast Hrem].
  destruct (cells ++ [""]) as [|c l] eqn:Hcl; [by destruct cells|].
  by rewrite Hlast, Hrem.
Qed.

Lemma dict_set_fresh {V : Type} (k : string) (v : V) (d : list (string * V)) :
  k ∉ d.*1 -> dict_set k v d = d ++ [(k, v)].
Proof.
  induction d as [|[k' v'] d IH]; cbn [dict_set fmap list_fmap fst app]; [done|].
  intros Hk. apply not_elem_of_cons in Hk as [Hne Hk].
  apply String.eqb_neq in Hne. rewrite Hne. by rewrite IH.
Qed.

Lemma fill_row_zip (headers : list string) (cells done_ : list string) :
  NoDup headers -> Forall (fun cell => strip cell = cell) cells ->
  length done_ + length cells = length headers ->
  fill_row headers (length done_) cells (zip (take (length done_) headers) done_)
  = zip headers (done_ ++ cells).
Proof.
  intros Hnd Hcells. revert done_.
  induction Hcells as [|cell cells Hcell Hcells IH]; intros done_ Hlen; cbn [fill_row].
  - rewrite app_nil_r. cbn in Hlen. rewrite Nat.add_0_r in Hlen.
    by rewrite Hlen, firstn_all.
  - cbn [length] in Hlen.
    destruct (lookup_lt_is_Some_2 headers (length done_)) as [h Hh]; [lia|].
    unfold column_name. rewrite Hh, Hcell.
    rewrite dict_set_fresh.
    + specialize (IH (done_ ++ [cell])).
      rewrite length_app in IH. cbn [length] in IH.
      replace (length done_ + 1) with (S (length done_)) in IH by lia.
      rewrite (take_S_r _ _ _ Hh) in IH.
      rewrite zip_with_app in IH by (rewrite length_take; lia).
      rewrite <- app_assoc in IH. apply IH. lia.
    + rewrite fst_zip by (rewrite length_take; lia).
      intros Hin. apply list_elem_of_lookup in Hin as [i Hi].
      pose proof (lookup_lt_Some _ _ _ Hi) as Hlt. rewrite length_take in Hlt.
      rewrite lookup_take_lt in Hi by lia.
      pose proof (NoDup_lookup _ _ _ _ Hnd Hi Hh). lia.
Qed.

End render_facts.

Section round_trip.
Import Py processing markdown spec.

Lemma join_ends (sep : string) (lines : list string) :
  lines <> [] -> Forall ends_ok lines -> ends_ok (join sep lines).
Proof.
  intros Hne Hall. induction Hall as [|line lines Hline Hall IH]; [done|].
  destruct lines as [|line' lines]; [done|].
  change (join sep (line :: line' :: lines)) with (line +:+ sep +:+ join sep (line' :: lines)).
  apply ends_ok_app, ends_ok_app. by apply IH.
Qed.

Lemma table_line_header (cells : list string) (table_data : list (list (string * string))) :
  line_ok cells ->
  table_line (None, table_data) (render_line cells) = (Some cells, table_data).
Proof.
  intros Hok. destruct (line_ok_separator cells Hok) as [Hsep Hne].
  unfold table_line. rewrite Hsep, render_line_strip.
  destruct (render_line_ends cells) as [_ Hline]. apply String.eqb_neq in Hline.
  rewrite Hline. cbn [fst snd]. rewrite cells_of_render_line; [done|done|apply Hok].
Qed.

Lemma table_line_row (headers cells : list string)
    (table_data : list (list (string * string))) :
  headers <> [] -> NoDup headers -> line_ok cells -> length cells = length headers ->
  table_line (Some headers, table_data) (render_line cells)
  = (Some headers, table_data ++ [zip headers cells]).
Proof.
  intros Hh Hnd Hok Hlen. destruct (line_ok_separator cells Hok) as [Hsep Hne].
  unfold table_line. rewrite Hsep, render_line_strip.
  destruct (render_line_ends cells) as [_ Hline]. apply String.eqb_neq in Hline.
  rewrite Hline. cbn [fst snd]. rewrite cells_of_render_line; [|done|apply Hok].
  destruct headers as [|h hs]; [done|].
  pose proof (fill_row_zip (h :: hs) cells [] Hnd) as Hfill.
  cbn [length take app zip_with] in Hfill. cbn [fst snd]. rewrite Hfill; [done| |done].
  destruct Hok as [Hcells _]. eapply Forall_impl; [exact Hcells|]. by intros cell [? _].
Qed.

Lemma table_line_skipped (st : option (list string) * list (list (string * string)))
    (cells : list string) :
  forallb is_separator cells = true -> table_line st (render_line cells) = st.
Proof. intros Hall. unfold table_line. by rewrite is_separator_render_line, Hall. Qed.

Lemma forallb_false_Exists {A : Type} (f : A -> bool) (l : list A) :
  forallb f l = false -> Exists (fun x => f x = false) l.
Proof.
  induction l as [|x l IH]; cbn [forallb]; [discriminate|].
  destruct (f x) eqn:Hx; [|by constructor]. intros H. apply Exists_cons_tl. by apply IH.
Qed.

Lemma table_lines_rows (headers : list string) (rows : list (list string))
    (table_data : list (list (string * string))) :
  headers <> [] -> NoDup headers ->
  Forall (fun row => Forall cell_ok row /\ length row = length headers) rows ->
  fold_left table_line (List.map render_line rows) (Some headers, table_data)
  = (Some headers,
     table_data ++ List.map (zip headers)
                     (List.filter (fun row => negb (forallb is_separator row)) rows)).
Proof.
  intros Hh Hnd Hrows. revert table_data.
  induction Hrows as [|row rows [Hcells Hlen] Hrows IH]; intros table_data;
    cbn [List.map List.filter fold_left].
  - by rewrite app_nil_r.
  - destruct (forallb is_separator row) eqn:Hsep; cbn [negb].
    + rewrite table_line_skipped by done. apply IH.
    + rewrite table_line_row; [|done|done| |done].
      * rewrite IH. cbn [List.map]. by rewrite <- app_assoc.
      * split; [done|]. by apply forallb_false_Exists.
Qed.

(** Reading back a table written in Markdown: a header line, a separator
    line and the rows.  For header cells that are all different and of
    which one has a character other than [-], [+] and the space, for
    cells that have no white space around them, no [|] and no line break,
    and rows as long as the header: [parse_markdown_table] returns the
    header cells, and for each row the dict from the header cells to the
    cells of the row, in order.  A row of which every cell is empty or made
    of [-], [+] and spaces is taken for a separator and left out. *)
Theorem markdown_round_trip (headers : list string) (rows : list (list string)) :
  line_ok headers -> NoDup headers ->
  Forall (fun row => Forall cell_ok row /\ length row = length headers) rows ->
  parse_markdown_table (render_table headers rows)
  = Table (Some headers)
      (List.map (zip headers)
         (List.filter (fun row => negb (forallb is_separator row)) rows)).
Proof.
  intros Hok Hnd Hrows.
  destruct (line_ok_separator headers Hok) as [_ Hne].
  set (lines := render_line headers :: "|---|" :: List.map render_line rows).
  assert (Hends : Forall ends_ok lines).
  { constructor; [apply render_line_ends|]. constructor; [by split|].
    apply Forall_fmap, Forall_true. intros row. apply render_line_ends. }
  assert (Hbreak : Forall (fun line => contains_char "010"%char line = false) lines).
  { constructor; [apply render_line_no_break, Hok|]. constructor; [done|].
    apply Forall_fmap. eapply Forall_impl; [exact Hrows|].
    intros row [Hcells _]. by apply render_line_no_break. }
  assert (Hstrip : strip (render_table headers rows) = render_table headers rows).
  { unfold strip, render_table. fold lines.
    change (lstrip (join nl lines)) with (join nl lines).
    by apply (join_ends nl lines). }
  assert (Hsplit : split_all "010" (render_table headers rows) = lines).
  { unfold render_table. fold lines. change nl with (String "010"%char "").
    by apply split_all_join. }
  unfold parse_markdown_table. rewrite Hstrip, Hsplit.
  subst lines. cbn [table_start].
  change (contains_char "|" (render_line headers)) with true. cbv iota. cbn [drop fold_left].
  rewrite table_line_header by done.
  change (table_line (Some headers, []) "|---|")
    with (Some headers, @nil (list (string * string))).
  by rewrite table_lines_rows.
Qed.

Lemma markdown_round_trip_witness :
  parse_markdown_table
    (render_table ["Item"; "Qty"] [["Pen"; "2"]; ["-"; ""]; ["Ink"; ""]])
  = Table (Some ["Item"; "Qty"])
      (List.map (zip ["Item"; "Qty"])
         (List.filter (fun row => negb (forallb is_separator row))
                      [["Pen"; "2"]; ["-"; ""]; ["Ink"; ""]])).
Proof.
  apply (markdown_round_trip ["Item"; "Qty"] [["Pen"; "2"]; ["-"; ""]; ["Ink"; ""]]).
  - split; [repeat constructor|]. by apply Exists_cons_hd.
  - apply (bool_decide_unpack _). vm_compute. reflexivity.
  - repeat constructor.
Defined.

End round_trip.

Section markdown_claims.
Import Py processing markdown spec.

(** The header and the rows of a parsed table, for any text.  Without a
    header line there is no row, and rows only come with a header that has
    a cell; every key of a row is a header cell, or [Column_n] for a cell
    at a place [n] beyond the header. *)
Theorem parsed_rows_follow_the_header (text : string) :
  (t_headers (parse_markdown_table text) = None -> t_rows (parse_markdown_table text) = [])
  /\ (forall headers,
        t_headers (parse_markdown_table text) = Some headers ->
        (t_rows (parse_markdown_table text) <> [] -> headers <> [])
        /\ Forall (fun row =>
                     Forall (fun kv : string * string =>
                               fst kv ∈ headers
                               \/ exists j, length headers <= j
                                            /\ fst kv = "Column_" +:+ str_of_nat (j + 1))
                            row)
                  (t_rows (parse_markdown_table text))).
Proof.
  pose proof (parse_markdown_table_ok text) as Hok. unfold table_ok in Hok. cbn [fst snd] in Hok.
  split.
  - intros Hnone. by rewrite Hnone in Hok.
  - intros headers Hsome. rewrite Hsome in Hok. destruct Hok as (_ & Hne & Hrows).
    split; [done|].
    eapply Forall_impl; [exact Hrows|]. intros row Hrow.
    eapply Forall_impl; [exact Hrow|]. by intros kv [_ ?].
Qed.

(** No cell of a parsed table has white space around it: the header cells
    and the values of the rows are as [strip] leaves them, for any text. *)
Theorem parsed_cells_are_stripped (text : string) :
  (forall headers, t_headers (parse_markdown_table text) = Some headers ->
                   Forall (fun header => strip header = header) headers)
  /\ Forall (fun row => Forall (fun kv : string * string => strip (snd kv) = snd kv) row)
            (t_rows (parse_markdown_table text)).
Proof.
  pose proof (parse_markdown_table_ok text) as Hok. unfold table_ok in Hok. cbn [fst snd] in Hok.
  destruct (t_headers (parse_markdown_table text)) as [headers|].
  - destruct Hok as (Hh & _ & Hrows). split; [by intros ? [= <-]|].
    eapply Forall_impl; [exact Hrows|]. intros row Hrow.
    eapply Forall_impl; [exact Hrow|]. by intros kv [? _].
  - rewrite Hok. split; [done|constructor].
Qed.

End markdown_claims.


(** ** The cleaning of a response *)

Section cleaning_facts.
Import Py llm spec.

Lemma ends_with_refl (s : string) : ends_with s s.
Proof. by exists "". Qed.

Lemma ends_with_cons (c : ascii) (s rest : string) :
  ends_with s rest -> ends_with (String c s) rest.
Proof. intros [removed ->]. by exists (String c removed). Qed.

Lemma ends_with_trans (s t rest : string) :
  ends_with s t -> ends_with t rest -> ends_with s rest.
Proof. intros [p ->] [q ->]. exists (p +:+ q). by rewrite append_assoc. Qed.

Lemma text_match_takes (ignore_case : bool) (text s rest : string) :
  text_match ignore_case text s = Some rest -> ends_with s rest.
Proof.
  revert s. induction text as [|t text IH]; intros s; cbn [text_match].
  - intros [= ->]. apply ends_with_refl.
  - destruct s as [|c s]; [discriminate|].
    destruct (if ignore_case then _ else _); [|discriminate].
    intros H. by apply ends_with_cons, IH.
Qed.

Lemma words_match_takes (ignore_case : bool) (texts : list string)
    (k : string -> option string) :
  takes k -> takes (fun s => words_match ignore_case texts s k).
Proof.
  intros Hk s rest. induction texts as [|text texts IH]; cbn [words_match]; [discriminate|].
  destruct (text_match ignore_case text s) as [s'|] eqn:Ht; [|exact IH].
  destruct (k s') as [r|] eqn:Hs'; [|exact IH].
  intros [= ->]. eapply ends_with_trans; [by eapply text_match_takes|by apply Hk].
Qed.

Lemma star_match_takes (cs : char_set) (k : string -> option string) :
  takes k -> takes (fun s => star_match cs s k).
Proof.
  intros Hk s. induction s as [|c s IH]; intros rest; cbn [star_match]; [apply Hk|].
  destruct (in_set cs c); [|apply Hk].
  destruct (star_match cs s k) as [r|] eqn:Hs; [|apply Hk].
  intros [= ->]. by apply ends_with_cons, IH.
Qed.

Lemma lazy_match_takes (cs : char_set) (k : string -> option string) :
  takes k -> takes (fun s => lazy_match cs s k).
Proof.
  intros Hk s. induction s as [|c s IH]; intros rest; cbn [lazy_match].
  - destruct (k "") eqn:H0; [|discriminate]. intros [= ->]. by apply Hk.
  - destruct (k (String c s)) eqn:H0; [intros [= ->]; by apply Hk|].
    destruct (in_set cs c); [|discriminate]. intros H. by apply ends_with_cons, IH.
Qed.

Lemma matches_takes (ignore_case : bool) (p : pattern) (k : string -> option string) :
  takes k -> takes (fun s => matches ignore_case p s k).
Proof.
  revert k. induction p as [texts|cs greedy|cs|p IHp q IHq]; intros k Hk; cbn [matches].
  - by apply words_match_takes.
  - intros [|c s] rest; [discriminate|].
    destruct (in_set cs c); [|discriminate]. destruct greedy; intros H; apply ends_with_cons.
    + by apply (star_match_takes cs k Hk).
    + by apply (lazy_match_takes cs k Hk).
  - by apply star_match_takes.
  - apply IHp. by apply IHq.
Qed.

Lemma sub_start_ends (ignore_case : bool) (p : pattern) (text : string) :
  ends_with text (sub_start ignore_case p text).
Proof.
  unfold sub_start. destruct (matches ignore_case p text Some) as [rest|] eqn:Hm.
  - apply (matches_takes ignore_case p Some); [|done].
    intros s r [= ->]. apply ends_with_refl.
  - apply ends_with_refl.
Qed.

(** [clean_llm_response] only takes text away from the start: what it
    returns is the end of the text it was given, so it adds nothing,
    changes nothing in what it keeps, and returns no more characters than
    it got. *)
Theorem cleaned_text_is_the_end (text : string) :
  ends_with text (clean_llm_response text)
  /\ String.length (clean_llm_response text) <= String.length text.
Proof.
  assert (Hends : ends_with text (clean_llm_response text)).
  { unfold clean_llm_response.
    eapply ends_with_trans; [|apply sub_start_ends].
    generalize intro_patterns. intros ps. revert text.
    induction ps as [|p ps IH]; intros text; cbn [fold_left]; [apply ends_with_refl|].
    eapply ends_with_trans; [apply sub_start_ends|apply IH]. }
  split; [exact Hends|].
  destruct Hends as [removed Heq]. rewrite Heq at 2. rewrite length_append. lia.
Qed.

End cleaning_facts.

Section cleaning_claims.
Import Py llm spec.

Lemma mark_cases (c : ascii) :
  is_mark c = true -> c = "|"%char \/ c = "*"%char \/ c = "#"%char.
Proof.
  unfold is_mark. cbn. intros Hc.
  destruct (Ascii.eqb_spec c "|"); [by left|].
  destruct (Ascii.eqb_spec c "*"); [by right; left|].
  destruct (Ascii.eqb_spec c "#"); [by right; right|discriminate].
Qed.

Lemma sub_start_mark (ignore_case : bool) (c : ascii) (rest : string) (p : pattern) :
  is_mark c = true ->
  p ∈ intro_patterns ++ [blank_lines] ->
  sub_start ignore_case p (String c rest) = String c rest.
Proof.
  intros Hc Hp. apply mark_cases in Hc as Hcases.
  unfold intro_patterns, blank_lines in Hp. cbn [app] in Hp.
  repeat (apply elem_of_cons in Hp as [-> |Hp];
          [destruct ignore_case; by destruct Hcases as [-> |[-> | ->]]|]).
  by apply elem_of_nil in Hp.
Qed.

Lemma intro_patterns_mark (ps : list pattern) (c : ascii) (rest : string) :
  is_mark c = true -> ps ⊆ intro_patterns ->
  fold_left (fun cleaned_text p => sub_start true p cleaned_text) ps (String c rest)
  = String c rest.
Proof.
  intros Hc. induction ps as [|p ps IH]; intros Hps; cbn [fold_left]; [done|].
  rewrite sub_start_mark; [|done|].
  - apply IH. intros q Hq. apply Hps. by constructor.
  - apply elem_of_app. left. apply Hps. constructor.
Qed.

(** A response that starts with [|], [*] or [#] is returned as it is. *)
Theorem marked_text_is_kept (c : ascii) (rest : string) :
  is_mark c = true ->
  clean_llm_response (String c rest) = String c rest.
Proof.
  intros Hc. unfold clean_llm_response.
  rewrite intro_patterns_mark by done.
  apply sub_start_mark; [done|]. apply elem_of_app. right. constructor.
Qed.

Lemma marked_text_is_kept_witness :
  clean_llm_response (String "|" " Item | Total |") = String "|" " Item | Total |".
Proof.
  apply (marked_text_is_kept "|" " Item | Total |").
  reflexivity.
Defined.

Lemma text_match_lower (phrase intro x : string) :
  lower intro = lower phrase -> text_match true phrase (intro +:+ x) = Some x.
Proof.
  revert intro. induction phrase as [|t phrase IH]; intros [|c intro]; try discriminate.
  - done.
  - unfold lower. cbn [map_chars]. intros [= Hc Hrest].
    rewrite append_cons. cbn [text_match]. rewrite Hc, Ascii.eqb_refl. by apply IH.
Qed.

Lemma text_match_clash (text phrase intro x : string) :
  clash text phrase = true -> lower intro = lower phrase ->
  text_match true text (intro +:+ x) = None.
Proof.
  revert phrase intro. induction text as [|t text IH]; intros [|p phrase] [|c intro];
    try discriminate.
  unfold lower. cbn [map_chars clash]. intros Hclash [= Hc Hrest].
  rewrite append_cons. cbn [text_match]. rewrite Hc.
  destruct (Ascii.eqb (lower_char t) (lower_char p)) eqn:Htp.
  - apply Ascii.eqb_eq in Htp. rewrite Htp, Ascii.eqb_refl. by apply (IH phrase).
  - rewrite Ascii.eqb_sym, Htp. reflexivity.
Qed.

Lemma words_match_phrase (texts : list string) (intro x : string)
    (k : string -> option string) (r : string) :
  apart texts = true -> lower intro ∈ lower <$> texts -> k x = Some r ->
  words_match true texts (intro +:+ x) k = Some r.
Proof.
  intros Hapart Hintro Hk.
  induction texts as [|text texts IH]; [by apply elem_of_nil in Hintro|].
  cbn [apart] in Hapart. apply andb_prop in Hapart as [Hclash Hapart].
  cbn [fmap list_fmap] in Hintro. cbn [words_match].
  apply elem_of_cons in Hintro as [Hintro|Hintro].
  - by rewrite text_match_lower, Hk.
  - pose proof Hintro as Hin. apply list_elem_of_fmap in Hin as (phrase & Hphrase & Hin).
    rewrite forallb_forall in Hclash.
    rewrite (text_match_clash text phrase); [by apply IH| |done].
    apply Hclash. by apply list_elem_of_In.
Qed.

Lemma star_match_run (chars : string) (body : string) (c : ascii) (rest : string) :
  all_chars (fun b => negb (contains_char b chars)) body = true ->
  contains_char c chars = true ->
  star_match (NoneOf chars) (body +:+ String c rest) Some = Some (String c rest).
Proof.
  intros Hbody Hc. induction body as [|b body IH].
  - change ("" +:+ String c rest) with (String c rest). cbn [star_match in_set].
    by rewrite Hc.
  - cbn [all_chars] in Hbody. apply andb_prop in Hbody as [Hb Hbody].
    rewrite append_cons. cbn [star_match in_set]. by rewrite Hb, IH.
Qed.

(** An introduction is removed up to the table.  A response that starts
    with one of the eight phrases of an introduction, in any letter case,
    goes on with at least one character, and only then has its first [|],
    [*] or [#], is returned from that character on. *)
Theorem introduction_is_removed (intro body : string) (c : ascii) (rest : string) :
  lower intro ∈ lower <$> intro_phrases ->
  body <> "" ->
  all_chars (fun b => negb (is_mark b)) body = true ->
  is_mark c = true ->
  clean_llm_response (intro +:+ body +:+ String c rest) = String c rest.
Proof.
  intros Hintro Hne Hbody Hc.
  assert (Hfirst : sub_start true
                     (Seq (Words intro_phrases) (Many (NoneOf "|*#") true))
                     (intro +:+ body +:+ String c rest)
                   = String c rest).
  { unfold sub_start.
    change (matches true (Seq (Words intro_phrases) ?q) ?s Some)
      with (words_match true intro_phrases s (fun s' => matches true q s' Some)).
    destruct body as [|b body]; [done|].
    cbn [all_chars] in Hbody. apply andb_prop in Hbody as [Hb Hbody].
    assert (Hk : (fun s' => matches true (Many (NoneOf "|*#") true) s' Some)
                   (String b body +:+ String c rest) = Some (String c rest)).
    { rewrite append_cons. cbn [matches in_set]. unfold is_mark in Hb. rewrite Hb.
      by apply star_match_run. }
    by rewrite (words_match_phrase intro_phrases intro _ _ (String c rest) eq_refl Hintro Hk). }
  unfold clean_llm_response.
  change intro_patterns
    with (Seq (Words intro_phrases) (Many (NoneOf "|*#") true) :: tail intro_patterns).
  cbn [fold_left]. rewrite Hfirst.
  rewrite intro_patterns_mark; [|done|].
  - apply sub_start_mark; [done|]. apply elem_of_app. right. constructor.
  - intros q Hq. by constructor.
Qed.

Lemma introduction_is_removed_witness :
  clean_llm_response ("CLARO" +:+ (", segue a tabela:" +:+ nl) +:+ String "|" " Item |")
  = String "|" " Item |".
Proof.
  apply (introduction_is_removed "CLARO" (", segue a tabela:" +:+ nl) "|" " Item |").
  - apply (bool_decide_unpack _). vm_compute. reflexivity.
  - discriminate.
  - reflexivity.
  - reflexivity.
Defined.

Lemma space_is_lower (w : ascii) : isspace w = true -> lower_char w = w.
Proof. by destruct w as [[] [] [] [] [] [] [] []]. Qed.

Lemma space_starts_no_word (w : ascii) :
  (isspace w || is_mark w)%bool = true ->
  starts_apart w intro_phrases = true
  /\ forall ws q, Seq (Many ws false) (Seq (Words q) (Seq (Many ws true) (Many (OneOf nl) true)))
                  ∈ intro_patterns ->
                  starts_apart w q = true.
Proof.
  intros Hw. split.
  - by destruct w as [[] [] [] [] [] [] [] []].
  - intros ws q Hq. unfold intro_patterns in Hq.
    apply elem_of_cons in Hq as [Hq|Hq]; [discriminate|].
    repeat (apply elem_of_cons in Hq as [[= -> ->]|Hq];
            [by destruct w as [[] [] [] [] [] [] [] []]|]).
    by apply elem_of_nil in Hq.
Qed.

Lemma words_match_apart (texts : list string) (w : ascii) (s : string)
    (k : string -> option string) :
  starts_apart w texts = true -> words_match true texts (String w s) k = None.
Proof.
  induction texts as [|text texts IH]; [done|].
  unfold starts_apart. cbn [forallb words_match]. intros Htexts.
  apply andb_prop in Htexts as [Htext Htexts].
  destruct text as [|t text]; [discriminate|]. cbn [text_match].
  apply negb_true_iff in Htext. rewrite Htext. by apply IH.
Qed.

Lemma lazy_match_spaces (cs : char_set) (run : string) (c : ascii) (rest : string)
    (k : string -> option string) :
  all_chars isspace run = true ->
  (forall w s, (isspace w || is_mark w)%bool = true -> k (String w s) = None) ->
  is_mark c = true -> in_set cs c = false ->
  lazy_match cs (run +:+ String c rest) k = None.
Proof.
  intros Hrun Hk Hc Hset. induction run as [|w run IH].
  - change ("" +:+ String c rest) with (String c rest). cbn [lazy_match].
    rewrite Hk, Hset; [done|]. by rewrite Hc, orb_true_r.
  - cbn [all_chars] in Hrun. apply andb_prop in Hrun as [Hw Hrun].
    rewrite append_cons. cbn [lazy_match]. rewrite Hk by (by rewrite Hw).
    destruct (in_set cs w); [by apply IH|done].
Qed.

Lemma sub_start_spaces (p : pattern) (w : ascii) (run : string) (c : ascii)
    (rest : string) :
  p ∈ intro_patterns -> isspace w = true -> all_chars isspace run = true ->
  is_mark c = true ->
  sub_start true p (String w run +:+ String c rest) = String w run +:+ String c rest.
Proof.
  intros Hp Hw Hrun Hc.
  assert (Hww : (isspace w || is_mark w)%bool = true) by (by rewrite Hw).
  destruct (space_starts_no_word w Hww) as [Hphrases Hwords].
  apply mark_cases in Hc as Hcases.
  pose proof Hp as Hin. unfold intro_patterns in Hin. fold intro_phrases in Hin.
  rewrite append_cons. unfold sub_start.
  apply elem_of_cons in Hin as [-> |Hin].
  { cbn [matches]. by rewrite words_match_apart. }
  assert (Hcase : exists q, p = Seq (Many (NoneOf ("|*#" +:+ nl)) false)
                                (Seq (Words q)
                                   (Seq (Many (NoneOf ("|*#" +:+ nl)) true)
                                        (Many (OneOf nl) true)))).
  { repeat (apply elem_of_cons in Hin as [-> |Hin]; [by eexists|]).
    by apply elem_of_nil in Hin. }
  destruct Hcase as [q ->]. specialize (Hwords _ _ Hp).
  cbn [matches]. destruct (in_set _ w); [|done].
  rewrite lazy_match_spaces; try done.
  - intros x s Hx. apply words_match_apart.
    destruct (space_starts_no_word x Hx) as [_ Hq]. by apply (Hq _ _ Hp).
  - by destruct Hcases as [-> |[-> | ->]].
Qed.

Lemma star_match_blank (blank : string) (c : ascii) (rest : string) :
  all_chars isspace blank = true -> is_mark c = true ->
  star_match Whitespace (blank +:+ String "010"%char (String c rest))
    (fun s' => matches false (Many (OneOf nl) true) s' Some)
  = Some (String c rest).
Proof.
  intros Hblank Hc. apply mark_cases in Hc as Hcases. induction blank as [|b blank IH].
  - change ("" +:+ ?s) with s. by destruct Hcases as [-> |[-> | ->]].
  - cbn [all_chars] in Hblank. apply andb_prop in Hblank as [Hb Hblank].
    rewrite append_cons. cbn [star_match in_set]. by rewrite Hb, IH.
Qed.

Lemma all_chars_app (p : ascii -> bool) (s t : string) :
  all_chars p (s +:+ t) = (all_chars p s && all_chars p t)%bool.
Proof.
  induction s as [|c s IH]; [done|].
  rewrite append_cons. cbn [all_chars]. by rewrite IH, andb_assoc.
Qed.

(** Blank lines before the table are dropped.  A response that is white
    space up to the end of a line, and then starts with [|], [*] or [#], is
    returned from that character on. *)
Theorem blank_lines_are_dropped (blank : string) (c : ascii) (rest : string) :
  all_chars isspace blank = true ->
  is_mark c = true ->
  clean_llm_response (blank +:+ nl +:+ String c rest) = String c rest.
Proof.
  intros Hblank Hc.
  change (nl +:+ String c rest) with (String "010"%char (String c rest)).
  assert (Hintro : forall ps, ps ⊆ intro_patterns ->
            fold_left (fun cleaned_text p => sub_start true p cleaned_text) ps
              (blank +:+ String "010"%char (String c rest))
            = blank +:+ String "010"%char (String c rest)).
  { assert (Hshape : exists w run, isspace w = true /\ all_chars isspace run = true
              /\ blank +:+ String "010"%char (String c rest)
                 = String w run +:+ String c rest).
    { destruct blank as [|b blank].
      - by exists "010"%char, "".
      - cbn [all_chars] in Hblank. apply andb_prop in Hblank as [Hb Hblank].
        exists b, (blank +:+ nl). rewrite all_chars_app, Hblank.
        repeat split; [done|]. rewrite !append_cons. f_equal.
        by rewrite append_assoc. }
    destruct Hshape as (w & run & Hw & Hrun & ->).
    induction ps as [|p ps IH]; intros Hps; cbn [fold_left]; [done|].
    rewrite sub_start_spaces; try done.
    - apply IH. intros q Hq. apply Hps. by constructor.
    - apply Hps. constructor. }
  unfold clean_llm_response. rewrite Hintro by done.
  unfold sub_start, blank_lines. cbn [matches]. by rewrite star_match_blank.
Qed.

Lemma blank_lines_are_dropped_witness :
  clean_llm_response ((" " +:+ nl +:+ tab) +:+ nl +:+ String "#" " Report")
  = String "#" " Report".
Proof.
  apply (blank_lines_are_dropped (" " +:+ nl +:+ tab) "#" " Report").
  - reflexivity.
  - reflexivity.
Defined.

End cleaning_claims.
